(** * OfficeReader-MCP: the conversion pipeline, embedded in Rocq

    Shallow embedding of the parts of [officereader_mcp] that decide the
    behaviour of the Markdown rendering and of the image optimizer:

    - [converter.py]       : [DocxConverter._process_paragraph],
                             [_clean_markdown], [_get_file_hash], output naming;
    - [excel_converter.py] : row filtering, [_create_markdown_table];
    - [pptx_converter.py]  : per-slide shape traversal with image extraction;
    - [image_optimizer.py] : [_resize_if_needed], [_is_photo_like],
                             [_choose_format], [optimize_image].

    Python [str] values are modelled by [string]; a character is a code point
    below 256.  Python [int] is [Z].  Python [float] (IEEE-754 binary64) is
    modelled by the rationals that are representable, with the rounding
    function [PyFloat.fl] written out. *)

From Stdlib Require Import ZArith QArith Qround Qabs Qpower Qminmax Lqa.
From Stdlib Require Import List String Ascii Bool Arith Lia.
From Stdlib Require Import PrimInt63 Uint63 PrimFloat FloatOps SpecFloat.
Import ListNotations.

Close Scope Q_scope.
Local Open Scope string_scope.
Local Open Scope nat_scope.

(* ================================================================== *)
(** * Part I. Definitions                                              *)
(* ================================================================== *)

(** ** Python string primitives *)

Module PyStr.

Definition code (c : ascii) : nat := nat_of_ascii c.

(** [str.isspace] on one character, restricted to code points below 256:
    U+0009..U+000D, U+001C..U+001F, U+0020, U+0085, U+00A0.  The regular
    expression class [\s] on [str] patterns matches the same characters. *)
Definition is_space (c : ascii) : bool :=
  let n := code c in
  ((9 <=? n) && (n <=? 13)) || ((28 <=? n) && (n <=? 32))
  || (n =? 133) || (n =? 160).

Definition newline : ascii := "010"%char.
Definition nl : string := String newline "".

(** [s.lstrip()] *)
Fixpoint lstrip (s : string) : string :=
  match s with
  | "" => ""
  | String c s' => if is_space c then lstrip s' else s
  end.

(** [s.rstrip()] *)
Fixpoint rstrip (s : string) : string :=
  match s with
  | "" => ""
  | String c s' =>
      match rstrip s' with
      | "" => if is_space c then "" else String c ""
      | t => String c t
      end
  end.

(** [s.strip()] *)
Definition strip (s : string) : string := rstrip (lstrip s).

(** truth value of a [str]: non-empty *)
Definition truthy (s : string) : bool :=
  match s with "" => false | _ => true end.

(** [s.startswith(p)] *)
Definition startswith (p s : string) : bool := String.prefix p s.

(** [c * n] for a string [c] and an [int] [n] (empty when [n <= 0]) *)
Fixpoint repeat_nat (c : string) (n : nat) : string :=
  match n with
  | O => ""
  | S k => c ++ repeat_nat c k
  end.

Definition repeat (c : string) (n : Z) : string := repeat_nat c (Z.to_nat n).

(** [sep.join(parts)] *)
Fixpoint join (sep : string) (parts : list string) : string :=
  match parts with
  | [] => ""
  | [p] => p
  | p :: rest => p ++ sep ++ join sep rest
  end.

(** [s.replace(old, new)] for a one-character [old] *)
Fixpoint replace_char (old : ascii) (new : string) (s : string) : string :=
  match s with
  | "" => ""
  | String c s' =>
      if Ascii.eqb c old then new ++ replace_char old new s'
      else String c (replace_char old new s')
  end.

(** [s.replace(old, new)] for a non-empty [old]: occurrences are found from
    the left and do not overlap.  [skip] counts the characters of a matched
    occurrence that are still to be passed over. *)
Fixpoint replace_go (old new : string) (skip : nat) (s : string) : string :=
  match s with
  | "" => ""
  | String c s' =>
      match skip with
      | S k => replace_go old new k s'
      | O =>
          if String.prefix old s
          then new ++ replace_go old new (String.length old - 1) s'
          else String c (replace_go old new 0 s')
      end
  end.

Definition replace (old new s : string) : string := replace_go old new 0 s.

(** [s.split("\n")] *)
Fixpoint split_lines (s : string) : list string :=
  match s with
  | "" => [""]
  | String c s' =>
      if Ascii.eqb c newline then "" :: split_lines s'
      else match split_lines s' with
           | [] => [String c ""]
           | l :: ls => String c l :: ls
           end
  end.

(** [s.lower()]: the letters A-Z and, above 127, U+00C0..U+00DE except the
    multiplication sign U+00D7 *)
Definition lower_char (c : ascii) : ascii :=
  let n := code c in
  if ((65 <=? n) && (n <=? 90))
     || ((192 <=? n) && (n <=? 222) && negb (n =? 215))
  then ascii_of_nat (n + 32) else c.

Fixpoint lower (s : string) : string :=
  match s with
  | "" => ""
  | String c s' => String (lower_char c) (lower s')
  end.

(** [s in options] for a list of strings *)
Definition mem (s : string) (options : list string) : bool :=
  existsb (String.eqb s) options.

(** *** [int(s)] in base 10

    Surrounding whitespace is stripped, where [int] takes for whitespace
    U+0009..U+000D, U+0020, U+0085 and U+00A0 (not U+001C..U+001F, which
    [str.strip] removes); an optional sign is followed by decimal digits,
    where single underscores may separate digits.  [None] stands for
    [ValueError]. *)
Definition is_int_space (c : ascii) : bool :=
  let n := code c in
  ((9 <=? n) && (n <=? 13)) || (n =? 32) || (n =? 133) || (n =? 160).

Fixpoint lstrip_int (s : string) : string :=
  match s with
  | "" => ""
  | String c s' => if is_int_space c then lstrip_int s' else s
  end.

Fixpoint rstrip_int (s : string) : string :=
  match s with
  | "" => ""
  | String c s' =>
      match rstrip_int s' with
      | "" => if is_int_space c then "" else String c ""
      | t => String c t
      end
  end.

Definition digit_of (c : ascii) : option Z :=
  let n := code c in
  if (48 <=? n) && (n <=? 57) then Some (Z.of_nat (n - 48)) else None.

Local Open Scope Z_scope.

(** [digits acc prev_digit s]: [prev_digit] tells whether the previous
    character was a digit (an underscore is legal only between digits). *)
Fixpoint digits (acc : Z) (prev_digit : bool) (s : string) : option Z :=
  match s with
  | "" => if prev_digit then Some acc else None
  | String c s' =>
      match digit_of c with
      | Some d => digits (10 * acc + d) true s'
      | None =>
          if Ascii.eqb c "_"%char && prev_digit
          then match s' with
               | String c' _ =>
                   match digit_of c' with
                   | Some _ => digits acc false s'
                   | None => None
                   end
               | "" => None
               end
          else None
      end
  end.

Definition py_int (s : string) : option Z :=
  match rstrip_int (lstrip_int s) with
  | String "-" t => option_map Z.opp (digits 0 false t)
  | String "+" t => digits 0 false t
  | t => digits 0 false t
  end.

(** [f"{n:03d}"] for a non-negative [n]: decimal, zero-padded to width 3 *)
Fixpoint dec_digits (fuel : nat) (n : Z) (acc : string) : string :=
  match fuel with
  | O => acc
  | S k =>
      let acc' := String (ascii_of_nat (48 + Z.to_nat (n mod 10))%nat) acc in
      if n <? 10 then acc' else dec_digits k (n / 10) acc'
  end.

Definition str_of_nonneg (n : Z) : string :=
  dec_digits (S (Z.to_nat (Z.log2 n))) n "".

(** [s.lstrip(".")] *)
Fixpoint lstrip_dots (s : string) : string :=
  match s with
  | String "." s' => lstrip_dots s'
  | _ => s
  end.

Definition fmt_03d (n : Z) : string :=
  let d := str_of_nonneg n in
  repeat_nat "0" (3 - String.length d)%nat ++ d.

End PyStr.

(** [l.append(x)] *)
Definition snoc {A : Type} (l : list A) (x : A) : list A := (l ++ [x])%list.

(** ** [base64.b64encode(data).decode("utf-8")] *)

Module PyBase64.

Local Open Scope N_scope.

Definition alphabet : string :=
  "ABCDEFGHIJKLMNOPQRSTUVWXYZabcdefghijklmnopqrstuvwxyz0123456789+/".

Definition sextet (n : N) : string :=
  match String.get (N.to_nat (n mod 64)) alphabet with
  | Some c => String c ""
  | None => ""
  end.

Fixpoint b64encode (data : list Byte.byte) : string :=
  match data with
  | [] => ""
  | [a] =>
      let n := Byte.to_N a * 65536 in
      sextet (n / 262144) ++ sextet (n / 4096) ++ "=="
  | [a; b] =>
      let n := Byte.to_N a * 65536 + Byte.to_N b * 256 in
      sextet (n / 262144) ++ sextet (n / 4096) ++ sextet (n / 64) ++ "="
  | a :: b :: c :: rest =>
      let n := Byte.to_N a * 65536 + Byte.to_N b * 256 + Byte.to_N c in
      sextet (n / 262144) ++ sextet (n / 4096) ++ sextet (n / 64) ++ sextet n
      ++ b64encode rest
  end.

End PyBase64.

(** ** The file system the converters write to

    [open(path, "wb")] followed by [write] either stores the bytes or raises
    [OSError]; the paths on which it raises are those of [fs_unwritable]. *)

Module FS.

Record fs := mkFs {
  fs_files : list (string * list Byte.byte);
  fs_unwritable : list string
}.

Definition write (path : string) (data : list Byte.byte) (s : fs) : option fs :=
  if PyStr.mem path (fs_unwritable s) then None
  else Some (mkFs ((path, data) :: fs_files s) (fs_unwritable s)).

Definition path_join (dir name : string) : string := dir ++ "/" ++ name.

End FS.

(** ** [converter.py]: the Word adapter *)

Module Docx.
Import PyStr.

(** A run of a paragraph: [run.text], the truth values of [run.bold],
    [run.italic], [run.underline], [run.font.strike], and the [r:embed]
    attribute of each [a:blip] element below the run ([None] when the
    attribute is absent). *)
Record run := mkRun {
  run_text : string;
  run_bold : bool;
  run_italic : bool;
  run_underline : bool;
  run_strike : bool;
  run_blips : list (option string)
}.

(** The numbering properties of a paragraph: [pPr] may be absent, so may
    [numPr] below it and [ilvl] below that; [ilvl] carries the [w:val]
    attribute ([None] when the attribute is absent). *)
Record paragraph := mkParagraph {
  para_style_name : string;          (* [para.style.name if para.style else ""] *)
  para_runs : list run;
  para_pPr : option (option (option (option string)))
}.

(** An image part of the package: [blob] and [content_type]. *)
Record image_part := mkImagePart {
  part_blob : list Byte.byte;
  part_content_type : string
}.

(** [doc.part.related_parts]: relationship id -> part *)
Definition related_parts := list (string * image_part).

Fixpoint related_get (rid : string) (parts : related_parts) : option image_part :=
  match parts with
  | [] => None
  | (k, v) :: rest => if String.eqb k rid then Some v else related_get rid rest
  end.

(** *** Heading detection (lines 300-308) *)
Definition heading_level (style_name : string) : Z :=
  if startswith "Heading" style_name then
    match py_int (strip (replace "Heading" "" style_name)) with
    | Some n => n
    | None => 0%Z
    end
  else 0%Z.

(** *** Inline formatting of one run (lines 317-325) *)
Definition format_run (r : run) : string :=
  let text := run_text r in
  let text := if run_bold r then "**" ++ text ++ "**" else text in
  let text := if run_italic r then "*" ++ text ++ "*" else text in
  let text := if run_underline r then "<u>" ++ text ++ "</u>" else text in
  let text := if run_strike r then "~~" ++ text ++ "~~" else text in
  text.

(** The first loop over [para.runs] (lines 311-327): runs with empty text
    are skipped. *)
Fixpoint run_text_parts (runs : list run) : list string :=
  match runs with
  | [] => []
  | r :: rest =>
      if truthy (run_text r) then format_run r :: run_text_parts rest
      else run_text_parts rest
  end.

(** *** Inline images (lines 330-366) *)
Definition ext_map (content_type : string) : string :=
  if String.eqb content_type "image/png" then ".png"
  else if String.eqb content_type "image/jpeg" then ".jpg"
  else if String.eqb content_type "image/gif" then ".gif"
  else if String.eqb content_type "image/bmp" then ".bmp"
  else ".png".

(** The state the image loop updates: the local [image_counter], the
    [images] list, [text_parts] and the file system. *)
Record img_state := mkImgState {
  st_counter : Z;
  st_images : list string;
  st_text_parts : list string;
  st_fs : FS.fs
}.

(** The body of the innermost loop for one [a:blip].  The [try] block is
    left at the first statement that raises, with the assignments made so
    far kept ([except Exception: pass]). *)
Definition extract_blip (parts : related_parts) (image_format images_dir : string)
    (st : img_state) (embed_id : option string) : img_state :=
  match embed_id with
  | None => st
  | Some rid =>
      if negb (truthy rid) then st else
      match related_get rid parts with
      | None => st
      | Some image_part =>
          let counter := (st_counter st + 1)%Z in
          let img_data := part_blob image_part in
          let content_type := part_content_type image_part in
          let ext := ext_map content_type in
          let img_name := "image_" ++ fmt_03d counter ++ ext in
          let img_path := FS.path_join images_dir img_name in
          let written :=
            if mem image_format ["file"; "both"] then
              match FS.write img_path img_data (st_fs st) with
              | Some fs' => Some (snoc (st_images st) img_path, fs')
              | None => None
              end
            else Some (st_images st, st_fs st) in
          match written with
          | None => mkImgState counter (st_images st) (st_text_parts st) (st_fs st)
          | Some (images, fs') =>
              let part :=
                if String.eqb image_format "base64"
                then nl ++ "![image](data:" ++ content_type ++ ";base64,"
                     ++ PyBase64.b64encode img_data ++ ")" ++ nl
                else nl ++ "![image](images/" ++ img_name ++ ")" ++ nl in
              mkImgState counter images (snoc (st_text_parts st) part) fs'
          end
      end
  end.

Definition extract_run_images (parts : related_parts) (image_format images_dir : string)
    (st : img_state) (r : run) : img_state :=
  fold_left (extract_blip parts image_format images_dir) (run_blips r) st.

Definition extract_images_of (parts : related_parts) (image_format images_dir : string)
    (st : img_state) (runs : list run) : img_state :=
  fold_left (extract_run_images parts image_format images_dir) runs st.

(** *** List items (lines 377-384).  [None] stands for the exception that
    [int] raises on a missing or malformed [w:val]. *)
Definition list_prefix (pPr : option (option (option (option string)))) (full_text : string)
    : option string :=
  match pPr with
  | Some (Some ilvl) =>
      match ilvl with
      | None => Some ("- " ++ full_text)
      | Some None => None
      | Some (Some val) =>
          match py_int val with
          | Some level => Some (repeat "  " level ++ "- " ++ full_text)
          | None => None
          end
      end
  | _ => Some full_text
  end.

(** *** [_process_paragraph]: returns the file system after the image
    writes and, unless an exception escapes, [(full_text, images)]. *)
Definition _process_paragraph (para : paragraph) (parts : related_parts)
    (extract_images : bool) (image_format images_dir : string)
    (image_counter : Z) (fs0 : FS.fs) : FS.fs * option (string * list string) :=
  let level := heading_level (para_style_name para) in
  let st0 := mkImgState image_counter [] (run_text_parts (para_runs para)) fs0 in
  let st := if extract_images
            then extract_images_of parts image_format images_dir st0 (para_runs para)
            else st0 in
  let full_text := strip (join "" (st_text_parts st)) in
  if negb (truthy full_text) then (st_fs st, Some ("", st_images st)) else
  let full_text :=
    if (0 <? level)%Z then repeat "#" level ++ " " ++ full_text else full_text in
  match list_prefix (para_pPr para) full_text with
  | Some text => (st_fs st, Some (text, st_images st))
  | None => (st_fs st, None)
  end.

(** *** [_process_table] (lines 388-409) *)
Definition table_cell_text (cell_text : string) : string :=
  replace_char "|" "\|" (replace_char newline " " (strip cell_text)).

Definition md_row (cells : list string) : string :=
  "| " ++ join " | " cells ++ " |".

Definition separator_row (n : nat) : string :=
  "| " ++ join " | " (List.repeat "---" n) ++ " |".

Fixpoint table_rows (i : nat) (rows : list (list string)) : list string :=
  match rows with
  | [] => []
  | row :: rest =>
      let cells := map table_cell_text row in
      (md_row cells
       :: (if Nat.eqb i 0 then [separator_row (List.length cells)] else []))
      ++ table_rows (S i) rest
  end%list.

Definition _process_table (rows : list (list string)) : string :=
  match rows with
  | [] => ""
  | _ => join nl (table_rows 0 rows)
  end.

(** *** [_clean_markdown] (lines 418-433) *)

(** [re.sub(r"\n{3,}", "\n\n", s)]: [run] is the number of newlines read
    since the last other character. *)
Definition emit_newlines (run : nat) : string :=
  if 3 <=? run then nl ++ nl else repeat_nat nl run.

Fixpoint collapse_newlines (run : nat) (s : string) : string :=
  match s with
  | "" => emit_newlines run
  | String c s' =>
      if Ascii.eqb c newline then collapse_newlines (S run) s'
      else emit_newlines run ++ String c (collapse_newlines 0 s')
  end.

(** Length of the longest prefix of [s] that matches [\s*\n]: whitespace
    up to and including the last newline of the leading whitespace run
    (0 when that run holds no newline). *)
Fixpoint ws_to_last_newline (s : string) : nat :=
  match s with
  | "" => 0
  | String c s' =>
      if is_space c then
        match ws_to_last_newline s' with
        | O => if Ascii.eqb c newline then 1 else 0
        | S k => S (S k)
        end
      else 0
  end.

Fixpoint count_hashes (s : string) : nat :=
  match s with
  | String "#" s' => S (count_hashes s')
  | _ => 0
  end.

Fixpoint drop (n : nat) (s : string) : string :=
  match n, s with
  | O, _ => s
  | S k, String _ s' => drop k s'
  | S _, "" => ""
  end.

(** [re.sub(r"(#{1,6})\s*\n+", r"\1 ", s)]: a match starts at a [#] that
    heads at most six [#] followed by whitespace holding a newline. *)
Fixpoint fix_headers (skip : nat) (s : string) : string :=
  match s with
  | "" => ""
  | String c s' =>
      match skip with
      | S k => fix_headers k s'
      | O =>
          let h := count_hashes s in
          let w := ws_to_last_newline (drop h s) in
          if (1 <=? h) && (h <=? 6) && (1 <=? w)
          then repeat_nat "#" h ++ " " ++ fix_headers (h + w - 1) s'
          else String c (fix_headers 0 s')
      end
  end.

Fixpoint span_space (s : string) : nat :=
  match s with
  | String c s' => if is_space c then S (span_space s') else 0
  | "" => 0
  end.

(** [re.sub(r"\n\s*-\s*\n", "\n", s)] *)
Fixpoint fix_lists (skip : nat) (s : string) : string :=
  match s with
  | "" => ""
  | String c s' =>
      match skip with
      | S k => fix_lists k s'
      | O =>
          let a := span_space s' in
          match drop a s' with
          | String "-" t =>
              let w := ws_to_last_newline t in
              if Ascii.eqb c newline && (1 <=? w)
              then nl ++ fix_lists (a + 1 + w) s'
              else String c (fix_lists 0 s')
          | _ => String c (fix_lists 0 s')
          end
      end
  end.

Definition _clean_markdown (markdown : string) : string :=
  let markdown := collapse_newlines 0 markdown in
  let markdown := fix_headers 0 markdown in
  let markdown := fix_lists 0 markdown in
  let lines := map rstrip (split_lines markdown) in
  let markdown := join nl lines in
  strip markdown.

(** *** [_convert_docx] (lines 152-200): the body elements in document
    order. *)
Inductive body_element :=
| BParagraph (p : paragraph)
| BTable (rows : list (list string))
| BOther.

Record docx_state := mkDocxState {
  ds_parts : list string;
  ds_images : list string;
  ds_counter : Z;
  ds_fs : FS.fs
}.

Definition convert_element (parts : related_parts) (extract_images : bool)
    (image_format images_dir : string) (st : option docx_state) (e : body_element)
    : option docx_state :=
  match st with
  | None => None
  | Some st =>
      match e with
      | BParagraph para =>
          match _process_paragraph para parts extract_images image_format
                  images_dir (ds_counter st) (ds_fs st) with
          | (fs', Some (md_text, new_images)) =>
              Some (mkDocxState
                      (if truthy md_text then snoc (ds_parts st) md_text else ds_parts st)
                      (ds_images st ++ new_images)
                      (ds_counter st + Z.of_nat (List.length new_images))
                      fs')
          | (_, None) => None
          end
      | BTable rows =>
          let md_table := _process_table rows in
          Some (mkDocxState
                  (if truthy md_table then snoc (ds_parts st) md_table else ds_parts st)
                  (ds_images st) (ds_counter st) (ds_fs st))
      | BOther => Some st
      end
  end%list.

Record conversion := mkConversion {
  markdown : string;
  images : list string;
  fs_after : FS.fs
}.

Definition _convert_docx (body : list body_element) (parts : related_parts)
    (extract_images : bool) (image_format images_dir : string) (fs0 : FS.fs)
    : option conversion :=
  match fold_left (convert_element parts extract_images image_format images_dir)
          body (Some (mkDocxState [] [] 0 fs0)) with
  | Some st =>
      Some (mkConversion (_clean_markdown (join (nl ++ nl) (ds_parts st)))
              (ds_images st) (ds_fs st))
  | None => None
  end.

End Docx.

(** ** Python [float]: IEEE-754 binary64 with round-to-nearest-even

    A finite float is the rational it denotes.  [fl x] is the float nearest
    to the rational [x] (ties to the even significand): 53 significant bits,
    exponent of the last place not below -1074 (gradual underflow).
    Overflow (a magnitude of [2^1024] or more) is outside the model; the
    optimizer only divides and multiplies image dimensions. *)

Module PyFloat.

Local Open Scope Q_scope.

Definition pow2 (e : Z) : Q := 2 ^ e.

(** [floor_log2 x] for [0 < x]: the [E] with [2^E <= x < 2^(E+1)] *)
Definition floor_log2 (x : Q) : Z :=
  let d := (Z.log2 (Qnum x) - Z.log2 (Zpos (Qden x)))%Z in
  if Qle_bool (pow2 d) x then d else (d - 1)%Z.

Definition round_half_even (y : Q) : Z :=
  let f := Qfloor y in
  match Qcompare (y - inject_Z f) (1 # 2) with
  | Lt => f
  | Gt => (f + 1)%Z
  | Eq => if Z.even f then f else (f + 1)%Z
  end.

Definition ulp_exp (x : Q) : Z := Z.max (floor_log2 x - 52) (-1074).

Definition fl_pos (x : Q) : Q :=
  let e := ulp_exp x in
  inject_Z (round_half_even (x / pow2 e)) * pow2 e.

Definition fl (x : Q) : Q :=
  match Qcompare x 0 with
  | Eq => 0
  | Gt => fl_pos x
  | Lt => - fl_pos (- x)
  end.

(** [a / b] on two [int]s: the correctly rounded quotient; [None] stands
    for [ZeroDivisionError]. *)
Definition truediv (a b : Z) : option Q :=
  if (b =? 0)%Z then None else Some (fl (inject_Z a / inject_Z b)).

(** [float(n)] *)
Definition of_int (n : Z) : Q := fl (inject_Z n).

(** [n * x] for an [int] [n] and a [float] [x] *)
Definition int_mul (n : Z) (x : Q) : Q := fl (of_int n * x).

(** [min(x, y)]: the first argument unless the second is smaller *)
Definition min (x y : Q) : Q := if Qle_bool x y then x else y.

(** [int(x)]: truncation towards zero *)
Definition to_int (x : Q) : Z := if Qle_bool 0 x then Qfloor x else Qceiling x.

(** [x > y] *)
Definition gt (x y : Q) : bool := negb (Qle_bool x y).

End PyFloat.

(** ** The machine's binary64, to compare [PyFloat.fl] with *)

Module HwFloat.

(** The rational a finite machine float denotes *)
Definition to_Q (x : float) : option Q :=
  match Prim2SF x with
  | S754_zero _ => Some 0%Q
  | S754_finite sign m e =>
      Some ((if sign then - inject_Z (Zpos m) else inject_Z (Zpos m)) * PyFloat.pow2 e)%Q
  | _ => None
  end.

Definition of_int (n : Z) : float := PrimFloat.of_uint63 (Uint63.of_Z n).

(** [a / b] and [n * x] as the machine computes them *)
Definition truediv (a b : Z) : float := PrimFloat.div (of_int a) (of_int b).
Definition int_mul (n : Z) (x : float) : float := PrimFloat.mul (of_int n) x.

(** The machine float [x] denotes the rational [q] *)
Definition denotes (x : float) (q : Q) : Prop :=
  match to_Q x with
  | Some y => (y == q)%Q
  | None => False
  end.

End HwFloat.

(** ** Exceptions: a call returns a value or raises *)

Inductive result (A : Type) : Type :=
| Ok (a : A)
| Raise (msg : string).
Arguments Ok {A} a.
Arguments Raise {A} msg.

Definition bind {A B : Type} (r : result A) (k : A -> result B) : result B :=
  match r with
  | Ok a => k a
  | Raise msg => Raise msg
  end.

Notation "x <- r ;; k" := (bind r (fun x => k))
  (at level 61, r at next level, right associativity).
Notation "' pat <- r ;; k" := (bind r (fun x => match x with pat => k end))
  (at level 61, pat pattern, r at next level, right associativity).

(** ** [image_optimizer.py] *)

Module ImageOptimizer.
Import PyStr.

(** A decoded [PIL.Image]: [mode], [size] and the pixel values in row
    order, one list of channel values per pixel. *)
Definition pixel := list Z.

Record pil_image := mkImage {
  im_mode : string;
  im_width : Z;
  im_height : Z;
  im_pixels : list pixel
}.

(** Keyword arguments of [Image.save] as the optimizer passes them. *)
Record save_options := mkSave {
  sv_format : string;
  sv_quality : option Z;
  sv_lossless : option bool;
  sv_method : option Z;
  sv_optimize : option bool;
  sv_compress_level : option Z;
  sv_progressive : option bool
}.

(** The operations of the imaging library that the optimizer calls:
    [Image.open], the per-pixel mode conversion of [Image.convert], the
    pixel data of [Image.resize(size, LANCZOS)], pasting onto a white
    [RGB] background (with the alpha band as mask or without), and the
    encoder behind [Image.save]. *)
Class PIL := {
  pil_open : list Byte.byte -> result pil_image;
  pil_convert_pixel : string -> string -> pixel -> pixel;
  pil_resample : pil_image -> Z -> Z -> list pixel;
  pil_paste_on_white : bool -> pil_image -> list pixel;
  pil_save : pil_image -> save_options -> list Byte.byte
}.

Record optimizer := mkOptimizer {
  max_width : Z;
  max_height : Z;
  jpeg_quality : Z;
  webp_quality : Z;
  prefer_webp : bool;
  size_threshold_kb : Z
}.

(** [ImageOptimizer()] with the defaults of [__init__] *)
Definition default_optimizer : optimizer := mkOptimizer 1920 1080 85 80 true 100.

Section WithPIL.
Context {pil : PIL}.

(** [image.convert(mode)] *)
Definition convert (mode : string) (image : pil_image) : pil_image :=
  mkImage mode (im_width image) (im_height image)
    (map (pil_convert_pixel (im_mode image) mode) (im_pixels image)).

(** [image.resize((w, h), Image.Resampling.LANCZOS)] *)
Definition resize (image : pil_image) (w h : Z) : pil_image :=
  mkImage (im_mode image) w h (pil_resample image w h).

(** The size [_resize_if_needed] asks for (lines 89-91). *)
Definition new_size (self : optimizer) (width height : Z) : result (Z * Z) :=
  match PyFloat.truediv (max_width self) width,
        PyFloat.truediv (max_height self) height with
  | Some rw, Some rh =>
      let ratio := PyFloat.min rw rh in
      Ok (PyFloat.to_int (PyFloat.int_mul width ratio),
          PyFloat.to_int (PyFloat.int_mul height ratio))
  | _, _ => Raise "division by zero"
  end.

(** [_resize_if_needed] (lines 81-94) *)
Definition _resize_if_needed (self : optimizer) (image : pil_image) : result pil_image :=
  let width := im_width image in
  let height := im_height image in
  if (width <=? max_width self)%Z && (height <=? max_height self)%Z
  then Ok image
  else
'(new_width, new_height) <- new_size self width height ;;
    Ok (resize image new_width new_height).

(** [image.getcolors(maxcolors)]: the distinct pixel values with their
    number of occurrences, [None] when there are more than [maxcolors]. *)
Definition pixel_eqb (p q : pixel) : bool :=
  if list_eq_dec Z.eq_dec p q then true else false.

Fixpoint add_color (p : pixel) (acc : list (nat * pixel)) : list (nat * pixel) :=
  match acc with
  | [] => [(1, p)]
  | (k, q) :: rest =>
      if pixel_eqb p q then (S k, q) :: rest else (k, q) :: add_color p rest
  end.

Definition getcolors (maxcolors : nat) (image : pil_image) : option (list (nat * pixel)) :=
  let colors := fold_left (fun acc p => add_color p acc) (im_pixels image) [] in
  if List.length colors <=? maxcolors then Some colors else None.

(** The literal [0.3] *)
Definition lit_0_3 : Q := PyFloat.fl (3 # 10).

(** [_is_photo_like] (lines 123-148) *)
Definition _is_photo_like (image : pil_image) : bool :=
  let test_image :=
    if negb (String.eqb (im_mode image) "RGB") then convert "RGB" image else image in
  let width := im_width test_image in
  let height := im_height test_image in
  let sample_size := (Z.min 100 width * Z.min 100 height)%Z in
  match getcolors 1000 test_image with
  | None => true
  | Some colors =>
      let unique_ratio :=
        if (0 <? sample_size)%Z
        then PyFloat.fl (inject_Z (Z.of_nat (List.length colors)) / inject_Z sample_size)
        else 0%Q in
      PyFloat.gt unique_ratio lit_0_3
  end.

(** [_choose_format] (lines 96-121) *)
Definition _choose_format (self : optimizer) (image : pil_image)
    (has_transparency : bool) : string :=
  let is_photo := _is_photo_like image in
  if has_transparency then (if prefer_webp self then "webp" else "png")
  else if is_photo then (if prefer_webp self then "webp" else "jpg")
  else if prefer_webp self then "webp"
  else "png".

(** [_save_as_webp] (lines 150-178) *)
Definition _save_as_webp (self : optimizer) (image : pil_image)
    (has_transparency : bool) : list Byte.byte * string :=
  let image :=
    if has_transparency
    then (if negb (String.eqb (im_mode image) "RGBA") then convert "RGBA" image else image)
    else (if String.eqb (im_mode image) "RGBA" then convert "RGB" image else image) in
  (pil_save image
     (mkSave "WEBP" (Some (webp_quality self)) (Some false) (Some 4%Z) None None None),
   ".webp").

(** [_save_as_png] (lines 180-192) *)
Definition _save_as_png (image : pil_image) : list Byte.byte * string :=
  (pil_save image (mkSave "PNG" None None None (Some true) (Some 6%Z) None), ".png").

(** [_save_as_jpeg] (lines 194-220) *)
Definition _save_as_jpeg (self : optimizer) (image : pil_image)
    (has_transparency : bool) : list Byte.byte * string :=
  let image :=
    if mem (im_mode image) ["RGBA"; "LA"] then
      mkImage "RGB" (im_width image) (im_height image)
        (pil_paste_on_white (String.eqb (im_mode image) "RGBA") image)
    else if negb (String.eqb (im_mode image) "RGB") then convert "RGB" image
    else image in
  (pil_save image
     (mkSave "JPEG" (Some (jpeg_quality self)) None None (Some true) None (Some true)),
   ".jpg").

(** [optimize_image] (lines 41-79); [force_format] is [None] or a
    string, and [if force_format:] holds for a non-empty string. *)
Definition optimize_image (self : optimizer) (image : pil_image)
    (name_hint : string) (force_format : option string)
    : result (list Byte.byte * string) :=
  let original_mode := im_mode image in
  let has_transparency := mem original_mode ["RGBA"; "LA"; "P"] in
  image <- _resize_if_needed self image ;;
  let output_format :=
    match force_format with
    | Some f => if truthy f then lower f else _choose_format self image has_transparency
    | None => _choose_format self image has_transparency
    end in
  if String.eqb output_format "webp" then Ok (_save_as_webp self image has_transparency)
  else if String.eqb output_format "png" then Ok (_save_as_png image)
  else Ok (_save_as_jpeg self image has_transparency).


End WithPIL.

(** [get_compression_ratio] (lines 242-248); [None] stands for
    [ZeroDivisionError]. *)
Definition get_compression_ratio (original_bytes optimized_bytes : list Byte.byte)
    : option Q :=
  if (Z.of_nat (List.length original_bytes) =? 0)%Z then Some 1%Q
  else PyFloat.truediv (Z.of_nat (List.length optimized_bytes))
         (Z.of_nat (List.length original_bytes)).

(** A stand-in for the imaging library, to run the optimizer on concrete
    inputs: an empty byte string does not decode, any other decodes to a
    1x1 black [RGB] image; conversions keep the first three channels. *)
Definition toy_pil : PIL := {|
  pil_open := fun data =>
    match data with
    | [] => Raise "cannot identify image file"
    | _ => Ok (mkImage "RGB" 1 1 [[0; 0; 0]%Z])
    end;
  pil_convert_pixel := fun _ _ p => firstn 3 p;
  pil_resample := fun image w h =>
    List.repeat (hd [] (im_pixels image)) (Z.to_nat (w * h));
  pil_paste_on_white := fun _ image => map (firstn 3) (im_pixels image);
  pil_save := fun _ _ => []
|}.

End ImageOptimizer.

(** ** [excel_converter.py]: the spreadsheet adapter *)

Module Excel.
Import PyStr ImageOptimizer.

(** A cell value as [iter_rows(values_only=True)] yields it: [None], a
    [str], an [int], a [bool], or another object (a [float], a
    [datetime], ...) given by the text [str] returns for it. *)
Inductive cell :=
| CNone
| CStr (s : string)
| CInt (z : Z)
| CBool (b : bool)
| CObj (text : string).

Definition str_of_int (z : Z) : string :=
  if (z <? 0)%Z then "-" ++ str_of_nonneg (- z) else str_of_nonneg z.

(** [str(cell)] for a cell that is not [None] *)
Definition py_str (c : cell) : string :=
  match c with
  | CNone => "None"
  | CStr s => s
  | CInt z => str_of_int z
  | CBool b => if b then "True" else "False"
  | CObj text => text
  end.

Definition row := list cell.

(** [cell is not None and str(cell).strip()] (line 82) *)
Definition cell_has_content (c : cell) : bool :=
  match c with
  | CNone => false
  | _ => truthy (strip (py_str c))
  end.

(** The rows kept for the table (lines 79-83) *)
Definition sheet_data (rows : list row) : list row :=
  filter (fun r => existsb cell_has_content r) rows.

(** [max(len(row) for row in data)] for a non-empty [data] *)
Definition max_cols (data : list row) : nat :=
  fold_right (fun r m => Nat.max (List.length r) m) 0 data.

(** [list(row) + [None] * (max_cols - len(row))] (line 156) *)
Definition normalize_row (cols : nat) (r : row) : row :=
  (r ++ List.repeat CNone (cols - List.length r))%list.

(** Cell text (lines 165-167) *)
Definition cell_text (c : cell) : string :=
  let text := match c with CNone => "" | _ => py_str c end in
  replace_char newline " " (replace_char "|" "\|" text).

Definition md_row (cells : list string) : string :=
  "| " ++ join " | " cells ++ " |".

Definition separator_row (n : nat) : string :=
  "| " ++ join " | " (List.repeat "---" n) ++ " |".

(** The loop over [enumerate(normalized_data)] (lines 161-175): [i] is the
    index of the first row of [rows]. *)
Fixpoint md_rows (i : nat) (rows : list row) : list string :=
  match rows with
  | [] => []
  | r :: rest =>
      let cells := map cell_text r in
      (md_row cells
       :: (if Nat.eqb i 0 then [separator_row (List.length cells)] else []))
      ++ md_rows (S i) rest
  end%list.

(** [_create_markdown_table] (lines 137-177) *)
Definition _create_markdown_table (data : list row) : string :=
  match data with
  | [] => ""
  | _ =>
      let cols := max_cols data in
      let normalized_data := map (normalize_row cols) data in
      join nl (md_rows 0 normalized_data) ++ nl
  end.

(** A worksheet: its name, its rows and the bytes of its embedded
    images ([img._data()]). *)
Record worksheet := mkSheet {
  sheet_name : string;
  sheet_rows : list row;
  sheet_images : list (list Byte.byte)
}.

Record excel_state := mkExcelState {
  es_parts : list string;
  es_images : list string;
  es_counter : Z;
  es_fs : FS.fs
}.

Section WithPIL.
Context {pil : PIL}.

(** The body of the image loop (lines 94-122); nothing is caught here. *)
Definition extract_image (opt : optimizer) (image_format images_dir : string)
    (st : excel_state) (img_bytes : list Byte.byte) : result excel_state :=
  let counter := (es_counter st + 1)%Z in
  let img_name := "excel_image_" ++ fmt_03d counter in
  pil_img <- pil_open img_bytes ;;
  '(optimized_data, ext) <- optimize_image opt pil_img img_name None ;;
  let img_filename := img_name ++ ext in
  let img_path := FS.path_join images_dir img_filename in
  st1 <-
    (if mem image_format ["file"; "both"] then
       match FS.write img_path optimized_data (es_fs st) with
       | Some fs' =>
           Ok (mkExcelState
                 (snoc (es_parts st)
                    (nl ++ "![" ++ img_name ++ "](images/" ++ img_filename ++ ")" ++ nl))
                 (snoc (es_images st) img_path) counter fs')
       | None => Raise ("[Errno 13] Permission denied: '" ++ img_path ++ "'")
       end
     else Ok (mkExcelState (es_parts st) (es_images st) counter (es_fs st))) ;;
  let content_type := "image/" ++ lstrip_dots ext in
  Ok (if String.eqb image_format "base64"
      then mkExcelState
             (snoc (es_parts st1)
                (nl ++ "![" ++ img_name ++ "](data:" ++ content_type ++ ";base64,"
                 ++ PyBase64.b64encode optimized_data ++ ")" ++ nl))
             (es_images st1) (es_counter st1) (es_fs st1)
      else st1).

Fixpoint extract_sheet_images (opt : optimizer) (image_format images_dir : string)
    (st : excel_state) (imgs : list (list Byte.byte)) : result excel_state :=
  match imgs with
  | [] => Ok st
  | img :: rest =>
      st' <- extract_image opt image_format images_dir st img ;;
      extract_sheet_images opt image_format images_dir st' rest
  end.

(** The body of the loop over the sheets (lines 72-124) *)
Definition convert_sheet (opt : optimizer) (extract_images : bool)
    (image_format images_dir : string) (st : excel_state) (ws : worksheet)
    : result excel_state :=
  let parts := snoc (es_parts st) ("# Sheet: " ++ sheet_name ws ++ nl) in
  let data := sheet_data (sheet_rows ws) in
  let parts :=
    match data with
    | [] => snoc parts ("*Empty sheet*" ++ nl)
    | _ => snoc parts (_create_markdown_table data)
    end in
  let st := mkExcelState parts (es_images st) (es_counter st) (es_fs st) in
  st <- (if extract_images
         then extract_sheet_images opt image_format images_dir st (sheet_images ws)
         else Ok st) ;;
  Ok (mkExcelState (snoc (es_parts st) (nl ++ "---" ++ nl)) (es_images st)
        (es_counter st) (es_fs st)).

Fixpoint convert_sheets (opt : optimizer) (extract_images : bool)
    (image_format images_dir : string) (st : excel_state) (sheets : list worksheet)
    : result excel_state :=
  match sheets with
  | [] => Ok st
  | ws :: rest =>
      st' <- convert_sheet opt extract_images image_format images_dir st ws ;;
      convert_sheets opt extract_images image_format images_dir st' rest
  end.

(** [ExcelConverter.convert_file] on a loaded workbook: the markdown,
    the image paths and the file system after the writes. *)
Definition convert_file (opt : optimizer) (sheets : list worksheet)
    (extract_images : bool) (image_format images_dir : string) (fs0 : FS.fs)
    : result (string * list string * FS.fs) :=
  st <- convert_sheets opt extract_images image_format images_dir
          (mkExcelState [] [] 0 fs0) sheets ;;
  Ok (join nl (es_parts st), es_images st, es_fs st).

End WithPIL.

End Excel.

(** ** [pptx_converter.py]: the presentation adapter *)

Module Pptx.
Import PyStr ImageOptimizer.

(** A run of a text frame: [run.text] and the truth values of
    [run.font.bold], [run.font.italic], [run.font.underline]. *)
Record text_run := mkTextRun {
  tr_text : string;
  tr_bold : bool;
  tr_italic : bool;
  tr_underline : bool
}.

Record text_paragraph := mkTextParagraph {
  tp_runs : list text_run;
  tp_level : Z                         (* [paragraph.level or 0] *)
}.

(** What [shape_type] says.  The image of a picture is its blob, or the
    message of the exception that [shape.image] raises. *)
Inductive shape_kind (S : Type) :=
| Picture (image : result (list Byte.byte))
| Group (shapes : list S)
| OtherShape.
Arguments Picture {S} image.
Arguments Group {S} shapes.
Arguments OtherShape {S}.

(** A shape: its text frame ([has_text_frame]), its table ([has_table])
    and its kind. *)
#[warnings="-register-all"] Inductive shape :=
| Shape (text_frame : option (list text_paragraph))
        (table : option (list (list string)))
        (kind : shape_kind shape).

Definition shape_text_frame (s : shape) : option (list text_paragraph) :=
  let (tf, _, _) := s in tf.
Definition shape_table (s : shape) : option (list (list string)) :=
  let (_, t, _) := s in t.
Definition shape_type (s : shape) : shape_kind shape :=
  let (_, _, k) := s in k.

(** [_extract_text_from_shape] (lines 174-208) *)
Definition format_text_run (r : text_run) : string :=
  let text := tr_text r in
  let text := if tr_bold r then "**" ++ text ++ "**" else text in
  let text := if tr_italic r then "*" ++ text ++ "*" else text in
  let text := if tr_underline r then "<u>" ++ text ++ "</u>" else text in
  text.

Fixpoint para_text (runs : list text_run) : string :=
  match runs with
  | [] => ""
  | r :: rest =>
      if truthy (tr_text r) then format_text_run r ++ para_text rest
      else para_text rest
  end.

Fixpoint frame_text_parts (paras : list text_paragraph) : list string :=
  match paras with
  | [] => []
  | p :: rest =>
      let t := para_text (tp_runs p) in
      if truthy (strip t) then
        (if (0 <? tp_level p)%Z then repeat "  " (tp_level p) ++ "- " ++ t else t)
        :: frame_text_parts rest
      else frame_text_parts rest
  end.

Definition _extract_text_from_shape (s : shape) : string :=
  match shape_text_frame s with
  | None => ""
  | Some paras => join nl (frame_text_parts paras)
  end.

(** [_extract_from_group] (lines 210-224).  [child_text] is what one
    shape of a group contributes: the text of its text frame, otherwise
    the text of the group it is, otherwise nothing. *)
Fixpoint child_text (s : shape) : string :=
  match s with
  | Shape (Some paras) _ _ => join nl (frame_text_parts paras)
  | Shape None _ (Group sub) =>
      join nl
        ((fix parts (l : list shape) : list string :=
            match l with
            | [] => []
            | c :: rest =>
                let text := child_text c in
                if truthy (strip text) then text :: parts rest else parts rest
            end) sub)
  | Shape None _ _ => ""
  end.

Definition _extract_from_group (children : list shape) : string :=
  child_text (Shape None None (Group children)).

(** [_extract_table] (lines 226-247) *)
Definition _extract_table (rows : list (list string)) : string :=
  match rows with
  | [] => ""
  | _ => join nl (Docx.table_rows 0 rows) ++ nl
  end.

(** The variables the shape loop updates (lines 87-143) *)
Record slide_state := mkSlideState {
  ss_text_parts : list string;
  ss_tables : list string;
  ss_images : list string;
  ss_counter : Z;
  ss_fs : FS.fs
}.

Definition failure_note (msg : string) : string :=
  nl ++ "*[Image extraction failed: " ++ msg ++ "]*".

Section WithPIL.
Context {pil : PIL}.

(** The [try] block for a picture (lines 105-134): the new state, or
    the message of the exception together with the counter, which line
    106 has already incremented. *)
Definition try_picture (opt : optimizer) (slide_num : Z)
    (image_format images_dir : string) (st : slide_state)
    (image : result (list Byte.byte)) : result slide_state :=
  let counter := (ss_counter st + 1)%Z in
  let img_name :=
    "slide" ++ Excel.str_of_int slide_num ++ "_image_" ++ fmt_03d counter in
  img_bytes <- image ;;
  pil_img <- pil_open img_bytes ;;
  '(optimized_data, ext) <- optimize_image opt pil_img img_name None ;;
  let img_filename := img_name ++ ext in
  let img_path := FS.path_join images_dir img_filename in
  st1 <-
    (if mem image_format ["file"; "both"] then
       match FS.write img_path optimized_data (ss_fs st) with
       | Some fs' =>
           Ok (mkSlideState
                 (snoc (ss_text_parts st)
                    (nl ++ "![" ++ img_name ++ "](images/" ++ img_filename ++ ")"))
                 (ss_tables st) (snoc (ss_images st) img_path) counter fs')
       | None => Raise ("[Errno 13] Permission denied: '" ++ img_path ++ "'")
       end
     else Ok (mkSlideState (ss_text_parts st) (ss_tables st) (ss_images st)
                counter (ss_fs st))) ;;
  let content_type := "image/" ++ lstrip_dots ext in
  Ok (if String.eqb image_format "base64"
      then mkSlideState
             (snoc (ss_text_parts st1)
                (nl ++ "![" ++ img_name ++ "](data:" ++ content_type ++ ";base64,"
                 ++ PyBase64.b64encode optimized_data ++ ")"))
             (ss_tables st1) (ss_images st1) (ss_counter st1) (ss_fs st1)
      else st1).

(** Lines 104-137: [except Exception as e] appends the failure note. *)
Definition handle_picture (opt : optimizer) (slide_num : Z)
    (image_format images_dir : string) (st : slide_state)
    (image : result (list Byte.byte)) : slide_state :=
  match try_picture opt slide_num image_format images_dir st image with
  | Ok st' => st'
  | Raise msg =>
      mkSlideState (snoc (ss_text_parts st) (failure_note msg)) (ss_tables st)
        (ss_images st) (ss_counter st + 1) (ss_fs st)
  end.

(** The body of the loop over [slide.shapes] (lines 90-143) *)
Definition process_shape (opt : optimizer) (extract_images : bool) (slide_num : Z)
    (image_format images_dir : string) (st : slide_state) (s : shape) : slide_state :=
  let st :=
    match shape_text_frame s with
    | Some _ =>
        let text := _extract_text_from_shape s in
        if truthy (strip text)
        then mkSlideState (snoc (ss_text_parts st) text) (ss_tables st)
               (ss_images st) (ss_counter st) (ss_fs st)
        else st
    | None => st
    end in
  let st :=
    match shape_table s with
    | Some rows =>
        let table_md := _extract_table rows in
        if truthy table_md
        then mkSlideState (ss_text_parts st) (snoc (ss_tables st) table_md)
               (ss_images st) (ss_counter st) (ss_fs st)
        else st
    | None => st
    end in
  let st :=
    match shape_type s with
    | Picture image =>
        if extract_images
        then handle_picture opt slide_num image_format images_dir st image
        else st
    | _ => st
    end in
  match shape_type s with
  | Group children =>
      let group_text := _extract_from_group children in
      if truthy (strip group_text)
      then mkSlideState (snoc (ss_text_parts st) group_text) (ss_tables st)
             (ss_images st) (ss_counter st) (ss_fs st)
      else st
  | _ => st
  end.

Record slide := mkSlide {
  slide_layout_name : option string;  (* [slide.slide_layout.name] *)
  slide_shapes : list shape;
  slide_notes : option string         (* [notes_text_frame.text] *)
}.

Record pptx_state := mkPptxState {
  ps_parts : list string;
  ps_images : list string;
  ps_counter : Z;
  ps_fs : FS.fs
}.

(** The body of the loop over the slides (lines 78-161) *)
Definition convert_slide (opt : optimizer) (extract_images : bool)
    (image_format images_dir : string) (st : pptx_state) (slide_num : Z) (sl : slide)
    : pptx_state :=
  let parts :=
    snoc (ps_parts st) (nl ++ "## Slide " ++ Excel.str_of_int slide_num ++ nl) in
  let parts :=
    match slide_layout_name sl with
    | Some layout_name => snoc parts ("*Layout: " ++ layout_name ++ "*" ++ nl)
    | None => parts
    end in
  let ss :=
    fold_left (process_shape opt extract_images slide_num image_format images_dir)
      (slide_shapes sl)
      (mkSlideState [] [] (ps_images st) (ps_counter st) (ps_fs st)) in
  let parts :=
    match ss_text_parts ss with
    | [] => parts
    | tps => snoc parts (join nl tps)
    end in
  let parts :=
    match ss_tables ss with
    | [] => parts
    | tables => List.app (snoc parts (nl ++ "### Tables" ++ nl)) tables
    end in
  let parts :=
    match slide_notes sl with
    | Some notes =>
        if truthy (strip notes)
        then snoc (snoc parts (nl ++ "**Speaker Notes:**")) ("> " ++ strip notes)
        else parts
    | None => parts
    end in
  mkPptxState (snoc parts (nl ++ "---" ++ nl)) (ss_images ss) (ss_counter ss)
    (ss_fs ss).

Fixpoint convert_slides (opt : optimizer) (extract_images : bool)
    (image_format images_dir : string) (st : pptx_state) (slide_num : Z)
    (slides : list slide) : pptx_state :=
  match slides with
  | [] => st
  | sl :: rest =>
      convert_slides opt extract_images image_format images_dir
        (convert_slide opt extract_images image_format images_dir st slide_num sl)
        (slide_num + 1) rest
  end.

(** [PowerPointConverter.convert_file] on a loaded presentation whose
    file is called [file_name]. *)
Definition convert_file (opt : optimizer) (file_name : string) (slides : list slide)
    (extract_images : bool) (image_format images_dir : string) (fs0 : FS.fs)
    : string * list string * FS.fs :=
  let parts :=
    [ "# PowerPoint: " ++ file_name ++ nl;
      "**Total slides: " ++ Excel.str_of_int (Z.of_nat (List.length slides)) ++ "**" ++ nl;
      "---" ++ nl ] in
  let st := convert_slides opt extract_images image_format images_dir
              (mkPptxState parts [] 0 fs0) 1 slides in
  (join nl (ps_parts st), ps_images st, ps_fs st).

End WithPIL.

End Pptx.

(** ** [hashlib.md5] (RFC 1321) *)

Module MD5.

Local Open Scope Z_scope.

Definition wrap32 (x : Z) : Z := x mod 4294967296.

Definition rotl32 (x c : Z) : Z :=
  wrap32 (Z.lor (Z.shiftl x c) (Z.shiftr x (32 - c))).

Definition not32 (x : Z) : Z := Z.lxor x 4294967295.

(** The per-round shift amounts *)
Definition shifts : list Z :=
  [ 7; 12; 17; 22; 7; 12; 17; 22; 7; 12; 17; 22; 7; 12; 17; 22;
    5; 9; 14; 20; 5; 9; 14; 20; 5; 9; 14; 20; 5; 9; 14; 20;
    4; 11; 16; 23; 4; 11; 16; 23; 4; 11; 16; 23; 4; 11; 16; 23;
    6; 10; 15; 21; 6; 10; 15; 21; 6; 10; 15; 21; 6; 10; 15; 21 ].

(** [floor(abs(sin(i + 1)) * 2^32)] for [i] from 0 to 63 *)
Definition sines : list Z :=
  [
    3614090360; 3905402710; 606105819; 3250441966;
    4118548399; 1200080426; 2821735955; 4249261313;
    1770035416; 2336552879; 4294925233; 2304563134;
    1804603682; 4254626195; 2792965006; 1236535329;
    4129170786; 3225465664; 643717713; 3921069994;
    3593408605; 38016083; 3634488961; 3889429448;
    568446438; 3275163606; 4107603335; 1163531501;
    2850285829; 4243563512; 1735328473; 2368359562;
    4294588738; 2272392833; 1839030562; 4259657740;
    2763975236; 1272893353; 4139469664; 3200236656;
    681279174; 3936430074; 3572445317; 76029189;
    3654602809; 3873151461; 530742520; 3299628645;
    4096336452; 1126891415; 2878612391; 4237533241;
    1700485571; 2399980690; 4293915773; 2240044497;
    1873313359; 4264355552; 2734768916; 1309151649;
    4149444226; 3174756917; 718787259; 3951481745 ].

Definition byte_val (b : Byte.byte) : Z := Z.of_N (Byte.to_N b).

(** Four bytes, least significant first, as a 32-bit word *)
Definition word_of (b0 b1 b2 b3 : Z) : Z :=
  b0 + 256 * b1 + 65536 * b2 + 16777216 * b3.

Fixpoint words_of (bytes : list Z) : list Z :=
  match bytes with
  | b0 :: b1 :: b2 :: b3 :: rest => word_of b0 b1 b2 b3 :: words_of rest
  | _ => []
  end.

Definition le_bytes (n : nat) (x : Z) : list Z :=
  map (fun i => (x / 256 ^ Z.of_nat i) mod 256) (seq 0 n).

(** The padded message: a one bit, zeros up to 56 modulo 64 bytes, and
    the bit length on 64 bits, least significant byte first. *)
Definition pad (msg : list Z) : list Z :=
  let len := Z.of_nat (List.length msg) in
  let zeros := Z.to_nat ((55 - len) mod 64) in
  (msg ++ [128] ++ List.repeat 0 zeros ++ le_bytes 8 ((8 * len) mod 2 ^ 64))%list.

Record state := mkState { sa : Z; sb : Z; sc : Z; sd : Z }.

Definition init : state := mkState 1732584193 4023233417 2562383102 271733878.

(** One of the 64 operations on block [m] *)
Definition step (m : list Z) (st : state) (i : nat) : state :=
  let '(mkState a b c d) := st in
  let iz := Z.of_nat i in
  let '(f, g) :=
    if iz <? 16 then (Z.lor (Z.land b c) (Z.land (not32 b) d), iz)
    else if iz <? 32 then (Z.lor (Z.land d b) (Z.land (not32 d) c), (5 * iz + 1) mod 16)
    else if iz <? 48 then (Z.lxor (Z.lxor b c) d, (3 * iz + 5) mod 16)
    else (Z.lxor c (Z.lor b (not32 d)), (7 * iz) mod 16) in
  let f := wrap32 (f + a + nth i sines 0 + nth (Z.to_nat g) m 0) in
  mkState d (wrap32 (b + rotl32 f (nth i shifts 0))) b c.

Definition compress (st : state) (block : list Z) : state :=
  let m := words_of block in
  let '(mkState a b c d) := fold_left (step m) (seq 0 64) st in
  mkState (wrap32 (sa st + a)) (wrap32 (sb st + b))
          (wrap32 (sc st + c)) (wrap32 (sd st + d)).

(** The 64-byte blocks of the padded message, in order; [fuel] bounds the
    number of blocks. *)
Fixpoint blocks (fuel : nat) (st : state) (bytes : list Z) : state :=
  match fuel, bytes with
  | S k, _ :: _ => blocks k (compress st (firstn 64 bytes)) (skipn 64 bytes)
  | _, _ => st
  end.

(** [digest()]: the 16 bytes of the four state words *)
Definition digest (data : list Byte.byte) : list Z :=
  let padded := pad (map byte_val data) in
  let st := blocks (List.length padded) init padded in
  (le_bytes 4 (sa st) ++ le_bytes 4 (sb st) ++ le_bytes 4 (sc st) ++ le_bytes 4 (sd st))%list.

Definition hex_digit (n : Z) : ascii :=
  match String.get (Z.to_nat (n mod 16)) "0123456789abcdef" with
  | Some c => c
  | None => "0"%char
  end.

Fixpoint hex (bytes : list Z) : string :=
  match bytes with
  | [] => ""
  | b :: rest => String (hex_digit (b / 16)) (String (hex_digit b) (hex rest))
  end.

(** [hexdigest()] *)
Definition hexdigest (data : list Byte.byte) : string := hex (digest data).

End MD5.

(** ** [converter.py]: fingerprint and output naming of [OfficeConverter] *)

Module Office.
Import PyStr.

(** A source file: its path and its content. *)
Record source_file := mkFile {
  file_path : string;
  file_bytes : list Byte.byte
}.

(** [Path.name]: the last component of a POSIX path *)
Fixpoint path_name (path : string) : string :=
  match path with
  | "" => ""
  | String c rest =>
      if existsb (Ascii.eqb "/") (list_ascii_of_string rest) then path_name rest
      else if Ascii.eqb c "/" then rest
      else path
  end.

(** [name.rfind(".")] *)
Fixpoint rfind_dot (name : string) : option nat :=
  match name with
  | "" => None
  | String c rest =>
      match rfind_dot rest with
      | Some i => Some (S i)
      | None => if Ascii.eqb c "." then Some 0 else None
      end
  end.

(** [Path.stem]: the name without its last suffix *)
Definition path_stem (path : string) : string :=
  let name := path_name path in
  match rfind_dot name with
  | Some i =>
      if (0 <? i) && (i <? String.length name - 1) then substring 0 i name else name
  | None => name
  end.

(** The hasher object: [update] appends to the message hashed so far. *)
Definition hasher := list Byte.byte.
Definition update (h : hasher) (chunk : list Byte.byte) : hasher := (h ++ chunk)%list.

Definition chunk_size : nat := 8 * 1024.

(** [for chunk in iter(lambda: f.read(8192), b""): hasher.update(chunk)]:
    [rest] is what is left to read from the file. *)
Fixpoint read_chunks (fuel : nat) (rest : list Byte.byte) (h : hasher) : hasher :=
  match fuel with
  | O => h
  | S k =>
      match firstn chunk_size rest with
      | [] => h
      | chunk => read_chunks k (skipn chunk_size rest) (update h chunk)
      end
  end.

(** [_get_file_hash] (lines 661-667) *)
Definition _get_file_hash (f : source_file) : string :=
  MD5.hexdigest (read_chunks (S (List.length (file_bytes f))) (file_bytes f) []).

(** The name derived on lines 608-611 *)
Definition derived_name (f : source_file) : string :=
  path_stem (file_path f) ++ "_" ++ substring 0 8 (_get_file_hash f).

(** [output_name] after line 611: the caller's, when given and not empty *)
Definition output_name_of (output_name : option string) (f : source_file) : string :=
  match output_name with
  | Some name => if truthy name then name else derived_name f
  | None => derived_name f
  end.

(** The directory of the conversion (line 614) *)
Definition conversion_dir (output_dir : string) (output_name : option string)
    (f : source_file) : string :=
  FS.path_join output_dir (output_name_of output_name f).

End Office.

(** ** Vocabulary of the properties *)

Module Props.
Import PyStr.

(** A string none of whose characters satisfies [p] *)
Fixpoint none_of (p : ascii -> bool) (s : string) : bool :=
  match s with
  | "" => true
  | String c s' => negb (p c) && none_of p s'
  end.

Definition is_newline (c : ascii) : bool := Ascii.eqb c newline.

(** Decimal digits *)
Definition is_digit (c : ascii) : bool :=
  match digit_of c with Some _ => true | None => false end.

Definition all_digits (s : string) : bool := none_of (fun c => negb (is_digit c)) s.

Definition digit_char (d : Z) : ascii := ascii_of_nat (48 + Z.to_nat d)%nat.


(** The pipes of a rendered line that delimit columns: those not
    written right after a backslash.  [prev] tells whether the previous
    character was a backslash. *)
Fixpoint unescaped_pipes (prev : bool) (s : string) : nat :=
  match s with
  | "" => 0
  | String c s' =>
      (if Ascii.eqb c "|" && negb prev then 1 else 0)
      + unescaped_pipes (Ascii.eqb c "\") s'
  end.

(** The number of columns of a rendered table line [| c1 | ... | cn |] *)
Definition columns (line : string) : nat := unescaped_pipes false line - 1.

(** A list of cell texts as [cell_text] produces them *)
Definition clean_cells (cells : list string) : Prop :=
  Forall (fun t => unescaped_pipes false t = 0 /\ none_of is_newline t = true) cells.

(** A cell is blank when it is [None] or its text is made of whitespace
    only (the empty text included). *)
Definition blank_cell (c : Excel.cell) : Prop :=
  c = Excel.CNone \/ none_of (fun ch => negb (is_space ch)) (Excel.py_str c) = true.

Definition all_blank (r : Excel.row) : Prop := Forall blank_cell r.

(** The comparison [1 / sample_size > 0.3] on a sampling budget
    [min(100, width) * min(100, height)] *)
Definition ratio_exceeds (s : Z) : bool :=
  PyFloat.gt (PyFloat.fl (inject_Z (Z.of_nat 1) / inject_Z s)) ImageOptimizer.lit_0_3.

(** A Word paragraph that holds nothing but one inline image *)
Definition image_paragraph (rid : string) : Docx.body_element :=
  Docx.BParagraph
    (Docx.mkParagraph "Normal" [Docx.mkRun "" false false false false [Some rid]] None).

Definition png_part : Docx.image_part := Docx.mkImagePart [Byte.x89; Byte.x50] "image/png".

(** Does [s] hold three newline characters in a row?  [run] is the number
    of newlines that end the text read so far. *)
Fixpoint newline_run3 (run : nat) (s : string) : bool :=
  match s with
  | "" => false
  | String c s' =>
      if Ascii.eqb c newline
      then (2 <=? run)%nat || newline_run3 (S run) s'
      else newline_run3 0 s'
  end.

(** A normalized markdown string: no three newlines in a row, no line
    that ends in whitespace, no whitespace around the whole. *)
Definition normalized (md : string) : Prop :=
  newline_run3 0 md = false
  /\ Forall (fun line => rstrip line = line) (split_lines md)
  /\ strip md = md.




(** A blank: a whitespace character other than the newline *)
Definition is_blank (c : ascii) : bool := is_space c && negb (Ascii.eqb c newline).

(** No blank stands right before a newline or at the end of [s]. *)
Fixpoint trimmed (s : string) : bool :=
  match s with
  | "" => true
  | String c s' =>
      match s' with
      | "" => negb (is_blank c)
      | String d _ => negb (is_blank c && Ascii.eqb d newline) && trimmed s'
      end
  end.

(** A line without newline that [rstrip] leaves as it is *)
Definition trimmed_line (l : string) : Prop :=
  none_of is_newline l = true /\ rstrip l = l.








End Props.

(** ** [converter.py]: the supported formats and [get_file_type] *)

Module Formats.
Import PyStr.

(** [SUPPORTED_FORMATS] (lines 29-33), a dict in insertion order *)
Definition SUPPORTED_FORMATS : list (string * list string) :=
  [ ("word", [".docx"; ".doc"]);
    ("excel", [".xlsx"; ".xls"]);
    ("powerpoint", [".pptx"; ".ppt"]) ].

(** [Path.suffix]: the name from its last dot on, the empty string when
    that dot is the first or the last character of the name *)
Definition path_suffix (path : string) : string :=
  let name := Office.path_name path in
  match Office.rfind_dot name with
  | Some i =>
      if (0 <? i) && (i <? String.length name - 1)
      then substring i (String.length name - i) name else ""
  | None => ""
  end.

(** The loop of [get_file_type] over [SUPPORTED_FORMATS.items()] *)
Fixpoint find_type (suffix : string) (items : list (string * list string))
    : option string :=
  match items with
  | [] => None
  | (file_type, extensions) :: rest =>
      if mem suffix extensions then Some file_type else find_type suffix rest
  end.

(** [get_file_type] (lines 36-42) *)
Definition get_file_type (file_path : string) : option string :=
  let suffix := lower (path_suffix file_path) in
  find_type suffix SUPPORTED_FORMATS.

(** The format test each adapter makes on its own:
    [DocxConverter.convert_file] (lines 100-101),
    [ExcelConverter.convert_file] (lines 60-61),
    [PowerPointConverter.convert_file] (lines 61-62). *)
Definition docx_accepts (file_path : string) : bool :=
  mem (lower (path_suffix file_path)) [".docx"; ".doc"].

Definition excel_accepts (file_path : string) : bool :=
  mem (lower (path_suffix file_path)) [".xlsx"; ".xls"].

Definition pptx_accepts (file_path : string) : bool :=
  mem (lower (path_suffix file_path)) [".pptx"; ".ppt"].

(** The list [supported] that [OfficeConverter.convert_file] builds for
    its error message (lines 600-602), and [get_supported_extensions] of
    [server.py] (lines 43-48) *)
Definition all_extensions (formats : list (string * list string)) : list string :=
  fold_left (fun extensions item => extensions ++ snd item)%list formats [].

Definition get_supported_extensions : list string := all_extensions SUPPORTED_FORMATS.

(** The message of the [ValueError] of lines 603-606 *)
Definition unsupported_message (file_path : string) : string :=
  "Unsupported file format: " ++ path_suffix file_path ++ ". "
  ++ "Supported formats: " ++ join ", " (all_extensions SUPPORTED_FORMATS).

End Formats.

(** ** [converter.py]: [_human_readable_size]

    The loop variable [size_bytes] starts as an [int] and is a [float]
    after the first division. *)

Module HumanSize.
Import PyStr.
Local Open Scope Q_scope.

Inductive num :=
| NInt (n : Z)
| NFloat (x : Q).

(** A rational of this magnitude or more rounds beyond the largest
    finite float: [OverflowError]. *)
Definition overflow_bound : Q := PyFloat.pow2 1024 - PyFloat.pow2 970.

Definition overflows (x : Q) : bool := Qle_bool overflow_bound (Qabs x).

(** [float(n)] *)
Definition float_of_int (n : Z) : result Q :=
  if overflows (inject_Z n) then Raise "int too large to convert to float"
  else Ok (PyFloat.of_int n).

(** [v < k] for an [int] [k]: the comparison is exact *)
Definition lt (v : num) (k : Z) : bool :=
  match v with
  | NInt n => (n <? k)%Z
  | NFloat x => negb (Qle_bool (inject_Z k) x)
  end.

(** [v / k] for an [int] [k] *)
Definition truediv (v : num) (k : Z) : result num :=
  if (k =? 0)%Z then Raise "division by zero" else
  match v with
  | NInt n =>
      let q := inject_Z n / inject_Z k in
      if overflows q then Raise "integer division result too large for a float"
      else Ok (NFloat (PyFloat.fl q))
  | NFloat x =>
      y <- float_of_int k ;;
      Ok (NFloat (PyFloat.fl (x / y)))
  end.

(** [f"{x:.1f}"] for a float: the decimal with one digit after the point
    that is nearest to [x], ties to the even digit *)
Definition fmt_1f_float (x : Q) : string :=
  let d := PyFloat.round_half_even (Qabs x * 10) in
  (if Qle_bool 0 x then "" else "-")
  ++ str_of_nonneg (d / 10) ++ "." ++ str_of_nonneg (d mod 10).

(** [f"{v:.1f}"]: an [int] is converted to [float] first *)
Definition fmt_1f (v : num) : result string :=
  match v with
  | NInt n => x <- float_of_int n ;; Ok (fmt_1f_float x)
  | NFloat x => Ok (fmt_1f_float x)
  end.

(** The loop of lines 489-492 and the [return] of line 493 *)
Fixpoint size_loop (units : list string) (size_bytes : num) : result string :=
  match units with
  | [] => s <- fmt_1f size_bytes ;; Ok (s ++ " TB")
  | unit :: rest =>
      if lt size_bytes 1024
      then s <- fmt_1f size_bytes ;; Ok (s ++ " " ++ unit)
      else size_bytes <- truediv size_bytes 1024 ;; size_loop rest size_bytes
  end.

(** [_human_readable_size] (lines 487-493) *)
Definition _human_readable_size (size_bytes : Z) : result string :=
  size_loop ["B"; "KB"; "MB"; "GB"] (NInt size_bytes).

End HumanSize.

(** ** [server.py] *)

Module Server.

(** The value of ["markdown_preview"] (line 212) *)
Definition markdown_preview (markdown : string) : string :=
  if 2000 <? String.length markdown
  then substring 0 2000 markdown ++ "..."
  else markdown.

End Server.

(** ** [config_loader.py] *)

Module Config.
Import PyStr.

(** What [json.load] returns.  A float that is not finite behaves in this
    module as any float other than zero. *)
#[warnings="-register-all"] Inductive json :=
| JNull
| JBool (b : bool)
| JInt (n : Z)
| JFloat (x : Q)
| JStr (s : string)
| JList (items : list json)
| JDict (items : list (string * json)).

(** A [dict] with [str] keys, in insertion order; its keys are pairwise
    different. *)
Definition dict := list (string * json).

(** [d.get(key)] *)
Fixpoint dict_get (key : string) (d : dict) : option json :=
  match d with
  | [] => None
  | (k, v) :: rest => if String.eqb k key then Some v else dict_get key rest
  end.

(** [d[key] = v]: the value of a key already there is replaced in place,
    a new key goes to the end. *)
Fixpoint dict_set (key : string) (v : json) (d : dict) : dict :=
  match d with
  | [] => [(key, v)]
  | (k, w) :: rest =>
      if String.eqb k key then (k, v) :: rest else (k, w) :: dict_set key v rest
  end.

(** [{**d, **items}] *)
Definition dict_update (d items : dict) : dict :=
  fold_left (fun acc item => dict_set (fst item) (snd item) acc) items d.

(** The truth value of an object *)
Definition json_truthy (v : json) : bool :=
  match v with
  | JNull => false
  | JBool b => b
  | JInt n => negb (n =? 0)%Z
  | JFloat x => negb (Qeq_bool x 0)
  | JStr s => truthy s
  | JList items => match items with [] => false | _ => true end
  | JDict items => match items with [] => false | _ => true end
  end.

(** [type(v).__name__] *)
Definition type_name (v : json) : string :=
  match v with
  | JNull => "NoneType"
  | JBool _ => "bool"
  | JInt _ => "int"
  | JFloat _ => "float"
  | JStr _ => "str"
  | JList _ => "list"
  | JDict _ => "dict"
  end.

(** [self.config_data.get(key, default)]: [AttributeError] when the loaded
    value is not a dict *)
Definition data_get (config_data : json) (key : string) (default : json) : result json :=
  match config_data with
  | JDict items =>
      Ok (match dict_get key items with Some v => v | None => default end)
  | other => Raise ("'" ++ type_name other ++ "' object has no attribute 'get'")
  end.

(** [{**defaults, **settings}]: [TypeError] when [settings] is not a dict *)
Definition merge (defaults : dict) (settings : json) : result dict :=
  match settings with
  | JDict items => Ok (dict_update defaults items)
  | other => Raise ("'" ++ type_name other ++ "' object is not a mapping")
  end.

Record config := mkConfig {
  config_data : json;
  config_path : option string
}.

(** What the module asks of [pathlib], [json] and the file system:
    [str(Path(s))], [Path(s).is_absolute()], [str(Path(p).parent / s)],
    [Path(p).exists()], [json.load] on the opened file (any exception of
    [open] or of the parser is a [Raise]), and the three places
    [_find_config_file] looks at. *)
Class Env := {
  path_str : string -> string;
  is_absolute : string -> bool;
  parent_joinpath : string -> string -> string;
  path_exists : string -> bool;
  json_load : string -> result json;
  search_paths : list string
}.

Section WithEnv.
Context {env : Env}.

(** [_find_config_file] (lines 37-49) *)
Definition _find_config_file : option string := find path_exists search_paths.

(** [_load_config] (lines 51-58): the new [config_data] *)
Definition _load_config (config_path : string) : json :=
  match json_load config_path with
  | Ok data => data
  | Raise _ => JDict []
  end.

(** [Config.__init__] (lines 15-35) *)
Definition init (config_path : option string) : config :=
  let config_path :=
    match config_path with
    | Some p => if truthy p then Some (path_str p) else _find_config_file
    | None => _find_config_file
    end in
  match config_path with
  | Some p =>
      if path_exists p then mkConfig (_load_config p) (Some p)
      else mkConfig (JDict []) (Some p)
  | None => mkConfig (JDict []) None
  end.

(** The path of a directory setting (lines 76-82 and 89-93): [TypeError]
    when the value is not a [str] *)
Definition resolve (self : config) (value : json) : result (option string) :=
  if json_truthy value then
    match value with
    | JStr s =>
        match config_path self with
        | Some p =>
            if negb (is_absolute s) then Ok (Some (parent_joinpath p s))
            else Ok (Some (path_str s))
        | None => Ok (Some (path_str s))
        end
    | other => Raise ("expected str, bytes or os.PathLike object, not " ++ type_name other)
    end
  else Ok None.

(** [get_cache_dir] (lines 60-84); [env_cache] is
    [os.environ.get("OFFICEREADER_CACHE_DIR")]. *)
Definition get_cache_dir (self : config) (env_cache : option string)
    : result (option string) :=
  let from_config :=
    cache_dir <- data_get (config_data self) "cache_dir" JNull ;;
    resolve self cache_dir in
  match env_cache with
  | Some e => if truthy e then Ok (Some e) else from_config
  | None => from_config
  end.

(** [get_output_dir] (lines 86-94) *)
Definition get_output_dir (self : config) : result (option string) :=
  output_dir <- data_get (config_data self) "output_dir" JNull ;;
  resolve self output_dir.

(** [get_image_optimization_settings] (lines 96-105) *)
Definition image_defaults : dict :=
  [("enabled", JBool true); ("max_dimension", JInt 1920); ("quality", JInt 80)].

Definition get_image_optimization_settings (self : config) : result dict :=
  settings <- data_get (config_data self) "image_optimization" (JDict []) ;;
  merge image_defaults settings.

(** [get_default_settings] (lines 107-115) *)
Definition conversion_defaults : dict :=
  [("extract_images", JBool true); ("image_format", JStr "file")].

Definition get_default_settings (self : config) : result dict :=
  settings <- data_get (config_data self) "default_settings" (JDict []) ;;
  merge conversion_defaults settings.

(** [get] (lines 117-119) *)
Definition get (self : config) (key : string) (default : json) : result json :=
  data_get (config_data self) key default.

(** [get_config] and [load_config] (lines 130-158): the new value of the
    global [_config] and the instance returned *)
Definition get_config (_config : option config) (config_path : option string)
    : option config * config :=
  match _config with
  | None => let c := init config_path in (Some c, c)
  | Some c => (Some c, c)
  end.

Definition load_config (_config : option config) (config_path : option string)
    : option config * config :=
  let c := init config_path in (Some c, c).

End WithEnv.

(** A stand-in for the environment, to run the module on concrete
    inputs: a POSIX path is absolute when it starts with a slash, the
    one file that exists is [/etc/officereader.json], and it does not
    parse. *)
Definition toy_env : Env := {|
  path_str := fun s => s;
  is_absolute := fun s => PyStr.startswith "/" s;
  parent_joinpath := fun p s => "/etc/" ++ s;
  path_exists := fun p => String.eqb p "/etc/officereader.json";
  json_load := fun _ => Raise "Expecting value: line 1 column 1 (char 0)";
  search_paths := []
|}.

End Config.

(** ** [converter.py]: [DocxConverter.convert_file] and
    [OfficeConverter.convert_file]

    Paths are the texts of [Path] objects on a POSIX system; files opened
    for writing in text mode receive the UTF-8 encoding of the text.  The
    metadata entry of the result is left out. *)

Module Unified.
Import PyStr ImageOptimizer.

(** What the converters ask of [pathlib], of the file system and of the
    libraries that read the documents: [Path(p).exists()], the content
    read by [open(p, "rb")], [Path(p).mkdir(exist_ok=True)], [p / name],
    [Document(p)] as its body and related parts, [mammoth.convert_to_html]
    with the image handler of [_convert_doc_with_mammoth] as the HTML, the
    image paths and the file system after the handler's writes,
    [markdownify], [load_workbook(p, data_only=True)] and
    [Presentation(p)]. *)
Class Libraries := {
  path_exists : string -> FS.fs -> bool;
  read_bytes : string -> FS.fs -> result (list Byte.byte);
  mkdir : string -> FS.fs -> result FS.fs;
  joinpath : string -> string -> string;
  Document : string -> FS.fs -> result (list Docx.body_element * Docx.related_parts);
  mammoth_convert :
    string -> bool -> string -> string -> FS.fs -> result (string * list string * FS.fs);
  markdownify : string -> string;
  load_workbook : string -> FS.fs -> result (list Excel.worksheet);
  Presentation : string -> FS.fs -> result (list Pptx.slide)
}.

(** [text.encode("utf-8")] for code points below 256 *)
Definition utf8_char (c : ascii) : list Byte.byte :=
  let n := nat_of_ascii c in
  if n <? 128 then [byte_of_ascii c]
  else [byte_of_ascii (ascii_of_nat (192 + n / 64));
        byte_of_ascii (ascii_of_nat (128 + n mod 64))].

Fixpoint utf8 (text : string) : list Byte.byte :=
  match text with
  | "" => []
  | String c rest => (utf8_char c ++ utf8 rest)%list
  end.

(** [with open(path, "w", encoding="utf-8") as f: f.write(text)] *)
Definition write_text (path text : string) (fs : FS.fs) : result FS.fs :=
  match FS.write path (utf8 text) fs with
  | Some fs' => Ok fs'
  | None => Raise ("[Errno 13] Permission denied: '" ++ path ++ "'")
  end.

(** The result dict: ["markdown"], ["images"], and the entries
    ["output_path"], ["conversion_dir"] and ["file_type"] when present *)
Record conversion_result := mkResult {
  r_markdown : string;
  r_images : list string;
  r_output_path : option string;
  r_conversion_dir : option string;
  r_file_type : option string
}.

Section WithLibraries.
Context {pil : PIL} {libs : Libraries}.

(** Lines 105-107 and 609-611: the name given, or the one derived from
    the stem and the hash of the file *)
Definition choose_output_name (file_path : string) (output_name : option string)
    (fs : FS.fs) : result string :=
  let derived :=
    data <- read_bytes file_path fs ;;
    Ok (Office.derived_name (Office.mkFile file_path data)) in
  match output_name with
  | Some name => if truthy name then Ok name else derived
  | None => derived
  end.

(** [_html_to_markdown] (lines 411-416) *)
Definition _html_to_markdown (html : string) : string :=
  Docx._clean_markdown (markdownify html).

(** [DocxConverter.convert_file] (lines 71-142); [output_dir] is
    [self.output_dir]. *)
Definition docx_convert_file (output_dir file_path : string) (extract_images : bool)
    (image_format : string) (output_name : option string) (fs : FS.fs)
    : result (conversion_result * FS.fs) :=
  if negb (path_exists file_path fs) then Raise ("File not found: " ++ file_path) else
  let suffix := lower (Formats.path_suffix file_path) in
  if negb (mem suffix [".docx"; ".doc"])
  then Raise ("Unsupported file format: " ++ suffix
              ++ ". Only .docx and .doc are supported.") else
  output_name <- choose_output_name file_path output_name fs ;;
  let conversion_dir := joinpath output_dir output_name in
  fs <- mkdir conversion_dir fs ;;
  let conversion_images_dir := joinpath conversion_dir "images" in
  fs <- mkdir conversion_images_dir fs ;;
  '(markdown, images, fs) <-
    (if String.eqb suffix ".docx" then
'(body, parts) <- Document file_path fs ;;
       match Docx._convert_docx body parts extract_images image_format
               conversion_images_dir fs with
       | Some c => Ok (Docx.markdown c, Docx.images c, Docx.fs_after c)
       | None => Raise "int() argument of a list level"
       end
     else
'(html, images, fs) <-
         mammoth_convert file_path extract_images image_format conversion_images_dir fs ;;
       Ok (_html_to_markdown html, images, fs)) ;;
  let md_path := joinpath conversion_dir (output_name ++ ".md") in
  fs <- write_text md_path markdown fs ;;
  Ok (mkResult markdown images (Some md_path) (Some conversion_dir) None, fs).

(** The head of [ExcelConverter.convert_file] (lines 55-65) before the
    sheets are converted *)
Definition excel_convert_file (opt : optimizer) (file_path : string)
    (extract_images : bool) (image_format images_dir : string) (fs : FS.fs)
    : result (conversion_result * FS.fs) :=
  if negb (path_exists file_path fs) then Raise ("File not found: " ++ file_path) else
  let suffix := lower (Formats.path_suffix file_path) in
  if negb (mem suffix [".xlsx"; ".xls"])
  then Raise ("Unsupported file format: " ++ suffix) else
  sheets <- load_workbook file_path fs ;;
  '(markdown, images, fs) <-
    Excel.convert_file opt sheets extract_images image_format images_dir fs ;;
  Ok (mkResult markdown images None None None, fs).

(** The head of [PowerPointConverter.convert_file] (lines 56-66) *)
Definition pptx_convert_file (opt : optimizer) (file_path : string)
    (extract_images : bool) (image_format images_dir : string) (fs : FS.fs)
    : result (conversion_result * FS.fs) :=
  if negb (path_exists file_path fs) then Raise ("File not found: " ++ file_path) else
  let suffix := lower (Formats.path_suffix file_path) in
  if negb (mem suffix [".pptx"; ".ppt"])
  then Raise ("Unsupported file format: " ++ suffix) else
  slides <- Presentation file_path fs ;;
  let '(markdown, images, fs) :=
    Pptx.convert_file opt (Office.path_name file_path) slides extract_images
      image_format images_dir fs in
  Ok (mkResult markdown images None None None, fs).

(** The optimizer that [OfficeConverter.__init__] builds (lines 534-540) *)
Definition office_optimizer : optimizer := mkOptimizer 1920 1080 85 80 true 100.

(** [OfficeConverter.convert_file] (lines 574-659); [cache_dir] is
    [self.cache_dir]. *)
Definition convert_file (cache_dir file_path : string) (extract_images : bool)
    (image_format : string) (output_name : option string) (fs : FS.fs)
    : result (conversion_result * FS.fs) :=
  let output_dir := joinpath cache_dir "output" in
  if negb (path_exists file_path fs) then Raise ("File not found: " ++ file_path) else
  match Formats.get_file_type file_path with
  | None => Raise (Formats.unsupported_message file_path)
  | Some file_type =>
      output_name <- choose_output_name file_path output_name fs ;;
      let conversion_dir := joinpath output_dir output_name in
      fs <- mkdir conversion_dir fs ;;
      let images_dir := joinpath conversion_dir "images" in
      fs <- mkdir images_dir fs ;;
      '(result, fs) <-
        (if String.eqb file_type "word" then
           docx_convert_file output_dir file_path extract_images image_format
             (Some output_name) fs
         else if String.eqb file_type "excel" then
           excel_convert_file office_optimizer file_path extract_images image_format
             images_dir fs
         else if String.eqb file_type "powerpoint" then
           pptx_convert_file office_optimizer file_path extract_images image_format
             images_dir fs
         else Raise ("Unknown file type: " ++ file_type)) ;;
      let md_path := joinpath conversion_dir (output_name ++ ".md") in
      '(result, fs) <-
        (match r_output_path result with
         | Some _ => Ok (result, fs)
         | None =>
             fs <- write_text md_path (r_markdown result) fs ;;
             Ok (mkResult (r_markdown result) (r_images result) (Some md_path)
                   (Some conversion_dir) (r_file_type result), fs)
         end) ;;
      Ok (mkResult (r_markdown result) (r_images result) (r_output_path result)
            (r_conversion_dir result) (Some file_type), fs)
  end.

End WithLibraries.

(** Stand-ins for the libraries, to run the converters on concrete
    inputs: a path exists when a file is stored under it, directories
    need no creation, and every document is empty. *)
Definition toy_libraries : Libraries := {|
  path_exists := fun p fs => mem p (map fst (FS.fs_files fs));
  read_bytes := fun p fs =>
    match find (fun e => String.eqb (fst e) p) (FS.fs_files fs) with
    | Some e => Ok (snd e)
    | None => Raise ("[Errno 2] No such file or directory: '" ++ p ++ "'")
    end;
  mkdir := fun _ fs => Ok fs;
  joinpath := FS.path_join;
  Document := fun _ _ => Ok ([], []);
  mammoth_convert := fun _ _ _ _ fs => Ok ("", [], fs);
  markdownify := fun html => html;
  load_workbook := fun _ _ => Ok [];
  Presentation := fun _ _ => Ok []
|}.

End Unified.

(** ** Vocabulary of the further properties *)

Module MoreProps.
Import PyStr.

(** The unit [_human_readable_size] ends on, as an index into B, KB, MB,
    GB, TB *)
Definition unit_index (n : Z) : Z :=
  if (n <? 1024)%Z then 0
  else if (n <? 1024 ^ 2)%Z then 1
  else if (n <? 1024 ^ 3)%Z then 2
  else if (n <? 1024 ^ 4)%Z then 3
  else 4.

Definition unit_name (k : Z) : string :=
  nth (Z.to_nat k) ["B"; "KB"; "MB"; "GB"; "TB"] "".

(** [n / 1024^k] in exact arithmetic *)
Definition scaled (n k : Z) : Q := (inject_Z n / inject_Z (1024 ^ k))%Q.

(** Does a conversion write image files?  Only with [extract_images] on
    and an [image_format] of "file" or "both". *)
Definition writes_images (extract_images : bool) (image_format : string) : bool :=
  extract_images && mem image_format ["file"; "both"].

(** Is the shape itself a picture (not a group that holds one)? *)
Definition is_picture (s : Pptx.shape) : bool :=
  match Pptx.shape_type s with Pptx.Picture _ => true | _ => false end.

(** The pictures among the shapes of the slides, groups not entered *)
Definition count_pictures (slides : list Pptx.slide) : nat :=
  fold_right (fun sl n => List.length (filter is_picture (Pptx.slide_shapes sl)) + n)
    0 slides.

(** The images of a workbook *)
Definition count_sheet_images (sheets : list Excel.worksheet) : nat :=
  fold_right (fun ws n => List.length (Excel.sheet_images ws) + n) 0 sheets.

(** [imgs] are files of [dir] called [prefix], number, extension, with
    the numbers [c + 1], [c + 2], ... in this order, written with three
    digits at least, and extensions among [exts]. *)
Fixpoint numbered (dir prefix : string) (exts : list string) (c : Z) (imgs : list string)
    : Prop :=
  match imgs with
  | [] => True
  | p :: rest =>
      (exists ext, In ext exts /\ p = FS.path_join dir (prefix ++ fmt_03d (c + 1) ++ ext))
      /\ numbered dir prefix exts (c + 1) rest
  end.

(** The extensions [ext_map] of the Word adapter yields *)
Definition docx_exts : list string := [".png"; ".jpg"; ".gif"; ".bmp"].

(** A state of the spreadsheet conversion in which every image so far
    was stored under its number *)
Definition excel_numbered (images_dir : string) (a : Excel.excel_state) : Prop :=
  numbered images_dir "excel_image_" [".webp"; ".png"; ".jpg"] 0 (Excel.es_images a)
  /\ Excel.es_counter a = Z.of_nat (List.length (Excel.es_images a)).

(** The state of the image loop of a paragraph entered with the counter
    [c0], when every image found so far was written *)
Definition blips_numbered (images_dir : string) (c0 : Z) (st : Docx.img_state) : Prop :=
  numbered images_dir "image_" docx_exts c0 (Docx.st_images st)
  /\ Docx.st_counter st = (c0 + Z.of_nat (List.length (Docx.st_images st)))%Z
  /\ FS.fs_unwritable (Docx.st_fs st) = [].

Definition docx_numbered (images_dir : string) (st : Docx.docx_state) : Prop :=
  numbered images_dir "image_" docx_exts 0 (Docx.ds_images st)
  /\ Docx.ds_counter st = Z.of_nat (List.length (Docx.ds_images st))
  /\ FS.fs_unwritable (Docx.ds_fs st) = [].

(** A paragraph without images whose runs hold whitespace only *)
Definition blank_paragraph (p : Docx.paragraph) : Prop :=
  Forall (fun r => Docx.run_blips r = []) (Docx.para_runs p)
  /\ strip (join "" (Docx.run_text_parts (Docx.para_runs p))) = "".

(** The characters of [s] other than whitespace and the dash *)
Fixpoint solid (s : string) : string :=
  match s with
  | "" => ""
  | String c s' =>
      if is_space c || Ascii.eqb c "-" then solid s' else String c (solid s')
  end.

(** The content of the file stored last under [path] *)
Definition file_content (path : string) (fs : FS.fs) : option (list Byte.byte) :=
  option_map snd (find (fun e => String.eqb (fst e) path) (FS.fs_files fs)).

End MoreProps.

(* ================================================================== *)
(** * Part II. Properties                                              *)
(* ================================================================== *)

Import Props.

(** ** Facts about the string primitives *)

Section PyStrFacts.
Import PyStr.

Lemma none_of_app p s t :
  none_of p (s ++ t) = none_of p s && none_of p t.
Proof.
  induction s as [|c s IH]; simpl; [reflexivity|].
  now rewrite IH, andb_assoc.
Qed.

Lemma append_assoc (s t u : string) : (s ++ t) ++ u = s ++ (t ++ u).
Proof. induction s as [|c s IH]; simpl; [reflexivity | now rewrite IH]. Qed.

Lemma append_nil_r (s : string) : s ++ "" = s.
Proof. induction s as [|c s IH]; simpl; [reflexivity | now rewrite IH]. Qed.

Lemma rstrip_app_nonspace s c :
  is_space c = false -> rstrip (s ++ String c "") = s ++ String c "".
Proof.
  intros Hc. induction s as [|a s IH]; simpl.
  - now rewrite Hc.
  - rewrite IH. destruct s; reflexivity.
Qed.


Lemma lstrip_nonspace c s : is_space c = false -> lstrip (String c s) = String c s.
Proof. intros H; simpl; now rewrite H. Qed.

Lemma join_single sep s : join sep [s] = s.
Proof. reflexivity. Qed.

End PyStrFacts.

(** ** Word adapter: inline formatting *)

Section DocxRuns.
Import PyStr Docx.

Lemma format_run_all_flags text blips :
  format_run (mkRun text true true true true blips) = "~~<u>***" ++ text ++ "***</u>~~".
Proof.
  unfold format_run; simpl. now rewrite !append_assoc.
Qed.

Lemma truthy_nonempty s : s <> "" -> truthy s = true.
Proof. destruct s; [congruence | reflexivity]. Qed.

Lemma strip_wrapped text :
  strip ("~~<u>***" ++ text ++ "***</u>~~") = "~~<u>***" ++ text ++ "***</u>~~".
Proof.
  unfold strip. cbn [append]. rewrite lstrip_nonspace by reflexivity.
  change ("~~<u>***" ++ text ++ "***</u>~~")
    with (String "~" (String "~" (String "<" (String "u" (String ">"
           (String "*" (String "*" (String "*" (text ++ "***</u>~~"))))))))).
  replace (String "~" (String "~" (String "<" (String "u" (String ">"
           (String "*" (String "*" (String "*" (text ++ "***</u>~~")))))))))
    with (("~~<u>***" ++ text ++ "***</u>~") ++ String "~" "").
  - now apply rstrip_app_nonspace.
  - rewrite !append_assoc. reflexivity.
Qed.

End DocxRuns.

Section DocxRunsClaims.
Import PyStr Docx.

(** C1, as stated, fails.  With the four flags set the run "text" is
    rendered with bold innermost and strike outermost, and italic is
    marked by an asterisk: the result is not [**_<u>~~text~~</u>_**]. *)
Lemma C1_counterexample :
  run_text_parts [mkRun "text" true true true true []] = ["~~<u>***text***</u>~~"]
  /\ format_run (mkRun "text" true true true true []) <> "**_<u>~~text~~</u>_**".
Proof. split; [reflexivity | discriminate]. Qed.

(** C1, amended.  For every inline run with non-empty text whose bold,
    italic, underline and strike flags are all set, the Word adapter
    renders that run as exactly [~~<u>***text***</u>~~]: the wrapping is
    applied innermost-to-outermost in the order bold, italic, underline,
    strike, with strike outermost and italic written with [*].  A plain
    paragraph made of that single run is rendered as that string. *)
Theorem C1_run_wrapping (text : string) (blips : list (option string))
    (parts : related_parts) (image_format images_dir : string) (counter : Z)
    (fs : FS.fs) :
  text <> "" ->
  run_text_parts [mkRun text true true true true blips]
    = ["~~<u>***" ++ text ++ "***</u>~~"]
  /\ _process_paragraph
       (mkParagraph "Normal" [mkRun text true true true true blips] None)
       parts false image_format images_dir counter fs
     = (fs, Some ("~~<u>***" ++ text ++ "***</u>~~", [])).
Proof.
  intros Htext.
  assert (Hparts : run_text_parts [mkRun text true true true true blips]
                   = ["~~<u>***" ++ text ++ "***</u>~~"]).
  { cbn [run_text_parts run_text]. rewrite (truthy_nonempty _ Htext).
    now rewrite format_run_all_flags. }
  split; [exact Hparts|].
  unfold _process_paragraph.
  cbn [para_runs para_style_name para_pPr st_text_parts st_fs st_images].
  rewrite Hparts, join_single, strip_wrapped.
  reflexivity.
Qed.

Lemma C1_run_wrapping_witness :
  run_text_parts [mkRun "text" true true true true []] = ["~~<u>***text***</u>~~"]
  /\ _process_paragraph (mkParagraph "Normal" [mkRun "text" true true true true []] None)
       [] false "file" "images" 0 (FS.mkFs [] [])
     = (FS.mkFs [] [], Some ("~~<u>***text***</u>~~", [])).
Proof.
  apply (C1_run_wrapping "text" [] [] "file" "images" 0 (FS.mkFs [] [])).
  discriminate.
Defined.

End DocxRunsClaims.

(** ** Word adapter: heading levels *)

Section DocxHeadings.
Import PyStr Docx.
Local Open Scope Z_scope.

Lemma digit_cases d : 0 <= d < 10 ->
  d = 0 \/ d = 1 \/ d = 2 \/ d = 3 \/ d = 4 \/ d = 5 \/ d = 6 \/ d = 7 \/ d = 8 \/ d = 9.
Proof. lia. Qed.

Lemma digit_of_digit_char d : 0 <= d < 10 -> digit_of (digit_char d) = Some d.
Proof.
  intros H. destruct (digit_cases d H) as [->|[->|[->|[->|[->|[->|[->|[->|[->| ->]]]]]]]]];
    reflexivity.
Qed.





Lemma is_digit_digit_char d : 0 <= d < 10 -> is_digit (digit_char d) = true.
Proof. intros H. unfold is_digit. now rewrite digit_of_digit_char. Qed.

Lemma all_digits_dec_digits fuel : forall n acc,
  0 <= n -> all_digits acc = true -> all_digits (dec_digits fuel n acc) = true.
Proof.
  induction fuel as [|k IH]; intros n acc Hn Hacc; [exact Hacc|].
  cbn [dec_digits]. fold (digit_char (n mod 10)).
  assert (Hd : all_digits (String (digit_char (n mod 10)) acc) = true).
  { unfold all_digits in *. cbn [none_of].
    rewrite is_digit_digit_char by (apply Z.mod_pos_bound; lia). now rewrite Hacc. }
  destruct (n <? 10); [exact Hd|].
  apply IH; [apply Z.div_pos; lia | exact Hd].
Qed.

(** What a string of digits looks like to the other primitives *)
Lemma is_digit_range c : is_digit c = true -> (48 <= code c <= 57)%nat.
Proof.
  unfold is_digit, digit_of.
  destruct ((48 <=? code c)%nat && (code c <=? 57)%nat) eqn:E; [|discriminate].
  intros _. apply andb_prop in E as [E1 E2].
  apply Nat.leb_le in E1, E2. lia.
Qed.

Lemma digit_not_space c : is_digit c = true -> is_space c = false.
Proof.
  intros H. apply is_digit_range in H. unfold is_space.
  repeat match goal with
         | |- context [(?a <=? ?b)%nat] =>
             let E := fresh in destruct (Nat.leb_spec a b) as [E|E]
         | |- context [(?a =? ?b)%nat] =>
             let E := fresh in destruct (Nat.eqb_spec a b) as [E|E]
         end; simpl; try reflexivity; lia.
Qed.


End DocxHeadings.

Section DocxHeadingClaims.
Import PyStr Docx.
Local Open Scope Z_scope.
















End DocxHeadingClaims.

(** ** Spreadsheet adapter: the shape of the rendered table *)

Section ExcelTable.
Import PyStr Excel.

Lemma unescaped_pipes_app_space prev s t :
  unescaped_pipes prev (s ++ String " " t)
  = unescaped_pipes prev s + unescaped_pipes false t.
Proof.
  revert prev. induction s as [|c s IH]; intros prev; simpl; [reflexivity|].
  rewrite IH. lia.
Qed.

Lemma unescaped_pipes_escape s : forall prev,
  unescaped_pipes prev (replace_char "|" "\|" s) = 0.
Proof.
  induction s as [|c s IH]; intros prev; [reflexivity|].
  cbn [replace_char]. destruct (Ascii.eqb_spec c "|") as [->|Hc].
  - cbn. apply IH.
  - cbn [unescaped_pipes]. rewrite IH.
    destruct (Ascii.eqb_spec c "|"); [contradiction | reflexivity].
Qed.

Lemma unescaped_pipes_replace_newline s : forall prev,
  unescaped_pipes prev (replace_char newline " " s) = unescaped_pipes prev s.
Proof.
  induction s as [|c s IH]; intros prev; [reflexivity|].
  cbn [replace_char]. destruct (Ascii.eqb_spec c newline) as [->|Hc].
  - cbn. apply IH.
  - cbn [unescaped_pipes]. now rewrite IH.
Qed.

Lemma cell_text_pipes c : unescaped_pipes false (cell_text c) = 0.
Proof.
  unfold cell_text. now rewrite unescaped_pipes_replace_newline, unescaped_pipes_escape.
Qed.

Lemma none_of_replace_newline s :
  none_of is_newline (replace_char newline " " s) = true.
Proof.
  induction s as [|c s IH]; [reflexivity|].
  cbn [replace_char]. destruct (Ascii.eqb c newline) eqn:E.
  - cbn. exact IH.
  - cbn [none_of]. unfold is_newline at 1. now rewrite E, IH.
Qed.

Lemma cell_text_no_newline c : none_of is_newline (cell_text c) = true.
Proof. apply none_of_replace_newline. Qed.

Lemma clean_cells_map r : clean_cells (map cell_text r).
Proof.
  unfold clean_cells. apply Forall_forall. intros t Ht.
  apply in_map_iff in Ht as (c & <- & _).
  split; [apply cell_text_pipes | apply cell_text_no_newline].
Qed.

Lemma clean_cells_dashes n : clean_cells (List.repeat "---" n).
Proof.
  unfold clean_cells. apply Forall_forall. intros t Ht.
  apply repeat_spec in Ht as ->. split; reflexivity.
Qed.

Lemma join_cons sep a b rest :
  join sep (a :: b :: rest) = a ++ sep ++ join sep (b :: rest).
Proof. reflexivity. Qed.

Lemma pipes_join_tail cells :
  cells <> [] -> clean_cells cells ->
  unescaped_pipes false (join " | " cells ++ " |") = List.length cells.
Proof.
  induction cells as [|a rest IH]; [congruence|].
  intros _ Hclean. inversion Hclean as [|? ? [Ha _] Hrest]; subst.
  destruct rest as [|b rest'].
  - cbn [join List.length].
    change (a ++ " |") with (a ++ String " " "|").
    rewrite unescaped_pipes_app_space, Ha. reflexivity.
  - rewrite join_cons, !append_assoc.
    change (a ++ " | " ++ join " | " (b :: rest') ++ " |")
      with (a ++ String " " (String "|" (String " " (join " | " (b :: rest') ++ " |")))).
    rewrite unescaped_pipes_app_space, Ha.
    cbn [unescaped_pipes]. cbn [Ascii.eqb Bool.eqb andb negb Nat.add].
    rewrite IH by (discriminate || assumption).
    reflexivity.
Qed.

Lemma columns_md_row cells :
  cells <> [] -> clean_cells cells -> columns (md_row cells) = List.length cells.
Proof.
  intros Hne Hclean. unfold columns, md_row.
  change ("| " ++ join " | " cells ++ " |")
    with (String "|" (String " " (join " | " cells ++ " |"))).
  cbn [unescaped_pipes]. cbn [Ascii.eqb Bool.eqb andb negb].
  rewrite pipes_join_tail by assumption. lia.
Qed.

Lemma none_of_join_cells cells :
  clean_cells cells -> none_of is_newline (join " | " cells) = true.
Proof.
  induction cells as [|a rest IH]; [reflexivity|].
  intros Hclean. inversion Hclean as [|? ? [_ Ha] Hrest]; subst.
  destruct rest as [|b rest']; [exact Ha|].
  rewrite join_cons, !none_of_app, Ha, IH by assumption. reflexivity.
Qed.

Lemma md_row_no_newline cells :
  clean_cells cells -> none_of is_newline (md_row cells) = true.
Proof.
  intros H. unfold md_row.
  rewrite !none_of_app, none_of_join_cells by assumption. reflexivity.
Qed.

End ExcelTable.

Section ExcelTableClaims.
Import PyStr Excel.

Lemma split_lines_app_nl s t :
  none_of is_newline s = true ->
  split_lines (s ++ nl ++ t) = s :: split_lines t.
Proof.
  induction s as [|c s IH]; [reflexivity|].
  cbn [none_of]. intros H. apply andb_prop in H as [Hc Hs].
  apply negb_true_iff in Hc. unfold is_newline in Hc.
  cbn [String.append split_lines]. rewrite Hc.
  change (s ++ String newline t) with (s ++ nl ++ t).
  now rewrite (IH Hs).
Qed.

Lemma split_lines_join lines :
  lines <> [] -> Forall (fun l => none_of is_newline l = true) lines ->
  split_lines (join nl lines ++ nl) = (lines ++ [""])%list.
Proof.
  induction lines as [|a rest IH]; [congruence|].
  intros _ Hall. inversion Hall as [|? ? Ha Hrest]; subst.
  destruct rest as [|b rest'].
  - cbn [join app]. rewrite <- (append_nil_r nl) at 1.
    change (a ++ nl ++ "") with (a ++ nl ++ "").
    now rewrite split_lines_app_nl.
  - rewrite join_cons, !append_assoc, split_lines_app_nl by exact Ha.
    rewrite IH by (discriminate || assumption). reflexivity.
Qed.

Lemma md_rows_succ rows : forall i,
  md_rows (S i) rows = map (fun r => md_row (map cell_text r)) rows.
Proof.
  induction rows as [|r rest IH]; intros i; [reflexivity|].
  cbn [md_rows Nat.eqb map app]. now rewrite IH.
Qed.

Lemma md_rows_zero r rest :
  md_rows 0 (r :: rest)
  = md_row (map cell_text r) :: separator_row (List.length r)
    :: map (fun r => md_row (map cell_text r)) rest.
Proof.
  cbn [md_rows Nat.eqb app]. now rewrite md_rows_succ, length_map.
Qed.

Lemma max_cols_bound data r : In r data -> List.length r <= max_cols data.
Proof.
  induction data as [|a rest IH]; [contradiction|].
  cbn [max_cols fold_right]. fold (max_cols rest).
  intros [->|Hin]; [lia|]. specialize (IH Hin). lia.
Qed.

Lemma length_normalize_row cols r :
  List.length r <= cols -> List.length (normalize_row cols r) = cols.
Proof.
  intros H. unfold normalize_row. rewrite length_app, repeat_length. lia.
Qed.

Lemma columns_separator n : 0 < n -> columns (separator_row n) = n.
Proof.
  intros Hn. unfold separator_row. fold (md_row (List.repeat "---" n)).
  rewrite columns_md_row, repeat_length; [reflexivity | | apply clean_cells_dashes].
  destruct n; [lia | discriminate].
Qed.

Lemma columns_rendered_row cols r :
  0 < cols -> List.length r <= cols ->
  columns (md_row (map cell_text (normalize_row cols r))) = cols
  /\ none_of is_newline (md_row (map cell_text (normalize_row cols r))) = true.
Proof.
  intros Hpos Hlen. split.
  - rewrite columns_md_row, length_map, length_normalize_row by
      (exact Hlen || apply clean_cells_map
       || (intros E; apply (f_equal (@List.length _)) in E;
           rewrite length_map, length_normalize_row in E by exact Hlen;
           cbn in E; lia)).
    reflexivity.
  - apply md_row_no_newline, clean_cells_map.
Qed.

Lemma rendered_rows cols rows :
  0 < cols -> (forall r, In r rows -> List.length r <= cols) ->
  Forall (fun line => columns line = cols /\ none_of is_newline line = true)
    (map (fun r => md_row (map cell_text r)) (map (normalize_row cols) rows)).
Proof.
  intros Hpos Hlen. apply Forall_forall. intros line Hin.
  apply in_map_iff in Hin as (r' & <- & Hin).
  apply in_map_iff in Hin as (r & <- & Hin).
  apply columns_rendered_row; auto.
Qed.

Lemma table_lines data :
  0 < max_cols data ->
  exists header body,
    split_lines (_create_markdown_table data)
    = (header :: separator_row (max_cols data) :: body ++ [""])%list
    /\ List.length body = List.length data - 1
    /\ Forall (fun line => columns line = max_cols data)
         (header :: separator_row (max_cols data) :: body).
Proof.
  intros Hpos. destruct data as [|r rest]; [cbn in Hpos; lia|].
  remember (max_cols (r :: rest)) as cols eqn:Ecols.
  assert (Hlen : forall x, In x (r :: rest) -> List.length x <= cols)
    by (intros; subst cols; now apply max_cols_bound).
  assert (Hr : List.length r <= cols) by (apply Hlen; now left).
  pose proof (rendered_rows cols rest Hpos
                (fun x Hx => Hlen x (or_intror Hx))) as Hbody.
  destruct (columns_rendered_row cols r Hpos Hr) as [Hc Hn].
  exists (md_row (map cell_text (normalize_row cols r))),
         (map (fun r => md_row (map cell_text r)) (map (normalize_row cols) rest)).
  assert (Hsep : separator_row (List.length (normalize_row cols r)) = separator_row cols)
    by now rewrite length_normalize_row.
  split; [|split].
  - unfold _create_markdown_table. rewrite <- Ecols.
    cbn [map]. rewrite md_rows_zero, Hsep.
    rewrite split_lines_join; [reflexivity | discriminate |].
    constructor; [exact Hn|]. constructor.
    + apply md_row_no_newline, clean_cells_dashes.
    + eapply Forall_impl; [|exact Hbody]. now intros ? [_ ?].
  - rewrite !length_map. cbn [List.length]. lia.
  - constructor; [exact Hc|]. constructor; [now apply columns_separator|].
    eapply Forall_impl; [|exact Hbody]. now intros ? [? _].
Qed.

(** C5.  For every non-empty input grid (a grid that holds at least one
    cell, so [max_row_length >= 1]), jagged or not, [_create_markdown_table]
    renders one line per row plus the separator line after row 0, and
    every one of these lines, the separator included, has exactly
    [max_row_length] columns.  The grid [["Name","Age"],["Al","30"],
    ["Bo",""]] renders as the four lines [| Name | Age |],
    [| --- | --- |], [| Al | 30 |], [| Bo |  |]. *)
Theorem C5_table_shape :
  (forall data : list row,
      0 < max_cols data ->
      exists header body,
        split_lines (_create_markdown_table data)
        = (header :: separator_row (max_cols data) :: body ++ [""])%list
        /\ List.length body = List.length data - 1
        /\ Forall (fun line => columns line = max_cols data)
             (header :: separator_row (max_cols data) :: body))
  /\ split_lines
       (_create_markdown_table
          [[CStr "Name"; CStr "Age"]; [CStr "Al"; CStr "30"]; [CStr "Bo"; CStr ""]])
     = ["| Name | Age |"; "| --- | --- |"; "| Al | 30 |"; "| Bo |  |"; ""].
Proof.
  split; [exact table_lines | reflexivity].
Qed.

Lemma C5_table_shape_witness :
  exists header body,
    split_lines (_create_markdown_table [[CStr "a"; CStr "b|c"; CInt 3]; [CNone]])
    = (header :: separator_row 3 :: body ++ [""])%list
    /\ List.length body = 1
    /\ Forall (fun line => columns line = 3) (header :: separator_row 3 :: body).
Proof.
  apply (proj1 C5_table_shape [[CStr "a"; CStr "b|c"; CInt 3]; [CNone]]).
  cbn. lia.
Defined.

End ExcelTableClaims.

(** ** Spreadsheet adapter: blank rows and padding *)

Section ExcelRows.
Import PyStr Excel.

Lemma lstrip_whitespace s :
  none_of (fun ch => negb (is_space ch)) s = true -> lstrip s = "".
Proof.
  induction s as [|c s IH]; [reflexivity|].
  cbn [none_of lstrip]. intros H. apply andb_prop in H as [Hc Hs].
  rewrite negb_involutive in Hc. now rewrite Hc, IH.
Qed.

Lemma rstrip_head_nonspace c s : is_space c = false -> rstrip (String c s) <> "".
Proof.
  intros Hc. cbn [rstrip]. destruct (rstrip s); [rewrite Hc|]; discriminate.
Qed.

Lemma strip_empty_iff s :
  strip s = "" <-> none_of (fun ch => negb (is_space ch)) s = true.
Proof.
  split.
  - unfold strip. induction s as [|c s IH]; [reflexivity|].
    cbn [lstrip none_of]. destruct (is_space c) eqn:Hc.
    + intros H. now rewrite (IH H).
    + intros H. now apply rstrip_head_nonspace in H.
  - intros H. unfold strip. now rewrite lstrip_whitespace.
Qed.

Lemma cell_has_content_false c : cell_has_content c = false <-> blank_cell c.
Proof.
  unfold blank_cell. split.
  - intros H. destruct c; [now left | right ..];
      cbn [cell_has_content] in H; apply strip_empty_iff;
      destruct (strip _); [reflexivity | discriminate | reflexivity | discriminate
                           | reflexivity | discriminate | reflexivity | discriminate].
  - intros [-> | H]; [reflexivity|].
    destruct c; [reflexivity | ..]; cbn [cell_has_content];
      apply strip_empty_iff in H; now rewrite H.
Qed.

Lemma row_has_content_false r : existsb cell_has_content r = false <-> all_blank r.
Proof.
  unfold all_blank. induction r as [|c r IH]; cbn [existsb].
  - split; [constructor | reflexivity].
  - rewrite orb_false_iff, IH, cell_has_content_false. split.
    + intros [? ?]. now constructor.
    + intros H. now inversion H.
Qed.

Lemma sheet_data_blank r rows : all_blank r -> sheet_data (r :: rows) = sheet_data rows.
Proof.
  intros H. apply row_has_content_false in H.
  unfold sheet_data. cbn [filter]. now rewrite H.
Qed.

Lemma sheet_data_kept r rows :
  ~ all_blank r -> sheet_data (r :: rows) = r :: sheet_data rows.
Proof.
  intros H. unfold sheet_data. cbn [filter].
  destruct (existsb cell_has_content r) eqn:E; [reflexivity|].
  now apply row_has_content_false in E.
Qed.

(** C6.  On every worksheet a row whose cells are all blank ([None] or
    whitespace-only) is dropped before the table is built, every other
    row is kept, in order; and every kept row shorter than the maximum
    column count of the kept rows is padded with [None] cells, which
    render as empty cells, up to that count. *)
Theorem C6_blank_rows_dropped_and_rows_padded :
  sheet_data [] = []
  /\ (forall r rows, all_blank r -> sheet_data (r :: rows) = sheet_data rows)
  /\ (forall r rows, ~ all_blank r -> sheet_data (r :: rows) = r :: sheet_data rows)
  /\ (forall rows r,
        In r (sheet_data rows) ->
        let cols := max_cols (sheet_data rows) in
        List.length r <= cols
        /\ normalize_row cols r = (r ++ List.repeat CNone (cols - List.length r))%list
        /\ List.length (normalize_row cols r) = cols)
  /\ (forall rows,
        sheet_data rows <> [] ->
        _create_markdown_table (sheet_data rows)
        = join nl (md_rows 0 (map (normalize_row (max_cols (sheet_data rows)))
                                (sheet_data rows))) ++ nl)
  /\ cell_text CNone = "".
Proof.
  split; [reflexivity|]. split; [exact sheet_data_blank|].
  split; [exact sheet_data_kept|]. split; [|split; [|reflexivity]].
  - intros rows r Hin cols.
    assert (H : List.length r <= cols) by now apply max_cols_bound.
    split; [exact H|]. split; [reflexivity | now apply length_normalize_row].
  - intros rows Hne. unfold _create_markdown_table.
    destruct (sheet_data rows); [congruence | reflexivity].
Qed.

Lemma C6_blank_rows_dropped_and_rows_padded_witness :
  sheet_data [[CNone; CStr "  "]; [CStr "a"; CInt 1]; [CStr ""]; [CStr "b"]]
  = [[CStr "a"; CInt 1]; [CStr "b"]]
  /\ normalize_row 2 [CStr "b"] = [CStr "b"; CNone].
Proof.
  destruct C6_blank_rows_dropped_and_rows_padded as (_ & Hdrop & Hkeep & Hpad & _).
  split.
  - rewrite Hdrop by (repeat constructor; right; reflexivity).
    rewrite Hkeep
      by (intros H; inversion H as [|? ? [E|E] _]; discriminate E).
    rewrite Hdrop by (repeat constructor; right; reflexivity).
    rewrite Hkeep
      by (intros H; inversion H as [|? ? [E|E] _]; discriminate E).
    reflexivity.
  - apply (Hpad [[CStr "a"; CInt 1]; [CStr "b"]] [CStr "b"]).
    right; left; reflexivity.
Defined.

End ExcelRows.

(** ** Image optimizer: the extension that [optimize_image] returns *)

Section OptimizerFormat.
Import PyStr ImageOptimizer.
Context {pil : PIL}.
Local Open Scope Z_scope.







End OptimizerFormat.

Section OptimizerFormatClaims.
Import PyStr ImageOptimizer.
Local Open Scope Z_scope.



End OptimizerFormatClaims.

(** ** Facts about the float model *)

Section FloatFacts.
Import PyFloat.
Local Open Scope Q_scope.

Lemma pow2_pos e : 0 < pow2 e.
Proof. apply Qpower_0_lt. reflexivity. Qed.

Lemma pow2_add a b : pow2 (a + b) == pow2 a * pow2 b.
Proof. apply Qpower_plus. discriminate. Qed.

Lemma pow2_le a b : (a <= b)%Z -> pow2 a <= pow2 b.
Proof. intros H. apply Qpower_le_compat_l; [exact H | discriminate]. Qed.

Lemma pow2_lt_inv a b : pow2 a < pow2 b -> (a < b)%Z.
Proof. intros H. eapply Qpower_lt_compat_l_inv; [exact H | reflexivity]. Qed.

Lemma pow2_Z n : (0 <= n)%Z -> pow2 n == inject_Z (2 ^ n).
Proof. intros H. unfold pow2. now rewrite Zpower_Qpower. Qed.

Lemma pow2_sub a b : pow2 (a - b) * pow2 b == pow2 a.
Proof. rewrite <- pow2_add. now replace (a - b + b)%Z with a by ring. Qed.

Lemma Q_as_fraction (x : Q) : x * inject_Z (Zpos (Qden x)) == inject_Z (Qnum x).
Proof.
  destruct x as [p q]. unfold Qeq, Qmult, inject_Z. cbn. lia.
Qed.

Lemma Qnum_pos (x : Q) : 0 < x -> (0 < Qnum x)%Z.
Proof. destruct x as [p q]. unfold Qlt. cbn. lia. Qed.

(** [floor_log2] brackets its argument between two powers of two. *)
Lemma floor_log2_spec x :
  0 < x -> pow2 (floor_log2 x) <= x /\ x < pow2 (floor_log2 x + 1).
Proof.
  intros Hx. pose proof (Qnum_pos x Hx) as Hp.
  pose proof (Q_as_fraction x) as Hfrac.
  set (p := Qnum x) in *. set (q := Zpos (Qden x)) in *.
  assert (Hq : (0 < q)%Z) by (subst q; lia).
  destruct (Z.log2_spec p Hp) as [Hp1 Hp2].
  destruct (Z.log2_spec q Hq) as [Hq1 Hq2].
  pose proof (Z.log2_nonneg p) as Hlp. pose proof (Z.log2_nonneg q) as Hlq.
  set (lp := Z.log2 p) in *. set (lq := Z.log2 q) in *.
  (* the two bounds around [d = lp - lq] *)
  assert (Hlow : pow2 (lp - lq - 1) <= x).
  { apply (Qmult_le_r _ _ (pow2 (lq + 1))); [apply pow2_pos|].
    replace (lp - lq - 1)%Z with (lp - (lq + 1))%Z by ring.
    rewrite pow2_sub, !pow2_Z by lia.
    apply Qle_trans with (inject_Z p); [rewrite <- Zle_Qle; lia|].
    rewrite <- Hfrac. apply Qmult_le_l; [exact Hx|].
    rewrite <- Zle_Qle. unfold Z.succ in Hq2. lia. }
  assert (Hhigh : x < pow2 (lp - lq + 1)).
  { apply (Qmult_lt_r _ _ (pow2 lq)); [apply pow2_pos|].
    replace (lp - lq + 1)%Z with (lp + 1 - lq)%Z by ring.
    rewrite pow2_sub, !pow2_Z by lia.
    apply Qle_lt_trans with (inject_Z p); [|rewrite <- Zlt_Qlt; unfold Z.succ in Hp2; lia].
    rewrite <- Hfrac. apply Qmult_le_l; [exact Hx|].
    rewrite <- Zle_Qle. lia. }
  unfold floor_log2. fold p; fold q; fold lp; fold lq.
  destruct (Qle_bool (pow2 (lp - lq)) x) eqn:E.
  - apply Qle_bool_iff in E. split; [exact E | exact Hhigh].
  - split; [exact Hlow|].
    replace (lp - lq - 1 + 1)%Z with (lp - lq)%Z by ring.
    apply Qnot_le_lt. intros H. apply Qle_bool_iff in H. congruence.
Qed.

Lemma floor_log2_lower x k : 0 < x -> pow2 k <= x -> (k <= floor_log2 x)%Z.
Proof.
  intros Hx Hk. destruct (floor_log2_spec x Hx) as [_ Hhigh].
  assert (H : pow2 k < pow2 (floor_log2 x + 1)) by (eapply Qle_lt_trans; eauto).
  apply pow2_lt_inv in H. lia.
Qed.

Lemma floor_log2_upper x k : 0 < x -> x < pow2 k -> (floor_log2 x < k)%Z.
Proof.
  intros Hx Hk. destruct (floor_log2_spec x Hx) as [Hlow _].
  assert (H : pow2 (floor_log2 x) < pow2 k) by (eapply Qle_lt_trans; eauto).
  now apply pow2_lt_inv in H.
Qed.


(** [round_half_even] stays within one half of its argument and never
    crosses an integer. *)
Lemma floor_bounds y : inject_Z (Qfloor y) <= y /\ y < inject_Z (Qfloor y) + 1.
Proof.
  split; [apply Qfloor_le|].
  pose proof (Qlt_floor y) as H. now rewrite inject_Z_plus in H.
Qed.

Lemma round_half_even_cases y :
  (round_half_even y = Qfloor y /\ y - inject_Z (Qfloor y) <= 1 # 2)
  \/ (round_half_even y = (Qfloor y + 1)%Z /\ 1 # 2 <= y - inject_Z (Qfloor y)).
Proof.
  unfold round_half_even.
  destruct (Qcompare (y - inject_Z (Qfloor y)) (1 # 2)) eqn:E.
  - apply Qeq_alt in E. destruct (Z.even (Qfloor y)); [left | right];
      (split; [reflexivity | rewrite E; apply Qle_refl]).
  - apply Qlt_alt in E. left. split; [reflexivity | now apply Qlt_le_weak].
  - apply Qgt_alt in E. right. split; [reflexivity | now apply Qlt_le_weak].
Qed.

Lemma round_half_even_error y : Qabs (inject_Z (round_half_even y) - y) <= 1 # 2.
Proof.
  destruct (floor_bounds y) as [H1 H2]. apply Qabs_Qle_condition.
  destruct (round_half_even_cases y) as [[-> H] | [-> H]];
    rewrite ?inject_Z_plus; change (inject_Z 1) with 1; split; lra.
Qed.

Lemma round_half_even_ge y k : inject_Z k <= y -> (k <= round_half_even y)%Z.
Proof.
  intros H. apply Qfloor_resp_le in H. rewrite Qfloor_Z in H.
  destruct (round_half_even_cases y) as [[-> _] | [-> _]]; lia.
Qed.

Lemma round_half_even_le y k : y <= inject_Z k -> (round_half_even y <= k)%Z.
Proof.
  intros H. pose proof (Qfloor_resp_le _ _ H) as Hf. rewrite Qfloor_Z in Hf.
  destruct (round_half_even_cases y) as [[-> _] | [-> Hhalf]]; [exact Hf|].
  assert (Hlt : inject_Z (Qfloor y) < inject_Z k) by (destruct (floor_bounds y); lra).
  rewrite <- Zlt_Qlt in Hlt. lia.
Qed.

Lemma fl_positive x : 0 < x -> fl x = fl_pos x.
Proof.
  intros H. unfold fl. apply Qgt_alt in H. now rewrite H.
Qed.

Lemma scaled_back x e : x / pow2 e * pow2 e == x.
Proof.
  field. intros H. pose proof (pow2_pos e) as Hp. rewrite H in Hp. discriminate Hp.
Qed.

(** The rounding error is at most half a unit in the last place. *)
Lemma fl_pos_error x : Qabs (fl_pos x - x) <= (1 # 2) * pow2 (ulp_exp x).
Proof.
  unfold fl_pos. set (e := ulp_exp x). set (y := x / pow2 e).
  pose proof (round_half_even_error y) as Herr.
  pose proof (pow2_pos e) as Hp.
  assert (Hx : x == y * pow2 e) by (subst y; now rewrite scaled_back).
  apply Qabs_Qle_condition in Herr as [H1 H2].
  apply Qabs_Qle_condition.
  set (m := inject_Z (round_half_even y)) in *.
  clearbody m y e.
  split; nra.
Qed.

(** Relative error of rounding in the normal range *)
Lemma fl_relative_error x :
  pow2 (-1022) <= x -> Qabs (fl x - x) <= x * pow2 (-53).
Proof.
  intros Hn.
  assert (Hx : 0 < x) by (eapply Qlt_le_trans; [apply (pow2_pos (-1022)) | exact Hn]).
  rewrite (fl_positive x Hx).
  eapply Qle_trans; [apply fl_pos_error|].
  pose proof (floor_log2_lower x (-1022) Hx Hn) as HE.
  destruct (floor_log2_spec x Hx) as [Hlow _].
  unfold ulp_exp. rewrite Z.max_l by lia.
  replace (floor_log2 x - 52)%Z with (floor_log2 x + -53 + 1)%Z by ring.
  rewrite !pow2_add.
  change (pow2 1) with 2.
  pose proof (pow2_pos (-53)) as H53.
  set (a := pow2 (floor_log2 x)) in *. set (u := pow2 (-53)) in *.
  nra.
Qed.

(** Rounding does not cross an integer (below [2^53]). *)
Lemma ulp_exp_nonpos x : 0 < x -> x < pow2 53 -> (ulp_exp x <= 0)%Z.
Proof.
  intros Hx Hb. pose proof (floor_log2_upper x 53 Hx Hb). unfold ulp_exp. lia.
Qed.

Lemma scaled_integer n e :
  (e <= 0)%Z -> inject_Z n / pow2 e == inject_Z (n * 2 ^ (- e)).
Proof.
  intros He. rewrite inject_Z_mult, <- pow2_Z by lia.
  unfold pow2. rewrite Qpower_opp. reflexivity.
Qed.

Lemma fl_ge_integer x n : 0 < x -> x < pow2 53 -> inject_Z n <= x -> inject_Z n <= fl x.
Proof.
  intros Hx Hb Hn. rewrite (fl_positive x Hx). unfold fl_pos.
  pose proof (ulp_exp_nonpos x Hx Hb) as He. set (e := ulp_exp x) in *.
  pose proof (pow2_pos e) as Hp.
  assert (Hk : inject_Z (n * 2 ^ (- e)) <= x / pow2 e).
  { rewrite <- scaled_integer by exact He.
    apply Qmult_le_compat_r; [exact Hn|]. apply Qinv_le_0_compat. now apply Qlt_le_weak. }
  apply round_half_even_ge in Hk. rewrite Zle_Qle in Hk.
  rewrite <- scaled_integer in Hk by exact He.
  apply (Qmult_le_compat_r _ _ (pow2 e)) in Hk; [|now apply Qlt_le_weak].
  now rewrite scaled_back in Hk.
Qed.

Lemma fl_le_integer x n : 0 < x -> x < pow2 53 -> x <= inject_Z n -> fl x <= inject_Z n.
Proof.
  intros Hx Hb Hn. rewrite (fl_positive x Hx). unfold fl_pos.
  pose proof (ulp_exp_nonpos x Hx Hb) as He. set (e := ulp_exp x) in *.
  pose proof (pow2_pos e) as Hp.
  assert (Hk : x / pow2 e <= inject_Z (n * 2 ^ (- e))).
  { rewrite <- scaled_integer by exact He.
    apply Qmult_le_compat_r; [exact Hn|]. apply Qinv_le_0_compat. now apply Qlt_le_weak. }
  apply round_half_even_le in Hk. rewrite Zle_Qle in Hk.
  rewrite <- scaled_integer in Hk by exact He.
  apply (Qmult_le_compat_r _ _ (pow2 e)) in Hk; [|now apply Qlt_le_weak].
  now rewrite scaled_back in Hk.
Qed.

(** Integers below [2^53] are floats. *)
Lemma fl_integer n : (0 < n)%Z -> (n < 2 ^ 53)%Z -> fl (inject_Z n) == inject_Z n.
Proof.
  intros Hn Hb.
  assert (Hx : 0 < inject_Z n) by (change 0 with (inject_Z 0); now rewrite <- Zlt_Qlt).
  assert (Hlt : inject_Z n < pow2 53) by (rewrite pow2_Z by lia; now rewrite <- Zlt_Qlt).
  apply Qle_antisym.
  - apply fl_le_integer; [exact Hx | exact Hlt | apply Qle_refl].
  - apply fl_ge_integer; [exact Hx | exact Hlt | apply Qle_refl].
Qed.

(** On the operations of the resize of a 2148 x 1000 image, and on the
    literal [0.3], the model agrees with the machine's binary64. *)
#[warnings="-inexact-float"] Example fl_agrees_with_binary64 :
  HwFloat.denotes (HwFloat.truediv 1920 2148) (fl (inject_Z 1920 / inject_Z 2148))
  /\ HwFloat.denotes (HwFloat.truediv 1080 1000) (fl (inject_Z 1080 / inject_Z 1000))
  /\ HwFloat.denotes (HwFloat.int_mul 2148 (HwFloat.truediv 1920 2148))
       (int_mul 2148 (fl (inject_Z 1920 / inject_Z 2148)))
  /\ HwFloat.denotes (HwFloat.int_mul 1000 (HwFloat.truediv 1920 2148))
       (int_mul 1000 (fl (inject_Z 1920 / inject_Z 2148)))
  /\ HwFloat.denotes 0.3%float (fl (3 # 10))
  /\ HwFloat.denotes (HwFloat.truediv 1 3) (fl (inject_Z 1 / inject_Z 3)).
Proof. repeat split; vm_compute; reflexivity. Qed.

End FloatFacts.

(** ** Image optimizer: classification of single-colour images *)

Section OptimizerClassifier.
Import PyStr ImageOptimizer.
Context {pil : PIL}.
Local Open Scope Z_scope.

Lemma pixel_eqb_refl p : pixel_eqb p p = true.
Proof. unfold pixel_eqb. destruct (list_eq_dec Z.eq_dec p p); congruence. Qed.

Lemma add_color_same p k : add_color p [(k, p)] = [(S k, p)].
Proof. cbn [add_color]. now rewrite pixel_eqb_refl. Qed.

Lemma fold_add_color_repeat p n : forall k,
  fold_left (fun acc q => add_color q acc) (List.repeat p n) [(k, p)] = [((k + n)%nat, p)].
Proof.
  induction n as [|n IH]; intros k; cbn [List.repeat fold_left].
  - now rewrite Nat.add_0_r.
  - rewrite add_color_same, IH. f_equal. f_equal. lia.
Qed.

Lemma getcolors_single_color mode w h p n :
  getcolors 1000 (mkImage mode w h (List.repeat p (S n))) = Some [(S n, p)].
Proof.
  unfold getcolors. cbn [im_pixels List.repeat fold_left add_color].
  rewrite fold_add_color_repeat. reflexivity.
Qed.

Lemma lit_0_3_value : (lit_0_3 == 5404319552844595 # 18014398509481984)%Q.
Proof. vm_compute. reflexivity. Qed.

Lemma ratio_exceeds_spec s : 1 <= s <= 10000 -> ratio_exceeds s = (s <=? 3).
Proof.
intros Hs. destruct (Z.leb_spec s 3) as [Hsmall | Hbig].
- assert (Hc : s = 1 \/ s = 2 \/ s = 3) by lia.
  destruct Hc as [-> | [-> | ->]]; vm_compute; reflexivity.
- unfold ratio_exceeds, PyFloat.gt. apply negb_false_iff, Qle_bool_iff.
  set (x := (inject_Z (Z.of_nat 1) / inject_Z s)%Q).
  assert (Hs4 : (4 <= inject_Z s)%Q)
    by (change 4%Q with (inject_Z 4); rewrite <- Zle_Qle; lia).
  assert (Hs5 : (inject_Z s <= 10000)%Q)
    by (change 10000%Q with (inject_Z 10000); rewrite <- Zle_Qle; lia).
  assert (Hx : (x * inject_Z s == 1)%Q) by (subst x; field; lra).
  assert (Hx0 : (0 < x)%Q) by (subst x; apply Qlt_shift_div_l; [lra | reflexivity]).
  assert (Hx1 : (1 # 10000 <= x)%Q /\ (x <= 1 # 4)%Q).
  { set (S := inject_Z s) in *. clearbody x S. split; nra. }
  assert (Hnorm : (PyFloat.pow2 (-1022) <= x)%Q).
  { eapply Qle_trans; [apply (pow2_le (-1022) (-14)); lia|].
    eapply Qle_trans; [|exact (proj1 Hx1)]. vm_compute. discriminate. }
  pose proof (fl_relative_error x Hnorm) as Herr.
  assert (Hu : (PyFloat.pow2 (-53) == 1 # 9007199254740992)%Q) by (vm_compute; reflexivity).
  rewrite Hu in Herr. apply Qabs_Qle_condition in Herr as [_ Herr].
  rewrite lit_0_3_value. destruct Hx1 as [_ Hx1]. lra.
Qed.

(** A single-colour image is classified as photo-like exactly when its
    sampling budget is at most three pixels. *)
Lemma single_color_classification mode w h p :
  1 <= w -> 1 <= h ->
  _is_photo_like (mkImage mode w h (List.repeat p (Z.to_nat (w * h))))
  = (Z.min 100 w * Z.min 100 h <=? 3).
Proof.
  intros Hw Hh.
  assert (Hn : exists n, Z.to_nat (w * h) = S n).
  { exists (Nat.pred (Z.to_nat (w * h))). nia. }
  destruct Hn as [n Hn]. rewrite Hn.
  assert (Hs : 1 <= Z.min 100 w * Z.min 100 h <= 10000) by nia.
  unfold _is_photo_like. cbn [im_mode].
  destruct (negb (String.eqb mode "RGB")).
  - unfold convert. cbn [im_width im_height im_pixels im_mode].
    rewrite map_repeat, getcolors_single_color.
    cbn [List.length].
    destruct (Z.ltb_spec 0 (Z.min 100 w * Z.min 100 h)); [|lia].
    now apply ratio_exceeds_spec.
  - cbn [im_width im_height].
    rewrite getcolors_single_color. cbn [List.length].
    destruct (Z.ltb_spec 0 (Z.min 100 w * Z.min 100 h)); [|lia].
    now apply ratio_exceeds_spec.
Qed.

(** C2 fails on the code at images of at most three pixels.  A 1x1 image
    has one colour and a sampling budget of one pixel: the ratio is
    [1 / 1 = 1.0 > 0.3], so [_is_photo_like] answers "photo", and with
    [prefer_webp] off [_choose_format] picks "jpg" for it, against its
    own docstring (small images with few colours are PNG).  No division
    by zero occurs. *)
Theorem C2_one_pixel_image_is_photo_like (mode : string) (p : pixel) :
  _is_photo_like (mkImage mode 1 1 [p]) = true
  /\ _choose_format (mkOptimizer 1920 1080 85 80 false 100) (mkImage mode 1 1 [p]) false
     = "jpg".
Proof.
  assert (H : _is_photo_like (mkImage mode 1 1 [p]) = true)
    by (apply (single_color_classification mode 1 1 p); lia).
  split; [exact H|]. unfold _choose_format. now rewrite H.
Qed.

(** From four pixels of sampling budget on, a single-colour image is
    classified as a graphic. *)
Lemma single_color_graphic mode w h p :
  1 <= w -> 1 <= h -> 4 <= Z.min 100 w * Z.min 100 h ->
  _is_photo_like (mkImage mode w h (List.repeat p (Z.to_nat (w * h)))) = false.
Proof.
  intros Hw Hh Hs. rewrite single_color_classification by assumption.
  apply Z.leb_gt. lia.
Qed.

End OptimizerClassifier.

(** ** Failed image extraction *)

Section FailedImages.
Import PyStr ImageOptimizer.
Local Open Scope Z_scope.

(** C4 fails on the code for Word documents.  Three paragraphs hold one
    inline image each; the relationship of the second one does not
    resolve.  The conversion succeeds and returns the two written images,
    but the markdown holds the two references and nothing else: the
    second image leaves no trace ([if image_part:] without [else]).  The
    same happens when writing the file raises ([except Exception:
    pass]): the paragraph renders as the empty text with no image. *)
Theorem C4_docx_failed_image_leaves_no_trace :
  Docx._convert_docx
    [image_paragraph "rId1"; image_paragraph "rId2"; image_paragraph "rId3"]
    [("rId1", png_part); ("rId3", png_part)]
    true "file" "out/images" (FS.mkFs [] [])
  = Some (Docx.mkConversion
            ("![image](images/image_001.png)" ++ nl ++ nl
             ++ "![image](images/image_002.png)")
            ["out/images/image_001.png"; "out/images/image_002.png"]
            (FS.mkFs [("out/images/image_002.png", [Byte.x89; Byte.x50]);
                      ("out/images/image_001.png", [Byte.x89; Byte.x50])] []))
  /\ Docx._process_paragraph
       (Docx.mkParagraph "Normal" [Docx.mkRun "" false false false false [Some "rId1"]] None)
       [("rId1", png_part)] true "file" "out/images" 0
       (FS.mkFs [] ["out/images/image_001.png"])
     = (FS.mkFs [] ["out/images/image_001.png"], Some ("", [])).
Proof. split; vm_compute; reflexivity. Qed.

Context {pil : PIL}.

(** The presentation adapter does leave a trace: when the [try] block of
    a picture raises, the failure note is appended to the slide text and
    the list of images is left as it was. *)
Lemma pptx_failed_picture_is_annotated opt slide_num image_format images_dir st image msg :
  Pptx.try_picture opt slide_num image_format images_dir st image = Raise msg ->
  let st' := Pptx.handle_picture opt slide_num image_format images_dir st image in
  Pptx.ss_text_parts st'
  = snoc (Pptx.ss_text_parts st) (nl ++ "*[Image extraction failed: " ++ msg ++ "]*")
  /\ Pptx.ss_images st' = Pptx.ss_images st
  /\ Pptx.ss_fs st' = Pptx.ss_fs st.
Proof.
  intros H. unfold Pptx.handle_picture. rewrite H. repeat split.
Qed.

Lemma pptx_undecodable_picture opt slide_num image_format images_dir st bytes msg :
  pil_open bytes = Raise msg ->
  Pptx.try_picture opt slide_num image_format images_dir st (Ok bytes) = Raise msg.
Proof.
  intros H. unfold Pptx.try_picture. cbn [bind]. now rewrite H.
Qed.

(** The spreadsheet adapter has no handler: an image that does not decode
    aborts the conversion of the sheet. *)
Lemma excel_undecodable_image_aborts opt image_format images_dir st bytes rest msg :
  pil_open bytes = Raise msg ->
  Excel.extract_sheet_images opt image_format images_dir st (bytes :: rest) = Raise msg.
Proof.
  intros H. cbn [Excel.extract_sheet_images]. unfold Excel.extract_image.
  rewrite H. reflexivity.
Qed.

End FailedImages.

Section FailedImagesExamples.
Import PyStr ImageOptimizer.

(** One slide with three pictures, the second of which does not decode:
    two images are written and the note stands in place of the third. *)
Example pptx_one_bad_picture :
  @Pptx.convert_file toy_pil default_optimizer "deck.pptx"
    [Pptx.mkSlide None
       [Pptx.Shape None None (Pptx.Picture (Ok [Byte.x01]));
        Pptx.Shape None None (Pptx.Picture (Ok []));
        Pptx.Shape None None (Pptx.Picture (Ok [Byte.x02]))] None]
    true "file" "out/images" (FS.mkFs [] [])
  = ("# PowerPoint: deck.pptx" ++ nl ++ nl ++ "**Total slides: 1**" ++ nl ++ nl
     ++ "---" ++ nl ++ nl ++ nl ++ "## Slide 1" ++ nl ++ nl ++ nl
     ++ "![slide1_image_001](images/slide1_image_001.webp)" ++ nl ++ nl
     ++ "*[Image extraction failed: cannot identify image file]*" ++ nl ++ nl
     ++ "![slide1_image_003](images/slide1_image_003.webp)" ++ nl ++ nl
     ++ "---" ++ nl,
     ["out/images/slide1_image_001.webp"; "out/images/slide1_image_003.webp"],
     FS.mkFs [("out/images/slide1_image_003.webp", []);
              ("out/images/slide1_image_001.webp", [])] []).
Proof. vm_compute. reflexivity. Qed.

End FailedImagesExamples.

(** ** What [_clean_markdown] does guarantee *)

Section CleanMarkdown.
Import PyStr Docx.

Lemma trimmed_tail c s : trimmed (String c s) = true -> trimmed s = true.
Proof.
cbn [trimmed]. destruct s as [|d s]; [reflexivity|].
intros H. now apply andb_prop in H.
Qed.

Lemma rstrip_first s d t : rstrip s = String d t -> exists rest, s = String d rest.
Proof.
destruct s as [|c s]; [discriminate|]. cbn [rstrip].
destruct (rstrip s); [destruct (is_space c); [discriminate|]|]; intros [= -> _]; eauto.
Qed.

Lemma rstrip_idempotent s : rstrip (rstrip s) = rstrip s.
Proof.
induction s as [|c s IH]; [reflexivity|]. cbn [rstrip].
destruct (rstrip s) as [|d t] eqn:E.
- destruct (is_space c) eqn:Hc; [reflexivity|]. cbn [rstrip]. now rewrite Hc.
- cbn [rstrip]. cbn [rstrip] in IH. now rewrite IH.
Qed.

Lemma not_blank_not_newline c :
  is_blank c = false -> Ascii.eqb c newline = false -> is_space c = false.
Proof.
unfold is_blank. intros H1 H2. rewrite H2 in H1. cbn in H1.
now rewrite andb_true_r in H1.
Qed.

Lemma trimmed_rstrip s : trimmed s = true -> trimmed (rstrip s) = true.
Proof.
induction s as [|c s IH]; [reflexivity|]. intros H.
cbn [rstrip]. destruct (rstrip s) as [|d t] eqn:E.
- destruct (is_space c) eqn:Hc; [reflexivity|].
  cbn [trimmed]. unfold is_blank. now rewrite Hc.
- destruct (rstrip_first _ _ _ E) as [rest ->].
  cbn [trimmed] in H. apply andb_prop in H as [H1 H2].
  change (trimmed (String c (String d t)))
    with (negb (is_blank c && Ascii.eqb d newline) && trimmed (String d t)).
  rewrite H1. now rewrite (IH H2).
Qed.

Lemma trimmed_lstrip s : trimmed s = true -> trimmed (lstrip s) = true.
Proof.
induction s as [|c s IH]; [reflexivity|]. intros H. cbn [lstrip].
destruct (is_space c); [|exact H]. apply IH. now apply trimmed_tail in H.
Qed.

Lemma rstrip_fixed_cons c l :
  rstrip (String c l) = String c l ->
  (l = "" /\ is_space c = false) \/ (l <> "" /\ rstrip l = l).
Proof.
cbn [rstrip]. destruct (rstrip l) as [|d t] eqn:E.
- destruct (is_space c) eqn:Hc; [discriminate|]. intros [= <-]. now left.
- intros [= <-]. right. split; [discriminate | reflexivity].
Qed.

Lemma trimmed_line_app l rest :
  trimmed_line l -> trimmed (l ++ String newline rest) = trimmed rest.
Proof.
induction l as [|c l IH]; intros [Hn Hr].
- cbn [String.append trimmed]. destruct rest; reflexivity.
- cbn [none_of] in Hn. apply andb_prop in Hn as [Hc Hl].
  destruct (rstrip_fixed_cons c l Hr) as [[-> Hsp] | [Hne Hrl]].
  + cbn [String.append trimmed]. unfold is_blank at 1. rewrite Hsp. cbn [andb negb].
    destruct rest; reflexivity.
  + destruct l as [|d l']; [congruence|].
    change (trimmed (String c (String d l') ++ String newline rest))
      with (negb (is_blank c && Ascii.eqb d newline)
            && trimmed (String d l' ++ String newline rest)).
    cbn [none_of] in Hl. apply andb_prop in Hl as [Hd Hl'].
    unfold is_newline in Hd. apply negb_true_iff in Hd. rewrite Hd, andb_false_r.
    cbn [negb andb]. apply IH. split; [|exact Hrl].
    cbn [none_of]. unfold is_newline at 1. now rewrite Hd, Hl'.
Qed.

Lemma trimmed_line_alone l : trimmed_line l -> trimmed l = true.
Proof.
induction l as [|c l IH]; intros [Hn Hr]; [reflexivity|].
cbn [none_of] in Hn. apply andb_prop in Hn as [Hc Hl].
destruct (rstrip_fixed_cons c l Hr) as [[-> Hsp] | [Hne Hrl]].
- cbn [trimmed]. unfold is_blank. now rewrite Hsp.
- destruct l as [|d l']; [congruence|].
  change (trimmed (String c (String d l')))
    with (negb (is_blank c && Ascii.eqb d newline) && trimmed (String d l')).
  assert (Hd : Ascii.eqb d newline = false).
  { cbn [none_of] in Hl. apply andb_prop in Hl as [Hd _].
    unfold is_newline in Hd. now apply negb_true_iff in Hd. }
  rewrite Hd, andb_false_r. cbn [negb andb]. apply IH. now split.
Qed.

Lemma trimmed_join lines :
  Forall trimmed_line lines -> trimmed (join nl lines) = true.
Proof.
induction lines as [|a rest IH]; [reflexivity|].
intros H. inversion H as [|? ? Ha Hrest]; subst.
destruct rest as [|b rest']; [now apply trimmed_line_alone|].
rewrite join_cons. change (a ++ nl ++ join nl (b :: rest'))
  with (a ++ String newline (join nl (b :: rest'))).
rewrite trimmed_line_app by exact Ha. now apply IH.
Qed.

Lemma none_of_rstrip p s : none_of p s = true -> none_of p (rstrip s) = true.
Proof.
induction s as [|c s IH]; [reflexivity|]. cbn [none_of rstrip].
intros H. apply andb_prop in H as [Hc Hs]. specialize (IH Hs).
destruct (rstrip s) as [|d t].
- destruct (is_space c); [reflexivity|]. cbn [none_of]. now rewrite Hc.
- cbn [none_of] in *. now rewrite Hc, IH.
Qed.

Lemma split_lines_no_newlines s :
  Forall (fun l => none_of is_newline l = true) (split_lines s).
Proof.
induction s as [|c s IH]; [repeat constructor|].
cbn [split_lines]. destruct (Ascii.eqb c newline) eqn:E.
- constructor; [reflexivity | exact IH].
- destruct (split_lines s) as [|l ls]; [repeat constructor; cbn; unfold is_newline; now rewrite E|].
  inversion IH as [|? ? Hl Hls]; subst. constructor; [|exact Hls].
  cbn [none_of]. unfold is_newline at 1. now rewrite E, Hl.
Qed.

Lemma rstripped_lines_trimmed s :
  Forall trimmed_line (map rstrip (split_lines s)).
Proof.
pose proof (split_lines_no_newlines s) as H.
induction H as [|l ls Hl Hls IH]; [constructor|].
cbn [map]. constructor; [|exact IH].
split; [now apply none_of_rstrip | apply rstrip_idempotent].
Qed.

(** A trimmed text has trimmed lines. *)
Lemma split_lines_head_empty c s l ls :
  Ascii.eqb c newline = false -> split_lines s = l :: ls ->
  trimmed (String c s) = true -> l = "" -> is_space c = false.
Proof.
intros Hc Hsplit Htr ->. destruct s as [|d s'].
- cbn [trimmed] in Htr. apply negb_true_iff in Htr. now apply not_blank_not_newline.
- cbn [split_lines] in Hsplit. destruct (Ascii.eqb d newline) eqn:Hd.
  + cbn [trimmed] in Htr. rewrite Hd, andb_true_r in Htr.
    apply andb_prop in Htr as [Htr _]. apply negb_true_iff in Htr.
    now apply not_blank_not_newline.
  + destruct (split_lines s'); discriminate Hsplit.
Qed.

Lemma trimmed_lines s :
  trimmed s = true -> Forall (fun l => rstrip l = l) (split_lines s).
Proof.
induction s as [|c s IH]; [repeat constructor|].
intros H. pose proof (trimmed_tail c s H) as Hs. specialize (IH Hs).
cbn [split_lines]. destruct (Ascii.eqb c newline) eqn:E.
- constructor; [reflexivity | exact IH].
- destruct (split_lines s) as [|l ls] eqn:El.
  + constructor; [|constructor]. cbn [rstrip].
    destruct s; [|cbn in El; destruct (Ascii.eqb a newline), (split_lines s); discriminate].
    cbn [trimmed] in H. apply negb_true_iff in H.
    now rewrite (not_blank_not_newline c H E).
  + inversion IH as [|? ? Hl Hls]; subst. constructor; [|exact Hls].
    cbn [rstrip]. rewrite Hl. destruct l as [|d t]; [|reflexivity].
    now rewrite (split_lines_head_empty c s "" ls E El H eq_refl).
Qed.

Lemma lstrip_rstrip_fixed s : lstrip (rstrip (lstrip s)) = rstrip (lstrip s).
Proof.
induction s as [|c s IH]; [reflexivity|]. cbn [lstrip].
destruct (is_space c) eqn:Hc; [exact IH|].
cbn [rstrip]. destruct (rstrip s); rewrite ?Hc; cbn [lstrip]; now rewrite Hc.
Qed.

Lemma strip_idempotent s : strip (strip s) = strip s.
Proof.
unfold strip. now rewrite lstrip_rstrip_fixed, rstrip_idempotent.
Qed.

(** Whatever the input, the text that [_clean_markdown] returns has no line
    that ends in whitespace and no whitespace at its start or end. *)
Lemma clean_markdown_trims md :
  Forall (fun line => rstrip line = line) (split_lines (_clean_markdown md))
  /\ strip (_clean_markdown md) = _clean_markdown md.
Proof.
unfold _clean_markdown. split; [|apply strip_idempotent].
apply trimmed_lines. unfold strip.
apply trimmed_rstrip, trimmed_lstrip, trimmed_join, rstripped_lines_trimmed.
Qed.

(** So has the markdown of every Word conversion. *)
Corollary docx_markdown_trimmed body parts extract_images image_format images_dir fs0 c :
  _convert_docx body parts extract_images image_format images_dir fs0 = Some c ->
  Forall (fun line => rstrip line = line) (split_lines (markdown c))
  /\ strip (markdown c) = markdown c.
Proof.
unfold _convert_docx. destruct (fold_left _ body _) as [st|]; [|discriminate].
intros [= <-]. apply clean_markdown_trims.
Qed.

End CleanMarkdown.

(** ** Normalization of the returned markdown *)

Section Normalization.
Import PyStr ImageOptimizer.
Local Open Scope Z_scope.

(** C9 fails on the code.  The spreadsheet and presentation adapters
    return the joined parts without any normalization: a workbook with
    the single cell "a" gives a markdown with three newlines in a row
    before the rule and a newline at its end, and so does a presentation
    with one empty slide.  The Word adapter normalizes, but collapses the
    newline runs before it trims the lines: a paragraph whose text is
    "a", break, space, break, space, break, "b" comes out as "a", three
    newlines, "b". *)
Theorem C9_markdown_not_normalized :
  (@Excel.convert_file toy_pil default_optimizer
     [Excel.mkSheet "S" [[Excel.CStr "a"]] []] true "file" "out/images" (FS.mkFs [] [])
   = Ok ("# Sheet: S" ++ nl ++ nl ++ "| a |" ++ nl ++ "| --- |" ++ nl ++ nl ++ nl
         ++ "---" ++ nl, [], FS.mkFs [] [])
   /\ ~ normalized ("# Sheet: S" ++ nl ++ nl ++ "| a |" ++ nl ++ "| --- |" ++ nl ++ nl ++ nl
                    ++ "---" ++ nl))
  /\ (@Pptx.convert_file toy_pil default_optimizer "deck.pptx"
        [Pptx.mkSlide None [] None] true "file" "out/images" (FS.mkFs [] [])
      = ("# PowerPoint: deck.pptx" ++ nl ++ nl ++ "**Total slides: 1**" ++ nl ++ nl
         ++ "---" ++ nl ++ nl ++ nl ++ "## Slide 1" ++ nl ++ nl ++ nl ++ "---" ++ nl,
         [], FS.mkFs [] [])
      /\ ~ normalized ("# PowerPoint: deck.pptx" ++ nl ++ nl ++ "**Total slides: 1**"
                       ++ nl ++ nl ++ "---" ++ nl ++ nl ++ nl ++ "## Slide 1" ++ nl ++ nl
                       ++ nl ++ "---" ++ nl))
  /\ (Docx._convert_docx
        [Docx.BParagraph
           (Docx.mkParagraph "Normal"
              [Docx.mkRun ("a" ++ nl ++ " " ++ nl ++ " " ++ nl ++ "b")
                 false false false false []] None)]
        [] true "file" "out/images" (FS.mkFs [] [])
      = Some (Docx.mkConversion ("a" ++ nl ++ nl ++ nl ++ "b") [] (FS.mkFs [] []))
      /\ ~ normalized ("a" ++ nl ++ nl ++ nl ++ "b")).
Proof.
  repeat split; try (vm_compute; reflexivity);
    intros (H & _ & _); vm_compute in H; discriminate H.
Qed.

End Normalization.

(** ** Fingerprint and output identifier *)

Section Fingerprint.
Import PyStr Office.













Example derived_name_abc :
  derived_name (mkFile "/tmp/a/report.docx" [Byte.x61; Byte.x62; Byte.x63])
  = "report_90015098".
Proof. vm_compute. reflexivity. Qed.

End Fingerprint.

(** ** Re-conversion of a Word document on the file system the first
       conversion left *)

Section Reconversion.
Import PyStr Docx.







Lemma fold_left_invariant {S X A : Type} (g : S -> A) (f : S -> X -> S) :
  (forall a x, g (f a x) = g a) -> forall l a, g (fold_left f l a) = g a.
Proof.
  intros Hf l. induction l as [|x l IH]; intros a; [reflexivity|].
  cbn [fold_left]. now rewrite IH, Hf.
Qed.





End Reconversion.

(** ** Re-conversion of a presentation and of a workbook *)

Section ReconversionOthers.
Import PyStr ImageOptimizer.
Context {pil : PIL}.



















End ReconversionOthers.

Section FingerprintClaims.
Import PyStr Office.



End FingerprintClaims.

(** ** Image optimizer: the resize *)

Section ResizeFacts.
Import PyFloat ImageOptimizer.
Local Open Scope Q_scope.

Lemma u53_value : pow2 (-53) == 1 # 9007199254740992.
Proof. vm_compute. reflexivity. Qed.






Lemma floor_lt_succ x k : x < inject_Z k + 1 -> (Qfloor x <= k)%Z.
Proof.
  intros H. pose proof (Qfloor_le x) as Hf.
  assert (Hlt : inject_Z (Qfloor x) < inject_Z (k + 1)).
  { rewrite inject_Z_plus. change (inject_Z 1) with 1. lra. }
  rewrite <- Zlt_Qlt in Hlt. lia.
Qed.



End ResizeFacts.

Section ResizeClaims.
Import PyFloat ImageOptimizer.
Context {pil : PIL}.
Local Open Scope Q_scope.




End ResizeClaims.

Section ResizeExamples.
Import PyFloat ImageOptimizer.


(** The floats at work: 2148 x 1000 is resized to 1919 x 893, where exact
    arithmetic would give 1920 x 893. *)
Example new_size_2148_1000 :
  new_size default_optimizer 2148 1000 = Ok (1919%Z, 893%Z).
Proof. vm_compute. reflexivity. Qed.

End ResizeExamples.

(* ================================================================== *)
(** * Part III. Further properties of the code                          *)
(* ================================================================== *)

Import MoreProps.

(** ** Floats that are exact *)

Section FloatExact.
Import PyFloat.
Local Open Scope Q_scope.

Lemma round_half_even_comp y y' : y == y' -> round_half_even y = round_half_even y'.
Proof.
  intros H. unfold round_half_even.
  rewrite (Qfloor_comp _ _ H).
  assert (Hc : Qcompare (y - inject_Z (Qfloor y')) (1 # 2)
               = Qcompare (y' - inject_Z (Qfloor y')) (1 # 2))
    by (apply Qcompare_comp; [now rewrite H | reflexivity]).
  now rewrite Hc.
Qed.

Lemma round_half_even_Z y k : y == inject_Z k -> round_half_even y = k.
Proof.
  intros H. apply Z.le_antisymm.
  - apply round_half_even_le. rewrite H. apply Qle_refl.
  - apply round_half_even_ge. rewrite H. apply Qle_refl.
Qed.

(** A multiple of [2^g] seen on a finer scale [2^e] is an integer. *)
Lemma scaled_dyadic k g e :
  (e <= g)%Z -> inject_Z k * pow2 g / pow2 e == inject_Z (k * 2 ^ (g - e)).
Proof.
  intros He. rewrite inject_Z_mult, <- pow2_Z by lia.
  pose proof (pow2_pos e) as Hp.
  rewrite <- (pow2_sub g e) at 1. field.
  intros H0. rewrite H0 in Hp. discriminate Hp.
Qed.

(** A value that is [m * 2^e] with [m < 2^53] and [e >= -1074] is a float. *)
Lemma fl_exact x m e :
  (0 < m < 2 ^ 53)%Z -> (-1074 <= e)%Z -> x == inject_Z m * pow2 e -> fl x == x.
Proof.
  intros [Hm0 Hm53] He Hx.
  pose proof (pow2_pos e) as Hpe.
  assert (Hm0' : 0 < inject_Z m) by (change 0 with (inject_Z 0); now rewrite <- Zlt_Qlt).
  assert (Hpos : 0 < x) by (rewrite Hx; nra).
  assert (Hlt : x < pow2 (53 + e)).
  { assert (H53 : pow2 53 == inject_Z (2 ^ 53)) by (apply pow2_Z; lia).
    rewrite Hx, pow2_add, H53.
    apply Qmult_lt_compat_r; [exact Hpe|]. now rewrite <- Zlt_Qlt. }
  pose proof (floor_log2_upper x (53 + e) Hpos Hlt) as Hfl.
  assert (HE : (ulp_exp x <= e)%Z) by (unfold ulp_exp; lia).
  rewrite (fl_positive x Hpos). unfold fl_pos.
  set (E := ulp_exp x) in *. pose proof (pow2_pos E) as HpE.
  assert (Hs : x / pow2 E == inject_Z (m * 2 ^ (e - E))).
  { rewrite <- scaled_dyadic by exact HE. now rewrite Hx. }
  rewrite (round_half_even_Z _ _ Hs), <- Hs. apply scaled_back.
Qed.

Lemma fl_zero : fl 0 = 0.
Proof. reflexivity. Qed.

(** Floats below [2^53] that are whole numbers, among them every [int]
    of that size *)
Lemma of_int_exact n : (0 <= n < 2 ^ 53)%Z -> of_int n == inject_Z n.
Proof.
  intros [H0 H1]. unfold of_int.
  destruct (Z.eq_dec n 0) as [-> | Hn]; [reflexivity|].
  apply fl_integer; lia.
Qed.

End FloatExact.

(** ** [_human_readable_size] *)

Section HumanSizeFacts.
Import PyStr PyFloat HumanSize.
Local Open Scope Q_scope.

Lemma fmt_1f_float_comp x y : x == y -> fmt_1f_float x = fmt_1f_float y.
Proof.
  intros H. unfold fmt_1f_float.
  assert (Hd : round_half_even (Qabs x * 10) = round_half_even (Qabs y * 10))
    by (apply round_half_even_comp; now rewrite H).
  assert (Hs : Qle_bool 0 x = Qle_bool 0 y) by now rewrite H.
  now rewrite Hd, Hs.
Qed.

Lemma overflow_bound_large : inject_Z (2 ^ 53) < overflow_bound.
Proof. vm_compute. reflexivity. Qed.

Lemma not_overflows x : 0 <= x -> x < inject_Z (2 ^ 53) -> overflows x = false.
Proof.
  intros H0 H1. unfold overflows.
  destruct (Qle_bool overflow_bound (Qabs x)) eqn:E; [|reflexivity].
  apply Qle_bool_iff in E. rewrite Qabs_pos in E by exact H0.
  pose proof overflow_bound_large. lra.
Qed.

End HumanSizeFacts.

Section HumanSizeClaims.
Import PyStr PyFloat HumanSize.
Local Open Scope Q_scope.

Lemma scaled_dyadic_form n j :
  (0 <= j)%Z -> scaled n j == inject_Z n * pow2 (- (10 * j)).
Proof.
  intros Hj. unfold scaled.
  replace (1024 ^ j)%Z with (2 ^ (10 * j))%Z
    by (rewrite Z.pow_mul_r by lia; reflexivity).
  rewrite <- pow2_Z by lia. unfold pow2. rewrite Qpower_opp. reflexivity.
Qed.

Lemma scaled_pos n j : (0 < n)%Z -> (0 <= j)%Z -> 0 < scaled n j.
Proof.
  intros Hn Hj. rewrite scaled_dyadic_form by exact Hj.
  pose proof (pow2_pos (- (10 * j))).
  assert (0 < inject_Z n) by (change 0 with (inject_Z 0); now rewrite <- Zlt_Qlt).
  nra.
Qed.

Lemma scaled_succ n j :
  (0 <= j)%Z -> scaled n j / inject_Z 1024 == scaled n (j + 1).
Proof.
  intros Hj. unfold scaled.
  rewrite Z.pow_add_r, inject_Z_mult by lia. change (1024 ^ 1)%Z with 1024%Z.
  assert (H : 0 < inject_Z (1024 ^ j)).
  { change 0 with (inject_Z 0). rewrite <- Zlt_Qlt. apply Z.pow_pos_nonneg; lia. }
  field. lra.
Qed.

Lemma scaled_lt n j k :
  (0 <= j)%Z -> scaled n j < inject_Z k <-> (n < k * 1024 ^ j)%Z.
Proof.
  intros Hj. unfold scaled.
  assert (H : 0 < inject_Z (1024 ^ j)).
  { change 0 with (inject_Z 0). rewrite <- Zlt_Qlt. apply Z.pow_pos_nonneg; lia. }
  rewrite Zlt_Qlt, inject_Z_mult.
  set (N := inject_Z n). set (K := inject_Z k). set (P := inject_Z (1024 ^ j)) in *.
  assert (Hd : N / P * P == N) by (field; lra).
  clearbody N K P. set (D := N / P) in *. clearbody D.
  split; intros Hlt; nra.
Qed.

Lemma lt_scaled x n j :
  (0 <= j)%Z -> x == scaled n j ->
  lt (NFloat x) 1024 = (n <? 1024 ^ (j + 1))%Z.
Proof.
  intros Hj Hx. unfold lt.
  rewrite Z.pow_add_r by lia. change (1024 ^ 1)%Z with 1024%Z.
  destruct (Z.ltb_spec n (1024 ^ j * 1024)) as [Hlt | Hge].
  - apply negb_true_iff. destruct (Qle_bool (inject_Z 1024) x) eqn:E; [|reflexivity].
    apply Qle_bool_iff in E. rewrite Hx in E.
    assert (Hs : scaled n j < inject_Z 1024) by (apply scaled_lt; lia).
    lra.
  - apply negb_false_iff, Qle_bool_iff. rewrite Hx.
    apply Qnot_lt_le. intros Hs. apply scaled_lt in Hs; lia.
Qed.

Lemma float_of_int_1024 : float_of_int 1024 = Ok (of_int 1024).
Proof. vm_compute. reflexivity. Qed.

Lemma first_division n :
  (0 < n < 2 ^ 53)%Z ->
  exists x, truediv (NInt n) 1024 = Ok (NFloat x) /\ x == scaled n 1.
Proof.
  intros Hn. exists (fl (inject_Z n / inject_Z 1024)). split.
  - unfold truediv. cbn [Z.eqb].
    rewrite not_overflows; [reflexivity | |].
    + apply Qlt_le_weak. apply (scaled_pos n 1); lia.
    + apply Qlt_le_trans with (inject_Z n).
      * assert (0 < inject_Z n)
          by (change 0 with (inject_Z 0); rewrite <- Zlt_Qlt; lia).
        apply Qlt_shift_div_r; [reflexivity|].
        change (inject_Z 1024) with 1024. lra.
      * rewrite <- Zle_Qle. lia.
  - transitivity (inject_Z n / inject_Z 1024); [|reflexivity].
    apply (fl_exact _ n (-10)); [exact Hn | lia |].
    apply (scaled_dyadic_form n 1). lia.
Qed.

Lemma next_division x n j :
  (0 < n < 2 ^ 53)%Z -> (0 <= j <= 3)%Z -> x == scaled n j ->
  exists x', truediv (NFloat x) 1024 = Ok (NFloat x') /\ x' == scaled n (j + 1).
Proof.
  intros Hn Hj Hx. exists (fl (x / of_int 1024)). split.
  - unfold truediv. cbn [Z.eqb]. rewrite float_of_int_1024. reflexivity.
  - assert (Hq : x / of_int 1024 == scaled n (j + 1)).
    { rewrite (of_int_exact 1024) by lia. rewrite Hx. apply scaled_succ. lia. }
    transitivity (x / of_int 1024); [|exact Hq].
    apply (fl_exact _ n (- (10 * (j + 1)))); [exact Hn | lia |].
    rewrite Hq. apply scaled_dyadic_form. lia.
Qed.

Lemma fmt_int n :
  (0 <= n < 2 ^ 53)%Z -> fmt_1f (NInt n) = Ok (fmt_1f_float (scaled n 0)).
Proof.
  intros Hn. unfold fmt_1f, float_of_int.
  assert (H0 : 0 <= inject_Z n) by (change 0 with (inject_Z 0); rewrite <- Zle_Qle; lia).
  rewrite not_overflows; [| exact H0 | rewrite <- Zlt_Qlt; lia].
  cbn [bind]. f_equal. apply fmt_1f_float_comp.
  rewrite (of_int_exact n Hn). unfold scaled. change (1024 ^ 0)%Z with 1%Z.
  field.
Qed.

Lemma size_closed_form (n : Z) :
  (0 <= n < 2 ^ 53)%Z ->
  _human_readable_size n
  = Ok (fmt_1f_float (scaled n (unit_index n)) ++ " " ++ unit_name (unit_index n)).
Proof.
  intros Hn. unfold _human_readable_size, unit_index.
  cbn [size_loop]. unfold lt at 1.
  destruct (Z.ltb_spec n 1024) as [H0 | H0].
  - rewrite fmt_int by exact Hn. reflexivity.
  - destruct (first_division n) as (x1 & -> & Hx1); [lia|]. cbn [bind].
    rewrite (lt_scaled x1 n 1) by (lia || exact Hx1). change (1 + 1)%Z with 2%Z.
    destruct (Z.ltb_spec n (1024 ^ 2)) as [H1 | H1].
    { cbn [fmt_1f bind]. now rewrite (fmt_1f_float_comp _ _ Hx1). }
    destruct (next_division x1 n 1) as (x2 & -> & Hx2); [lia | lia | exact Hx1|].
    cbn [bind]. change (1 + 1)%Z with 2%Z in Hx2.
    rewrite (lt_scaled x2 n 2) by (lia || exact Hx2). change (2 + 1)%Z with 3%Z.
    destruct (Z.ltb_spec n (1024 ^ 3)) as [H2 | H2].
    { cbn [fmt_1f bind]. now rewrite (fmt_1f_float_comp _ _ Hx2). }
    destruct (next_division x2 n 2) as (x3 & -> & Hx3); [lia | lia | exact Hx2|].
    cbn [bind]. change (2 + 1)%Z with 3%Z in Hx3.
    rewrite (lt_scaled x3 n 3) by (lia || exact Hx3). change (3 + 1)%Z with 4%Z.
    destruct (Z.ltb_spec n (1024 ^ 4)) as [H3 | H3].
    { cbn [fmt_1f bind]. now rewrite (fmt_1f_float_comp _ _ Hx3). }
    destruct (next_division x3 n 3) as (x4 & -> & Hx4); [lia | lia | exact Hx3|].
    cbn [bind fmt_1f]. change (3 + 1)%Z with 4%Z in Hx4.
    now rewrite (fmt_1f_float_comp _ _ Hx4).
Qed.

(** X3.  For a size of [0 <= n < 2^53] bytes [_human_readable_size] returns
    the number [n / 1024^k] with one digit after the point (nearest,
    ties to even), a space and the unit B, KB, MB, GB or TB of index [k],
    where [k] counts the powers 1024, 1024^2, 1024^3, 1024^4 that [n]
    has reached.  Every division of the loop is exact, and nothing is
    raised. *)
Theorem X3_human_readable_size (n : Z) :
  (0 <= n < 2 ^ 53)%Z ->
  _human_readable_size n
  = Ok (fmt_1f_float (scaled n (unit_index n)) ++ " " ++ unit_name (unit_index n)).
Proof. exact (size_closed_form n). Qed.

End HumanSizeClaims.

Section HumanSizeEdges.
Import PyStr PyFloat HumanSize.
Local Open Scope Q_scope.

Lemma Qfloor_between y k : inject_Z k <= y -> y < inject_Z k + 1 -> Qfloor y = k.
Proof.
  intros H1 H2. apply Z.le_antisymm.
  - now apply floor_lt_succ.
  - apply Qfloor_resp_le in H1. now rewrite Qfloor_Z in H1.
Qed.

Lemma fmt_1f_float_whole n :
  (0 <= n)%Z -> fmt_1f_float (scaled n 0) = str_of_nonneg n ++ ".0".
Proof.
  intros Hn. unfold fmt_1f_float, scaled. change (1024 ^ 0)%Z with 1%Z.
  assert (H0 : 0 <= inject_Z n) by (change 0 with (inject_Z 0); now rewrite <- Zle_Qle).
  assert (Hx : inject_Z n / inject_Z 1 == inject_Z n) by (field; discriminate).
  assert (Hs : Qle_bool 0 (inject_Z n / inject_Z 1) = true)
    by (apply Qle_bool_iff; now rewrite Hx).
  rewrite Hs.
  rewrite (round_half_even_Z _ (n * 10)%Z).
  - rewrite Z.div_mul, Z.mod_mul by lia. reflexivity.
  - rewrite Hx, Qabs_pos by exact H0. now rewrite inject_Z_mult.
Qed.

Lemma fmt_1f_float_rollover x :
  20479 # 20 <= x -> x < 1024 -> fmt_1f_float x = "1024.0".
Proof.
  intros H1 H2. unfold fmt_1f_float.
  assert (Hs : Qle_bool 0 x = true) by (apply Qle_bool_iff; lra).
  rewrite Hs.
  assert (Hd : round_half_even (Qabs x * 10) = 10240%Z).
  { rewrite (round_half_even_comp _ (x * 10)) by (rewrite Qabs_pos by lra; reflexivity).
    unfold round_half_even.
    assert (Hf : Qfloor (x * 10) = 10239%Z).
    { apply Qfloor_between.
      - change (inject_Z 10239) with 10239. lra.
      - change (inject_Z 10239) with 10239. lra. }
    rewrite Hf. change (inject_Z 10239) with 10239.
    destruct (Qcompare (x * 10 - 10239) (1 # 2)) eqn:E; [reflexivity | | reflexivity].
    apply Qlt_alt in E. lra. }
  rewrite Hd. reflexivity.
Qed.

(** X4.  A size below 1024 bytes is shown as the integer followed by
    [.0 B].  A size just below a power of 1024, from 1023.95 times the
    smaller unit on ([20479 * 1024^k <= 20 * n < 20 * 1024^(k+1)] for
    k = 1, 2, 3), is shown as [1024.0] of the smaller unit KB, MB or GB,
    not as [1.0] of the larger one. *)
Theorem X4_human_readable_size_edges (n : Z) :
  ((0 <= n < 1024)%Z -> _human_readable_size n = Ok (str_of_nonneg n ++ ".0 B"))
  /\ (forall k, (1 <= k <= 3)%Z ->
      (20479 * 1024 ^ k <= 20 * n)%Z -> (n < 1024 ^ (k + 1))%Z ->
      _human_readable_size n = Ok ("1024.0 " ++ unit_name k)).
Proof.
  split.
  - intros Hn. rewrite size_closed_form by lia.
    unfold unit_index. destruct (Z.ltb_spec n 1024); [|lia].
    rewrite fmt_1f_float_whole by lia. cbn [unit_name Z.to_nat nth].
    now rewrite append_assoc.
  - intros k Hk H1 H2.
    assert (Hcase : k = 1%Z \/ k = 2%Z \/ k = 3%Z) by lia.
    assert (Hidx : unit_index n = k).
    { unfold unit_index.
      destruct Hcase as [-> | [-> | ->]];
        repeat match goal with
               | |- context [Z.ltb ?a ?b] => destruct (Z.ltb_spec a b)
               end; lia. }
    assert (Hb : (n < 2 ^ 53)%Z).
    { eapply Z.lt_le_trans; [exact H2|].
      destruct Hcase as [-> | [-> | ->]]; vm_compute; discriminate. }
    assert (Hp : (0 < 1024 ^ k)%Z) by (apply Z.pow_pos_nonneg; lia).
    rewrite size_closed_form by lia. rewrite Hidx.
    rewrite fmt_1f_float_rollover; [reflexivity | |].
    + unfold scaled. apply Qle_shift_div_l.
      * change 0 with (inject_Z 0). now rewrite <- Zlt_Qlt.
      * apply (Qmult_le_r _ _ (inject_Z 20)); [reflexivity|].
        setoid_replace ((20479 # 20) * inject_Z (1024 ^ k) * inject_Z 20)
          with (inject_Z (20479 * 1024 ^ k)).
        -- rewrite <- inject_Z_mult, <- Zle_Qle. lia.
        -- rewrite inject_Z_mult. change (inject_Z 20) with 20.
           change (inject_Z 20479) with 20479. field.
    + unfold scaled. apply Qlt_shift_div_r.
      * change 0 with (inject_Z 0). now rewrite <- Zlt_Qlt.
      * change 1024 with (inject_Z 1024). rewrite <- inject_Z_mult, <- Zlt_Qlt.
        rewrite Z.pow_add_r in H2 by lia. change (1024 ^ 1)%Z with 1024%Z in H2. lia.
Qed.

End HumanSizeEdges.

(** ** [get_compression_ratio] *)

Section CompressionRatio.
Import PyFloat ImageOptimizer.
Local Open Scope Q_scope.

(** The rounded quotient of two sizes lies on the same side of 1 as the
    exact one. *)
Lemma quotient_side a b :
  (0 <= a)%Z -> (0 < b < 2 ^ 52)%Z ->
  Qcompare (fl (inject_Z a / inject_Z b)) 1 = Z.compare a b.
Proof.
  intros Ha [Hb0 Hb1].
  assert (HB0 : 1 <= inject_Z b) by (change 1 with (inject_Z 1); rewrite <- Zle_Qle; lia).
  assert (HB1 : inject_Z b <= 4503599627370496 - 1).
  { change (4503599627370496 - 1) with (inject_Z (2 ^ 52 - 1)). rewrite <- Zle_Qle. lia. }
  assert (HA0 : 0 <= inject_Z a) by (change 0 with (inject_Z 0); now rewrite <- Zle_Qle).
  set (x := inject_Z a / inject_Z b).
  assert (Hx : x * inject_Z b == inject_Z a) by (subst x; field; lra).
  destruct (Z.compare_spec a b) as [Heq | Hlt | Hgt].
  - subst b. apply Qeq_alt.
    assert (Hx1 : x == 1) by (subst x; field; lra).
    rewrite (fl_exact x 1 0); [exact Hx1 | lia | lia |].
    rewrite Hx1. reflexivity.
  - apply Qlt_alt.
    destruct (Z.eq_dec a 0) as [-> | Ha0].
    + assert (Hx0 : x == 0) by (subst x; field; lra).
      assert (Hc : Qcompare x 0 = Eq) by now apply Qeq_alt.
      unfold fl. rewrite Hc. reflexivity.
    + assert (HA1 : 1 <= inject_Z a)
        by (change 1 with (inject_Z 1); rewrite <- Zle_Qle; lia).
      assert (HAB : inject_Z a <= inject_Z b - 1).
      { assert (H : inject_Z a + 1 <= inject_Z b)
          by (change 1 with (inject_Z 1); rewrite <- inject_Z_plus, <- Zle_Qle; lia).
        lra. }
      assert (Hxl : 1 # 4503599627370496 <= x).
      { set (A := inject_Z a) in *. set (B := inject_Z b) in *. clearbody x A B. nra. }
      assert (Hnorm : pow2 (-1022) <= x).
      { eapply Qle_trans; [apply (pow2_le (-1022) (-52)); lia|].
        eapply Qle_trans; [|exact Hxl]. vm_compute. discriminate. }
      pose proof (fl_relative_error x Hnorm) as Herr. rewrite u53_value in Herr.
      apply Qabs_Qle_condition in Herr as [_ Herr].
      set (F := fl x) in *. set (A := inject_Z a) in *. set (B := inject_Z b) in *.
      clearbody F x A B.
      assert (HxB : x * B * (1 + (1 # 9007199254740992)) < B) by (rewrite Hx; nra).
      assert (HFB : F * B <= x * B * (1 + (1 # 9007199254740992))) by nra.
      apply Qnot_le_lt. intros Hge.
      assert (HBF : B <= F * B) by nra. lra.
  - apply Qgt_alt.
    assert (HAB : inject_Z b + 1 <= inject_Z a).
    { change 1 with (inject_Z 1). rewrite <- inject_Z_plus, <- Zle_Qle. lia. }
    assert (Hxl : 1 <= x).
    { set (A := inject_Z a) in *. set (B := inject_Z b) in *. clearbody x A B. nra. }
    assert (Hnorm : pow2 (-1022) <= x).
    { eapply Qle_trans; [apply (pow2_le (-1022) 0); lia|]. exact Hxl. }
    pose proof (fl_relative_error x Hnorm) as Herr. rewrite u53_value in Herr.
    apply Qabs_Qle_condition in Herr as [Herr _].
    set (F := fl x) in *. set (A := inject_Z a) in *. set (B := inject_Z b) in *.
    clearbody F x A B.
    assert (HxB : B < x * B * (1 - (1 # 9007199254740992))) by (rewrite Hx; nra).
    assert (HFB : x * B * (1 - (1 # 9007199254740992)) <= F * B) by nra.
    apply Qnot_le_lt. intros Hge.
    assert (HBF : F * B <= B) by nra. lra.
Qed.

(** X5.  [get_compression_ratio] never divides by zero.  For an empty
    original it is 1.0; for an original of fewer than [2^52] bytes the
    quotient of the floats is below, equal to or above 1.0 exactly when
    the optimized data is shorter than, as long as or longer than the
    original. *)
Theorem X5_compression_ratio (original_bytes optimized_bytes : list Byte.byte) :
  (Z.of_nat (List.length original_bytes) < 2 ^ 52)%Z ->
  exists r : Q,
    get_compression_ratio original_bytes optimized_bytes = Some r
    /\ (original_bytes = [] -> r = 1)
    /\ (original_bytes <> [] ->
        Qcompare r 1
        = Nat.compare (List.length optimized_bytes) (List.length original_bytes)).
Proof.
  intros Hb. unfold get_compression_ratio.
  destruct original_bytes as [|b0 rest].
  - exists 1. split; [reflexivity|]. split; [reflexivity | congruence].
  - set (b := Z.of_nat (List.length (b0 :: rest))) in *.
    set (a := Z.of_nat (List.length optimized_bytes)).
    assert (Hb0 : (0 < b)%Z) by (subst b; cbn [List.length]; lia).
    destruct (Z.eqb_spec b 0) as [| _]; [lia|].
    unfold truediv. destruct (Z.eqb_spec b 0) as [| _]; [lia|].
    eexists. split; [reflexivity|]. split; [discriminate|]. intros _.
    rewrite quotient_side by (subst a; lia).
    subst a b. now rewrite Nat2Z.inj_compare.
Qed.

End CompressionRatio.

(** ** Supported formats and routing *)

Section FormatsFacts.
Import PyStr Formats.

Lemma find_type_cases s :
  (find_type s SUPPORTED_FORMATS = Some "word" /\ (s = ".docx" \/ s = ".doc"))
  \/ (find_type s SUPPORTED_FORMATS = Some "excel" /\ (s = ".xlsx" \/ s = ".xls"))
  \/ (find_type s SUPPORTED_FORMATS = Some "powerpoint" /\ (s = ".pptx" \/ s = ".ppt"))
  \/ (find_type s SUPPORTED_FORMATS = None
      /\ s <> ".docx" /\ s <> ".doc" /\ s <> ".xlsx" /\ s <> ".xls"
      /\ s <> ".pptx" /\ s <> ".ppt").
Proof.
  unfold SUPPORTED_FORMATS, find_type, mem, existsb.
  destruct (String.eqb_spec s ".docx") as [-> | H1]; [left; split; [reflexivity | now left]|].
  destruct (String.eqb_spec s ".doc") as [-> | H2]; [left; split; [reflexivity | now right]|].
  destruct (String.eqb_spec s ".xlsx") as [-> | H3];
    [right; left; split; [reflexivity | now left]|].
  destruct (String.eqb_spec s ".xls") as [-> | H4];
    [right; left; split; [reflexivity | now right]|].
  destruct (String.eqb_spec s ".pptx") as [-> | H5];
    [right; right; left; split; [reflexivity | now left]|].
  destruct (String.eqb_spec s ".ppt") as [-> | H6];
    [right; right; left; split; [reflexivity | now right]|].
  right; right; right. cbn. repeat split; assumption.
Qed.

Lemma mem_two s a b : mem s [a; b] = true <-> s = a \/ s = b.
Proof.
  unfold mem, existsb.
  destruct (String.eqb_spec s a), (String.eqb_spec s b); cbn; intuition congruence.
Qed.

(** X1.  [OfficeConverter] routes a file to an adapter exactly when that
    adapter's own format test accepts it: [get_file_type] answers "word"
    exactly when the test of [DocxConverter.convert_file] passes, "excel"
    exactly when that of [ExcelConverter.convert_file] passes,
    "powerpoint" exactly when that of [PowerPointConverter.convert_file]
    passes, and [None] exactly when the suffix in lower case is not among
    the extensions [get_supported_extensions] lists. *)
Theorem X1_routing (file_path : string) :
  (get_file_type file_path = Some "word" <-> docx_accepts file_path = true)
  /\ (get_file_type file_path = Some "excel" <-> excel_accepts file_path = true)
  /\ (get_file_type file_path = Some "powerpoint" <-> pptx_accepts file_path = true)
  /\ (get_file_type file_path = None
      <-> ~ In (lower (path_suffix file_path)) get_supported_extensions).
Proof.
  unfold get_file_type, docx_accepts, excel_accepts, pptx_accepts.
  set (s := lower (path_suffix file_path)). clearbody s.
  rewrite !mem_two.
  change get_supported_extensions
    with [".docx"; ".doc"; ".xlsx"; ".xls"; ".pptx"; ".ppt"].
  cbn [In].
  destruct (find_type_cases s) as [[-> H] | [[-> H] | [[-> H] | [-> H]]]].
  - repeat split; intros; try discriminate; try assumption;
      try (exfalso; destruct H as [-> | ->]; intuition discriminate).
    all: try reflexivity.
  - repeat split; intros; try discriminate; try assumption;
      try (exfalso; destruct H as [-> | ->]; intuition discriminate).
    all: try reflexivity.
  - repeat split; intros; try discriminate; try assumption;
      try (exfalso; destruct H as [-> | ->]; intuition discriminate).
    all: try reflexivity.
  - repeat split; intros; try discriminate; try reflexivity;
      try (exfalso; intuition congruence).
    intuition congruence.
Qed.

End FormatsFacts.

Section FormatsCase.
Import PyStr Formats Office.

Lemma lower_char_idempotent c : lower_char (lower_char c) = lower_char c.
Proof. destruct c as [[] [] [] [] [] [] [] []]; reflexivity. Qed.

Lemma lower_char_slash c : Ascii.eqb "/" (lower_char c) = Ascii.eqb "/" c.
Proof. destruct c as [[] [] [] [] [] [] [] []]; reflexivity. Qed.

Lemma lower_char_slash' c : Ascii.eqb (lower_char c) "/" = Ascii.eqb c "/".
Proof. destruct c as [[] [] [] [] [] [] [] []]; reflexivity. Qed.

Lemma lower_char_dot c : Ascii.eqb (lower_char c) "." = Ascii.eqb c ".".
Proof. destruct c as [[] [] [] [] [] [] [] []]; reflexivity. Qed.

Lemma lower_idempotent s : lower (lower s) = lower s.
Proof.
  induction s as [|c s IH]; cbn [lower]; [reflexivity|].
  now rewrite lower_char_idempotent, IH.
Qed.

Lemma length_lower s : String.length (lower s) = String.length s.
Proof. induction s as [|c s IH]; cbn [lower String.length]; congruence. Qed.

Lemma has_slash_lower s :
  existsb (Ascii.eqb "/") (list_ascii_of_string (lower s))
  = existsb (Ascii.eqb "/") (list_ascii_of_string s).
Proof.
  induction s as [|c s IH]; cbn [lower list_ascii_of_string existsb]; [reflexivity|].
  now rewrite lower_char_slash, IH.
Qed.

Lemma path_name_lower p : path_name (lower p) = lower (path_name p).
Proof.
  induction p as [|c p IH]; cbn [lower path_name]; [reflexivity|].
  rewrite has_slash_lower, lower_char_slash'.
  destruct (existsb _ _); [exact IH|].
  destruct (Ascii.eqb c "/"); reflexivity.
Qed.

Lemma rfind_dot_lower n : rfind_dot (lower n) = rfind_dot n.
Proof.
  induction n as [|c n IH]; cbn [lower rfind_dot]; [reflexivity|].
  now rewrite IH, lower_char_dot.
Qed.

Lemma substring_lower s : forall i k,
  substring i k (lower s) = lower (substring i k s).
Proof.
  induction s as [|c s IH]; intros i k.
  - destruct i, k; reflexivity.
  - destruct i as [|i]; cbn [lower substring].
    + destruct k as [|k]; [reflexivity|]. cbn [lower]. now rewrite IH.
    + apply IH.
Qed.

Lemma path_suffix_lower p : path_suffix (lower p) = lower (path_suffix p).
Proof.
  unfold path_suffix. rewrite path_name_lower, rfind_dot_lower, length_lower.
  destruct (rfind_dot (path_name p)) as [i|]; [|reflexivity].
  destruct ((0 <? i) && (i <? String.length (path_name p) - 1)); [|reflexivity].
  apply substring_lower.
Qed.

(** X2.  [get_file_type] does not depend on the case of the path: the path
    written in lower case gets the same file type. *)
Theorem X2_file_type_ignores_case (file_path : string) :
  get_file_type (lower file_path) = get_file_type file_path.
Proof.
  unfold get_file_type. now rewrite path_suffix_lower, lower_idempotent.
Qed.

End FormatsCase.

(** ** The optimizer: formats, encoders, errors *)

Section OptimizerAuto.
Import PyStr ImageOptimizer.
Context {pil : PIL}.
Local Open Scope Z_scope.

(** X6.  When no format is forced ([force_format] is [None] or the empty
    string) and [optimize_image] returns, the extension is [.webp]
    whenever [prefer_webp] is on, whatever the image and its
    classification; with [prefer_webp] off it is [.png] for an image of
    mode RGBA, LA or P (never the lossy [.jpg]), and for the other modes
    [.jpg] or [.png] as [_is_photo_like] classifies the resized image. *)
Theorem X6_automatic_format (self : optimizer) (image : pil_image)
    (name_hint : string) (force_format : option string)
    (data : list Byte.byte) (ext : string) :
  force_format = None \/ force_format = Some "" ->
  optimize_image self image name_hint force_format = Ok (data, ext) ->
  exists image',
    _resize_if_needed self image = Ok image'
    /\ (prefer_webp self = true -> ext = ".webp")
    /\ (prefer_webp self = false ->
        mem (im_mode image) ["RGBA"; "LA"; "P"] = true -> ext = ".png")
    /\ (prefer_webp self = false ->
        mem (im_mode image) ["RGBA"; "LA"; "P"] = false ->
        ext = if _is_photo_like image' then ".jpg" else ".png").
Proof.
  intros Hff Hopt. unfold optimize_image in Hopt.
  destruct (_resize_if_needed self image) as [image'|msg]; [|discriminate].
  exists image'. split; [reflexivity|].
  cbn [bind] in Hopt. cbv zeta in Hopt.
  set (ht := mem (im_mode image) ["RGBA"; "LA"; "P"]) in *.
  assert (Hfmt : match force_format with
                 | Some f => if truthy f then lower f else _choose_format self image' ht
                 | None => _choose_format self image' ht
                 end = _choose_format self image' ht)
    by (destruct Hff as [-> | ->]; reflexivity).
  rewrite Hfmt in Hopt. unfold _choose_format in Hopt.
  destruct ht, (prefer_webp self), (_is_photo_like image');
    cbn in Hopt; injection Hopt as _ <-;
    repeat split; intros; congruence.
Qed.

(** X7.  What the encoders are handed: [_save_as_jpeg] always encodes an
    image of mode RGB, [_save_as_webp] an image of mode RGBA exactly
    when transparency is asked for; both encode an image of the size of
    the one passed in, with the options of the source. *)
Theorem X7_encoder_modes (self : optimizer) (image : pil_image) (has_transparency : bool) :
  (exists encoded,
     _save_as_jpeg self image has_transparency
     = (pil_save encoded
          (mkSave "JPEG" (Some (jpeg_quality self)) None None (Some true) None (Some true)),
        ".jpg")
     /\ im_mode encoded = "RGB"
     /\ im_width encoded = im_width image /\ im_height encoded = im_height image)
  /\ (exists encoded,
        _save_as_webp self image has_transparency
        = (pil_save encoded
             (mkSave "WEBP" (Some (webp_quality self)) (Some false) (Some 4) None None None),
           ".webp")
        /\ (im_mode encoded = "RGBA" <-> has_transparency = true)
        /\ im_width encoded = im_width image /\ im_height encoded = im_height image).
Proof.
  split.
  - unfold _save_as_jpeg.
    destruct (mem (im_mode image) ["RGBA"; "LA"]).
    + eexists. split; [reflexivity|]. repeat split.
    + destruct (String.eqb_spec (im_mode image) "RGB") as [Hm | Hm]; cbn [negb].
      * eexists. split; [reflexivity|]. repeat split. exact Hm.
      * eexists. split; [reflexivity|]. repeat split.
  - unfold _save_as_webp.
    destruct has_transparency.
    + destruct (String.eqb_spec (im_mode image) "RGBA") as [Hm | Hm]; cbn [negb].
      * eexists. split; [reflexivity|]. repeat split; auto.
      * eexists. split; [reflexivity|]. repeat split; auto.
    + destruct (String.eqb_spec (im_mode image) "RGBA") as [Hm | Hm].
      * eexists. split; [reflexivity|]. repeat split; try discriminate.
      * eexists. split; [reflexivity|]. repeat split; try discriminate; try contradiction.
Qed.




End OptimizerAuto.

(** ** The resize never enlarges *)

Section ResizeShrinks.
Import PyFloat ImageOptimizer.
Context {pil : PIL}.
Local Open Scope Q_scope.





End ResizeShrinks.

(** ** The image formats of the three adapters *)

Section BothIsFile.
Import PyStr ImageOptimizer.
Context {pil : PIL}.

Lemma fold_left_ext {S X : Type} (f g : S -> X -> S) :
  (forall s x, f s x = g s x) -> forall l s, fold_left f l s = fold_left g l s.
Proof.
  intros H l. induction l as [|x l IH]; intros s; cbn [fold_left]; [reflexivity|].
  now rewrite H, IH.
Qed.

Lemma docx_both_is_file body parts extract_images images_dir fs0 :
  Docx._convert_docx body parts extract_images "both" images_dir fs0
  = Docx._convert_docx body parts extract_images "file" images_dir fs0.
Proof.
  unfold Docx._convert_docx.
  rewrite (fold_left_ext
             (Docx.convert_element parts extract_images "both" images_dir)
             (Docx.convert_element parts extract_images "file" images_dir));
    [reflexivity|].
  intros st e. reflexivity.
Qed.

Lemma pptx_both_is_file opt file_name slides extract_images images_dir fs0 :
  Pptx.convert_file opt file_name slides extract_images "both" images_dir fs0
  = Pptx.convert_file opt file_name slides extract_images "file" images_dir fs0.
Proof.
  unfold Pptx.convert_file.
  assert (H : forall slides st n,
             Pptx.convert_slides opt extract_images "both" images_dir st n slides
             = Pptx.convert_slides opt extract_images "file" images_dir st n slides).
  { clear slides. intros slides. induction slides as [|sl rest IH]; intros st n;
      cbn [Pptx.convert_slides]; [reflexivity|].
    rewrite IH. reflexivity. }
  now rewrite H.
Qed.

Lemma excel_both_is_file opt sheets extract_images images_dir fs0 :
  Excel.convert_file opt sheets extract_images "both" images_dir fs0
  = Excel.convert_file opt sheets extract_images "file" images_dir fs0.
Proof.
  unfold Excel.convert_file.
  assert (Himgs : forall imgs st,
             Excel.extract_sheet_images opt "both" images_dir st imgs
             = Excel.extract_sheet_images opt "file" images_dir st imgs).
  { intros imgs. induction imgs as [|img rest IH]; intros st;
      cbn [Excel.extract_sheet_images]; [reflexivity|].
    change (Excel.extract_image opt "both" images_dir st img)
      with (Excel.extract_image opt "file" images_dir st img).
    destruct (Excel.extract_image opt "file" images_dir st img); cbn [bind];
      [apply IH | reflexivity]. }
  assert (H : forall sheets st,
             Excel.convert_sheets opt extract_images "both" images_dir st sheets
             = Excel.convert_sheets opt extract_images "file" images_dir st sheets).
  { clear sheets. intros sheets. induction sheets as [|ws rest IH]; intros st;
      cbn [Excel.convert_sheets]; [reflexivity|].
    assert (Hs : Excel.convert_sheet opt extract_images "both" images_dir st ws
                 = Excel.convert_sheet opt extract_images "file" images_dir st ws).
    { unfold Excel.convert_sheet. now rewrite Himgs. }
    rewrite Hs. clear Hs.
    destruct (Excel.convert_sheet opt extract_images "file" images_dir st ws);
      cbn [bind]; [apply IH | reflexivity]. }
  now rewrite H.
Qed.

(** X10.  An [image_format] of "both" gives exactly the result of "file"
    in the three adapters: the same markdown, image list and file
    system.  The base64 text is computed for "both" but never put into
    the markdown. *)
Theorem X10_both_is_file :
  (forall body parts extract_images images_dir fs0,
     Docx._convert_docx body parts extract_images "both" images_dir fs0
     = Docx._convert_docx body parts extract_images "file" images_dir fs0)
  /\ (forall opt file_name slides extract_images images_dir fs0,
        Pptx.convert_file opt file_name slides extract_images "both" images_dir fs0
        = Pptx.convert_file opt file_name slides extract_images "file" images_dir fs0)
  /\ (forall opt sheets extract_images images_dir fs0,
        Excel.convert_file opt sheets extract_images "both" images_dir fs0
        = Excel.convert_file opt sheets extract_images "file" images_dir fs0).
Proof.
  split; [exact docx_both_is_file|]. split; [exact pptx_both_is_file|].
  exact excel_both_is_file.
Qed.

End BothIsFile.

Section NoFiles.
Import PyStr ImageOptimizer.
Context {pil : PIL}.

Lemma extract_blip_frame parts image_format images_dir st e :
  mem image_format ["file"; "both"] = false ->
  Docx.st_images (Docx.extract_blip parts image_format images_dir st e) = Docx.st_images st
  /\ Docx.st_fs (Docx.extract_blip parts image_format images_dir st e) = Docx.st_fs st.
Proof.
  intros Hf. unfold Docx.extract_blip.
  destruct e as [rid|]; [|now split].
  destruct (negb (truthy rid)); [now split|].
  destruct (Docx.related_get rid parts) as [part|]; [|now split].
  rewrite Hf. now split.
Qed.

Lemma process_paragraph_frame para parts extract_images image_format images_dir counter fs :
  writes_images extract_images image_format = false ->
  exists r,
    Docx._process_paragraph para parts extract_images image_format images_dir counter fs
    = (fs, r)
    /\ forall text new_images, r = Some (text, new_images) -> new_images = [].
Proof.
  intros Hw. unfold Docx._process_paragraph.
  set (st0 := Docx.mkImgState counter [] (Docx.run_text_parts (Docx.para_runs para)) fs).
  set (st := if extract_images then Docx.extract_images_of _ _ _ st0 _ else st0).
  assert (Hst : Docx.st_images st = [] /\ Docx.st_fs st = fs).
  { subst st. destruct extract_images; [|now split].
    cbn [writes_images andb] in Hw.
    unfold Docx.extract_images_of.
    assert (Hinv : forall runs s,
               (Docx.st_images (fold_left (Docx.extract_run_images parts image_format images_dir) runs s),
                Docx.st_fs (fold_left (Docx.extract_run_images parts image_format images_dir) runs s))
               = (Docx.st_images s, Docx.st_fs s)).
    { intros runs s.
      apply (fold_left_invariant (fun s => (Docx.st_images s, Docx.st_fs s))).
      intros a r. unfold Docx.extract_run_images.
      apply (fold_left_invariant (fun s => (Docx.st_images s, Docx.st_fs s))).
      intros a' e. destruct (extract_blip_frame parts image_format images_dir a' e Hw)
        as [-> ->]. reflexivity. }
    specialize (Hinv (Docx.para_runs para) st0). injection Hinv as H1 H2.
    now split. }
  clearbody st. destruct Hst as [Hi Hfs]. rewrite Hi, Hfs.
  destruct (negb (truthy _)).
  - eexists. split; [reflexivity|]. now intros t n [= _ <-].
  - destruct (Docx.list_prefix _ _).
    + eexists. split; [reflexivity|]. now intros t n [= _ <-].
    + eexists. split; [reflexivity|]. discriminate.
Qed.

Lemma convert_element_frame parts extract_images image_format images_dir st e st' :
  writes_images extract_images image_format = false ->
  Docx.convert_element parts extract_images image_format images_dir (Some st) e = Some st' ->
  Docx.ds_images st' = Docx.ds_images st /\ Docx.ds_fs st' = Docx.ds_fs st.
Proof.
  intros Hw. unfold Docx.convert_element.
  destruct e as [para|rows|].
  - destruct (process_paragraph_frame para parts extract_images image_format images_dir
                (Docx.ds_counter st) (Docx.ds_fs st) Hw) as (r & -> & Hr).
    destruct r as [[text new_images]|]; [|discriminate].
    rewrite (Hr text new_images eq_refl). intros [= <-].
    cbn [Docx.ds_images Docx.ds_fs]. now rewrite app_nil_r.
  - intros [= <-]. now split.
  - intros [= <-]. now split.
Qed.

Lemma fold_convert_none parts extract_images image_format images_dir body :
  fold_left (Docx.convert_element parts extract_images image_format images_dir) body None
  = None.
Proof. induction body as [|e body IH]; [reflexivity | exact IH]. Qed.

Lemma fold_convert_frame parts extract_images image_format images_dir body :
  writes_images extract_images image_format = false ->
  forall st st',
    fold_left (Docx.convert_element parts extract_images image_format images_dir)
      body (Some st) = Some st' ->
    Docx.ds_images st' = Docx.ds_images st /\ Docx.ds_fs st' = Docx.ds_fs st.
Proof.
  intros Hw. induction body as [|e body IH]; intros st st'; cbn [fold_left].
  - intros [= <-]. now split.
  - destruct (Docx.convert_element parts extract_images image_format images_dir (Some st) e)
      as [st1|] eqn:E.
    + intros H. destruct (IH _ _ H) as [-> ->].
      exact (convert_element_frame _ _ _ _ _ _ _ Hw E).
    + rewrite fold_convert_none. discriminate.
Qed.

Lemma docx_no_files body parts extract_images image_format images_dir fs0 c :
  writes_images extract_images image_format = false ->
  Docx._convert_docx body parts extract_images image_format images_dir fs0 = Some c ->
  Docx.images c = [] /\ Docx.fs_after c = fs0.
Proof.
  intros Hw. unfold Docx._convert_docx.
  destruct (fold_left _ body _) as [st|] eqn:E; [|discriminate].
  intros [= <-]. cbn [Docx.images Docx.fs_after].
  exact (fold_convert_frame _ _ _ _ _ Hw _ _ E).
Qed.

Lemma try_picture_frame opt slide_num image_format images_dir a image a' :
  mem image_format ["file"; "both"] = false ->
  Pptx.try_picture opt slide_num image_format images_dir a image = Ok a' ->
  Pptx.ss_images a' = Pptx.ss_images a /\ Pptx.ss_fs a' = Pptx.ss_fs a.
Proof.
  intros Hf. unfold Pptx.try_picture.
  destruct image as [img_bytes|msg]; cbn [bind]; [|discriminate].
  destruct (pil_open img_bytes) as [pil_img|msg]; cbn [bind]; [|discriminate].
  destruct (optimize_image opt pil_img _ None) as [[data ext]|msg]; cbn [bind];
    [|discriminate].
  rewrite Hf. cbn [bind].
  destruct (String.eqb image_format "base64"); intros [= <-]; now split.
Qed.

Lemma fold_left_invariant_in {S X A : Type} (g : S -> A) (f : S -> X -> S) (l : list X) :
  (forall a x, In x l -> g (f a x) = g a) -> forall a, g (fold_left f l a) = g a.
Proof.
  induction l as [|x l IH]; intros Hf a; [reflexivity|].
  cbn [fold_left]. rewrite IH by (intros; apply Hf; now right).
  apply Hf. now left.
Qed.

Lemma process_shape_frame opt extract_images slide_num image_format images_dir a s :
  writes_images extract_images image_format = false \/ is_picture s = false ->
  Pptx.ss_images (Pptx.process_shape opt extract_images slide_num image_format images_dir a s)
  = Pptx.ss_images a
  /\ Pptx.ss_fs (Pptx.process_shape opt extract_images slide_num image_format images_dir a s)
     = Pptx.ss_fs a.
Proof.
  intros Hw. unfold Pptx.process_shape.
  set (a1 := match Pptx.shape_text_frame s with Some _ => _ | None => a end).
  assert (H1 : Pptx.ss_images a1 = Pptx.ss_images a /\ Pptx.ss_fs a1 = Pptx.ss_fs a).
  { subst a1. destruct (Pptx.shape_text_frame s); [|now split].
    destruct (truthy _); now split. }
  clearbody a1.
  set (a2 := match Pptx.shape_table s with Some _ => _ | None => a1 end).
  assert (H2 : Pptx.ss_images a2 = Pptx.ss_images a /\ Pptx.ss_fs a2 = Pptx.ss_fs a).
  { subst a2. destruct (Pptx.shape_table s); [|exact H1].
    destruct (truthy _); exact H1. }
  clearbody a2.
  set (a3 := match Pptx.shape_type s with Pptx.Picture _ => _ | _ => a2 end).
  assert (H3 : Pptx.ss_images a3 = Pptx.ss_images a /\ Pptx.ss_fs a3 = Pptx.ss_fs a).
  { subst a3. unfold is_picture in Hw.
    destruct (Pptx.shape_type s) as [image| |]; try exact H2.
    destruct Hw as [Hw | Hw]; [|discriminate].
    destruct extract_images; [|exact H2]. cbn [writes_images andb] in Hw.
    unfold Pptx.handle_picture.
    destruct (Pptx.try_picture opt slide_num image_format images_dir a2 image)
      as [a'|m] eqn:E.
    - destruct (try_picture_frame _ _ _ _ _ _ _ Hw E) as [-> ->]. exact H2.
    - exact H2. }
  clearbody a3.
  destruct (Pptx.shape_type s); try exact H3. destruct (truthy _); exact H3.
Qed.

Lemma no_pictures_in shapes :
  List.length (filter is_picture shapes) = 0 ->
  forall s, In s shapes -> is_picture s = false.
Proof.
  intros H s Hs. destruct (is_picture s) eqn:E; [|reflexivity].
  assert (Hin : In s (filter is_picture shapes)) by (apply filter_In; now split).
  destruct (filter is_picture shapes); [contradiction | discriminate].
Qed.

Lemma convert_slides_frame opt extract_images image_format images_dir slides :
  writes_images extract_images image_format = false \/ count_pictures slides = 0 ->
  forall a slide_num,
    Pptx.ps_images (Pptx.convert_slides opt extract_images image_format images_dir a
                      slide_num slides) = Pptx.ps_images a
    /\ Pptx.ps_fs (Pptx.convert_slides opt extract_images image_format images_dir a
                     slide_num slides) = Pptx.ps_fs a.
Proof.
  induction slides as [|sl rest IH]; intros Hw a slide_num; [now split|].
  cbn [Pptx.convert_slides].
  assert (Hrest : writes_images extract_images image_format = false
                  \/ count_pictures rest = 0).
  { destruct Hw as [Hw | Hw]; [now left | right].
    cbn [count_pictures fold_right] in Hw. fold (count_pictures rest) in Hw. lia. }
  assert (Hhere : forall s, In s (Pptx.slide_shapes sl) ->
            writes_images extract_images image_format = false \/ is_picture s = false).
  { intros s Hs. destruct Hw as [Hw | Hw]; [now left | right].
    cbn [count_pictures fold_right] in Hw.
    apply (no_pictures_in (Pptx.slide_shapes sl)); [lia | exact Hs]. }
  destruct (IH Hrest (Pptx.convert_slide opt extract_images
    image_format images_dir a slide_num sl) (slide_num + 1)%Z) as [-> ->].
  unfold Pptx.convert_slide. cbn [Pptx.ps_images Pptx.ps_fs].
  set (f := Pptx.process_shape opt extract_images slide_num image_format images_dir).
  assert (Hinv : forall s,
             (Pptx.ss_images (fold_left f (Pptx.slide_shapes sl) s),
              Pptx.ss_fs (fold_left f (Pptx.slide_shapes sl) s))
             = (Pptx.ss_images s, Pptx.ss_fs s)).
  { intros s.
    apply (fold_left_invariant_in (fun s => (Pptx.ss_images s, Pptx.ss_fs s))).
    intros a0 x Hx. subst f.
    destruct (process_shape_frame opt extract_images slide_num image_format images_dir
                a0 x (Hhere x Hx)) as [-> ->]. reflexivity. }
  match goal with
  | |- Pptx.ss_images (fold_left f ?l ?s) = _ /\ _ =>
      specialize (Hinv s); injection Hinv as -> ->
  end.
  now split.
Qed.

Lemma pptx_no_files opt file_name slides extract_images image_format images_dir fs0 :
  writes_images extract_images image_format = false \/ count_pictures slides = 0 ->
  snd (fst (Pptx.convert_file opt file_name slides extract_images image_format
              images_dir fs0)) = []
  /\ snd (Pptx.convert_file opt file_name slides extract_images image_format
            images_dir fs0) = fs0.
Proof.
  intros Hw. unfold Pptx.convert_file. cbn [fst snd].
  match goal with
  | |- Pptx.ps_images (Pptx.convert_slides _ _ _ _ ?a ?n _) = _ /\ _ =>
      destruct (convert_slides_frame opt extract_images image_format images_dir slides
                  Hw a n) as [-> ->]
  end.
  now split.
Qed.

Lemma extract_image_frame opt image_format images_dir a img a' :
  mem image_format ["file"; "both"] = false ->
  Excel.extract_image opt image_format images_dir a img = Ok a' ->
  Excel.es_images a' = Excel.es_images a /\ Excel.es_fs a' = Excel.es_fs a.
Proof.
  intros Hf. unfold Excel.extract_image.
  destruct (pil_open img) as [pil_img|msg]; cbn [bind]; [|discriminate].
  destruct (optimize_image opt pil_img _ None) as [[data ext]|msg]; cbn [bind];
    [|discriminate].
  rewrite Hf. cbn [bind].
  destruct (String.eqb image_format "base64"); intros [= <-]; now split.
Qed.

Lemma extract_sheet_images_frame opt image_format images_dir imgs :
  mem image_format ["file"; "both"] = false ->
  forall a a',
    Excel.extract_sheet_images opt image_format images_dir a imgs = Ok a' ->
    Excel.es_images a' = Excel.es_images a /\ Excel.es_fs a' = Excel.es_fs a.
Proof.
  intros Hf. induction imgs as [|img rest IH]; intros a a'; cbn [Excel.extract_sheet_images].
  - intros [= <-]. now split.
  - destruct (Excel.extract_image opt image_format images_dir a img) as [a1|m] eqn:E;
      cbn [bind]; [|discriminate].
    intros H. destruct (IH _ _ H) as [-> ->].
    exact (extract_image_frame _ _ _ _ _ _ Hf E).
Qed.

Lemma convert_sheet_frame opt extract_images image_format images_dir a ws a' :
  writes_images extract_images image_format = false ->
  Excel.convert_sheet opt extract_images image_format images_dir a ws = Ok a' ->
  Excel.es_images a' = Excel.es_images a /\ Excel.es_fs a' = Excel.es_fs a.
Proof.
  intros Hw. unfold Excel.convert_sheet.
  set (st := Excel.mkExcelState _ (Excel.es_images a) (Excel.es_counter a) (Excel.es_fs a)).
  destruct extract_images.
  - cbn [writes_images andb] in Hw.
    destruct (Excel.extract_sheet_images opt image_format images_dir st
                (Excel.sheet_images ws)) as [a1|m] eqn:E; cbn [bind]; [|discriminate].
    intros [= <-]. cbn [Excel.es_images Excel.es_fs].
    exact (extract_sheet_images_frame _ _ _ _ Hw _ _ E).
  - cbn [bind]. intros [= <-]. now split.
Qed.

Lemma convert_sheets_frame opt extract_images image_format images_dir sheets :
  writes_images extract_images image_format = false ->
  forall a a',
    Excel.convert_sheets opt extract_images image_format images_dir a sheets = Ok a' ->
    Excel.es_images a' = Excel.es_images a /\ Excel.es_fs a' = Excel.es_fs a.
Proof.
  intros Hw. induction sheets as [|ws rest IH]; intros a a'; cbn [Excel.convert_sheets].
  - intros [= <-]. now split.
  - destruct (Excel.convert_sheet opt extract_images image_format images_dir a ws)
      as [a1|m] eqn:E; cbn [bind]; [|discriminate].
    intros H. destruct (IH _ _ H) as [-> ->].
    exact (convert_sheet_frame _ _ _ _ _ _ _ Hw E).
Qed.

Lemma excel_no_files opt sheets extract_images image_format images_dir fs0 md imgs fs1 :
  writes_images extract_images image_format = false ->
  Excel.convert_file opt sheets extract_images image_format images_dir fs0
  = Ok (md, imgs, fs1) ->
  imgs = [] /\ fs1 = fs0.
Proof.
  intros Hw. unfold Excel.convert_file.
  destruct (Excel.convert_sheets opt extract_images image_format images_dir _ sheets)
    as [a1|m] eqn:E; cbn [bind]; [|discriminate].
  intros [= _ <- <-].
  exact (convert_sheets_frame _ _ _ _ _ Hw _ _ E).
Qed.

(** X11.  Unless [extract_images] is on and [image_format] is "file" or
    "both", a conversion that returns writes no file and lists no image:
    the file system after it is the one before it, in the three
    adapters. *)
Theorem X11_no_image_files (extract_images : bool) (image_format : string) :
  writes_images extract_images image_format = false ->
  (forall body parts images_dir fs0 c,
     Docx._convert_docx body parts extract_images image_format images_dir fs0 = Some c ->
     Docx.images c = [] /\ Docx.fs_after c = fs0)
  /\ (forall opt file_name slides images_dir fs0,
        snd (fst (Pptx.convert_file opt file_name slides extract_images image_format
                    images_dir fs0)) = []
        /\ snd (Pptx.convert_file opt file_name slides extract_images image_format
                  images_dir fs0) = fs0)
  /\ (forall opt sheets images_dir fs0 md imgs fs1,
        Excel.convert_file opt sheets extract_images image_format images_dir fs0
        = Ok (md, imgs, fs1) ->
        imgs = [] /\ fs1 = fs0).
Proof.
  intros Hw. split; [|split].
  - intros. eapply docx_no_files; eauto.
  - intros. apply pptx_no_files. now left.
  - intros. eapply excel_no_files; eauto.
Qed.

End NoFiles.

Section UnknownFormat.
Import PyStr ImageOptimizer.
Context {pil : PIL}.
Local Open Scope Z_scope.

Lemma not_a_format image_format :
  mem image_format ["file"; "both"; "base64"] = false ->
  mem image_format ["file"; "both"] = false /\ String.eqb image_format "base64" = false.
Proof.
  unfold mem, existsb.
  destruct (String.eqb image_format "file"), (String.eqb image_format "both"),
    (String.eqb image_format "base64"); cbn; intuition discriminate.
Qed.

(** X12.  An [image_format] that is none of "file", "both", "base64" is
    not rejected.  The Word adapter still writes the link
    [![image](images/image_NNN.ext)] for every image found, and counts
    it, although no file is written; the presentation and spreadsheet
    adapters add nothing for an image then. *)
Theorem X12_unknown_image_format (image_format : string) :
  mem image_format ["file"; "both"; "base64"] = false ->
  (forall parts images_dir st rid part,
     truthy rid = true -> Docx.related_get rid parts = Some part ->
     Docx.extract_blip parts image_format images_dir st (Some rid)
     = Docx.mkImgState (Docx.st_counter st + 1) (Docx.st_images st)
         (snoc (Docx.st_text_parts st)
            (nl ++ "![image](images/image_" ++ fmt_03d (Docx.st_counter st + 1)
             ++ Docx.ext_map (Docx.part_content_type part) ++ ")" ++ nl))
         (Docx.st_fs st))
  /\ (forall opt slide_num images_dir st image st',
        Pptx.try_picture opt slide_num image_format images_dir st image = Ok st' ->
        Pptx.ss_text_parts st' = Pptx.ss_text_parts st
        /\ Pptx.ss_images st' = Pptx.ss_images st /\ Pptx.ss_fs st' = Pptx.ss_fs st)
  /\ (forall opt images_dir st img st',
        Excel.extract_image opt image_format images_dir st img = Ok st' ->
        Excel.es_parts st' = Excel.es_parts st
        /\ Excel.es_images st' = Excel.es_images st /\ Excel.es_fs st' = Excel.es_fs st).
Proof.
  intros Hf. destruct (not_a_format _ Hf) as [Hw Hb]. split; [|split].
  - intros parts images_dir st rid part Hrid Hpart.
    unfold Docx.extract_blip. rewrite Hrid, Hpart, Hw, Hb. cbn [negb].
    rewrite !append_assoc. reflexivity.
  - intros opt slide_num images_dir st image st'. unfold Pptx.try_picture.
    destruct image as [img_bytes|msg]; cbn [bind]; [|discriminate].
    destruct (pil_open img_bytes) as [pil_img|msg]; cbn [bind]; [|discriminate].
    destruct (optimize_image opt pil_img _ None) as [[data ext]|msg]; cbn [bind];
      [|discriminate].
    rewrite Hw, Hb. cbn [bind]. intros [= <-]. repeat split.
  - intros opt images_dir st img st'. unfold Excel.extract_image.
    destruct (pil_open img) as [pil_img|msg]; cbn [bind]; [|discriminate].
    destruct (optimize_image opt pil_img _ None) as [[data ext]|msg]; cbn [bind];
      [|discriminate].
    rewrite Hw, Hb. cbn [bind]. intros [= <-]. repeat split.
Qed.

End UnknownFormat.

(** ** Pictures of a presentation *)

Section PptxPictures.
Import PyStr ImageOptimizer.
Context {pil : PIL}.
Local Open Scope Z_scope.

Lemma try_picture_counter opt slide_num image_format images_dir a image a' :
  Pptx.try_picture opt slide_num image_format images_dir a image = Ok a' ->
  Pptx.ss_counter a' = Pptx.ss_counter a + 1.
Proof.
  unfold Pptx.try_picture.
  destruct image as [img_bytes|msg]; cbn [bind]; [|discriminate].
  destruct (pil_open img_bytes) as [pil_img|msg]; cbn [bind]; [|discriminate].
  destruct (optimize_image opt pil_img _ None) as [[data ext]|msg]; cbn [bind];
    [|discriminate].
  destruct (mem image_format ["file"; "both"]).
  - destruct (FS.write _ _ _); cbn [bind]; [|discriminate].
    destruct (String.eqb image_format "base64"); intros [= <-]; reflexivity.
  - cbn [bind]. destruct (String.eqb image_format "base64"); intros [= <-]; reflexivity.
Qed.

Lemma process_shape_counter opt extract_images slide_num image_format images_dir a s :
  Pptx.ss_counter (Pptx.process_shape opt extract_images slide_num image_format images_dir a s)
  = Pptx.ss_counter a + (if extract_images && is_picture s then 1 else 0).
Proof.
  unfold Pptx.process_shape, is_picture.
  set (a1 := match Pptx.shape_text_frame s with Some _ => _ | None => a end).
  assert (H1 : Pptx.ss_counter a1 = Pptx.ss_counter a).
  { subst a1. destruct (Pptx.shape_text_frame s); [|reflexivity].
    destruct (truthy _); reflexivity. }
  clearbody a1.
  set (a2 := match Pptx.shape_table s with Some _ => _ | None => a1 end).
  assert (H2 : Pptx.ss_counter a2 = Pptx.ss_counter a).
  { subst a2. destruct (Pptx.shape_table s); [|exact H1].
    destruct (truthy _); exact H1. }
  clearbody a2.
  destruct (Pptx.shape_type s) as [image|children|].
  - destruct extract_images; cbn [andb]; [|lia].
    unfold Pptx.handle_picture.
    destruct (Pptx.try_picture opt slide_num image_format images_dir a2 image)
      as [a'|m] eqn:E.
    + rewrite (try_picture_counter _ _ _ _ _ _ _ E). lia.
    + cbn [Pptx.ss_counter]. lia.
  - rewrite andb_false_r. destruct (truthy _); cbn [Pptx.ss_counter]; lia.
  - rewrite andb_false_r. lia.
Qed.

Lemma fold_shapes_counter opt extract_images slide_num image_format images_dir shapes :
  forall a,
    Pptx.ss_counter
      (fold_left (Pptx.process_shape opt extract_images slide_num image_format images_dir)
         shapes a)
    = Pptx.ss_counter a
      + (if extract_images then Z.of_nat (List.length (filter is_picture shapes)) else 0).
Proof.
  induction shapes as [|s rest IH]; intros a; cbn [fold_left filter].
  - destruct extract_images; cbn [List.length]; lia.
  - rewrite IH, process_shape_counter.
    destruct extract_images, (is_picture s); cbn [andb List.length]; lia.
Qed.

Lemma convert_slides_counter opt extract_images image_format images_dir slides :
  forall a slide_num,
    Pptx.ps_counter
      (Pptx.convert_slides opt extract_images image_format images_dir a slide_num slides)
    = Pptx.ps_counter a
      + (if extract_images then Z.of_nat (count_pictures slides) else 0).
Proof.
  induction slides as [|sl rest IH]; intros a slide_num;
    cbn [Pptx.convert_slides count_pictures fold_right].
  - destruct extract_images; lia.
  - rewrite IH. unfold Pptx.convert_slide. cbn [Pptx.ps_counter].
    rewrite fold_shapes_counter. cbn [Pptx.ss_counter].
    fold (count_pictures rest).
    destruct extract_images; lia.
Qed.

(** X13.  In a presentation every picture shape takes the next image
    number, whether its extraction succeeds or fails: [handle_picture]
    adds one to the counter in both cases, and after the slides the
    counter has grown by the number of picture shapes (groups not
    entered).  A failed picture so leaves a gap in the numbering. *)
Theorem X13_pictures_consume_numbers (opt : optimizer) (image_format images_dir : string) :
  (forall slide_num st image,
     Pptx.ss_counter (Pptx.handle_picture opt slide_num image_format images_dir st image)
     = Pptx.ss_counter st + 1)
  /\ (forall slides st slide_num,
        Pptx.ps_counter
          (Pptx.convert_slides opt true image_format images_dir st slide_num slides)
        = Pptx.ps_counter st + Z.of_nat (count_pictures slides)).
Proof.
  split.
  - intros slide_num st image. unfold Pptx.handle_picture.
    destruct (Pptx.try_picture opt slide_num image_format images_dir st image)
      as [a'|m] eqn:E; [|reflexivity].
    exact (try_picture_counter _ _ _ _ _ _ _ E).
  - intros slides st slide_num. now rewrite convert_slides_counter.
Qed.

(** X14.  Pictures inside group shapes are never extracted: a
    presentation none of whose shapes is itself a picture yields no
    image path and leaves the file system as it was, whatever its groups
    hold and whatever [extract_images] and [image_format] are. *)
Theorem X14_grouped_pictures_are_skipped (opt : optimizer) (file_name : string)
    (slides : list Pptx.slide) (extract_images : bool) (image_format images_dir : string)
    (fs0 : FS.fs) :
  count_pictures slides = 0%nat ->
  snd (fst (Pptx.convert_file opt file_name slides extract_images image_format
              images_dir fs0)) = []
  /\ snd (Pptx.convert_file opt file_name slides extract_images image_format
            images_dir fs0) = fs0.
Proof. intros H. apply pptx_no_files. now right. Qed.

End PptxPictures.

(** ** Numbering of the extracted images *)

Section Numbering.
Import PyStr ImageOptimizer.
Context {pil : PIL}.
Local Open Scope Z_scope.

Lemma numbered_snoc dir prefix exts imgs : forall c ext,
  numbered dir prefix exts c imgs -> In ext exts ->
  numbered dir prefix exts c
    (snoc imgs
       (FS.path_join dir (prefix ++ fmt_03d (c + Z.of_nat (List.length imgs) + 1) ++ ext))).
Proof.
  induction imgs as [|p rest IH]; intros c ext Hn Hext; cbn [snoc List.app numbered].
  - cbn [List.length Z.of_nat]. rewrite Z.add_0_r. split; [|exact I].
    exists ext. now split.
  - destruct Hn as [Hp Hrest]. split; [exact Hp|].
    specialize (IH (c + 1) ext Hrest Hext). unfold snoc in IH.
    replace (c + Z.of_nat (List.length (p :: rest)) + 1)
      with (c + 1 + Z.of_nat (List.length rest) + 1)
      by (cbn [List.length]; lia).
    exact IH.
Qed.

Lemma numbered_app dir prefix exts imgs : forall c more,
  numbered dir prefix exts c imgs ->
  numbered dir prefix exts (c + Z.of_nat (List.length imgs)) more ->
  numbered dir prefix exts c (imgs ++ more).
Proof.
  induction imgs as [|p rest IH]; intros c more Hn Hm; cbn [List.app numbered].
  - cbn [List.length Z.of_nat] in Hm. now rewrite Z.add_0_r in Hm.
  - destruct Hn as [Hp Hrest]. split; [exact Hp|].
    apply IH; [exact Hrest|].
    replace (c + 1 + Z.of_nat (List.length rest))
      with (c + Z.of_nat (List.length (p :: rest))) by (cbn [List.length]; lia).
    exact Hm.
Qed.

Lemma optimize_image_extension opt image name_hint force_format data ext :
  optimize_image opt image name_hint force_format = Ok (data, ext) ->
  In ext [".webp"; ".png"; ".jpg"].
Proof.
  unfold optimize_image.
  destruct (_resize_if_needed opt image) as [image'|m]; cbn [bind]; [|discriminate].
  cbv zeta.
  repeat match goal with
         | |- context [if String.eqb ?a ?b then _ else _] => destruct (String.eqb a b)
         end; intros [= _ <-]; cbn; auto.
Qed.

Lemma extract_image_numbered opt image_format images_dir a img a' :
  mem image_format ["file"; "both"] = true ->
  Excel.extract_image opt image_format images_dir a img = Ok a' ->
  excel_numbered images_dir a ->
  excel_numbered images_dir a'
  /\ List.length (Excel.es_images a') = S (List.length (Excel.es_images a)).
Proof.
  intros Hf. unfold Excel.extract_image.
  destruct (pil_open img) as [pil_img|msg]; cbn [bind]; [|discriminate].
  destruct (optimize_image opt pil_img _ None) as [[data ext]|msg] eqn:Eopt; cbn [bind];
    [|discriminate].
  apply optimize_image_extension in Eopt.
  rewrite Hf. destruct (FS.write _ _ _) as [fs'|]; cbn [bind]; [|discriminate].
  intros Ha' [Hn Hc].
  assert (Hst : Excel.es_images a'
                = snoc (Excel.es_images a)
                    (FS.path_join images_dir
                       ("excel_image_" ++ fmt_03d (Excel.es_counter a + 1) ++ ext))
                /\ Excel.es_counter a' = Excel.es_counter a + 1).
  { destruct (String.eqb image_format "base64"); injection Ha' as <-;
      cbn [Excel.es_images Excel.es_counter]; split; reflexivity. }
  destruct Hst as [Hi Hc']. unfold excel_numbered. rewrite Hi, Hc', Hc.
  unfold snoc at 2 3. rewrite length_app. cbn [List.length].
  split; [split|lia].
  - replace (Z.of_nat (List.length (Excel.es_images a)) + 1)
      with (0 + Z.of_nat (List.length (Excel.es_images a)) + 1) by lia.
    now apply numbered_snoc.
  - lia.
Qed.

Lemma extract_sheet_images_numbered opt image_format images_dir imgs :
  mem image_format ["file"; "both"] = true ->
  forall a a',
    Excel.extract_sheet_images opt image_format images_dir a imgs = Ok a' ->
    excel_numbered images_dir a ->
    excel_numbered images_dir a'
    /\ List.length (Excel.es_images a')
       = (List.length (Excel.es_images a) + List.length imgs)%nat.
Proof.
  intros Hf. induction imgs as [|img rest IH]; intros a a'; cbn [Excel.extract_sheet_images].
  - intros [= <-] Ha. split; [exact Ha | cbn [List.length]; lia].
  - destruct (Excel.extract_image opt image_format images_dir a img) as [a1|m] eqn:E;
      cbn [bind]; [|discriminate].
    intros H Ha.
    destruct (extract_image_numbered _ _ _ _ _ _ Hf E Ha) as [Ha1 Hl1].
    destruct (IH _ _ H Ha1) as [Ha' Hl']. split; [exact Ha'|].
    rewrite Hl', Hl1. cbn [List.length]. lia.
Qed.

Lemma convert_sheets_numbered opt image_format images_dir sheets :
  mem image_format ["file"; "both"] = true ->
  forall a a',
    Excel.convert_sheets opt true image_format images_dir a sheets = Ok a' ->
    excel_numbered images_dir a ->
    excel_numbered images_dir a'
    /\ List.length (Excel.es_images a')
       = (List.length (Excel.es_images a) + count_sheet_images sheets)%nat.
Proof.
  intros Hf. induction sheets as [|ws rest IH]; intros a a';
    cbn [Excel.convert_sheets count_sheet_images fold_right].
  - intros [= <-] Ha. split; [exact Ha | lia].
  - unfold Excel.convert_sheet at 1.
    set (st := Excel.mkExcelState _ (Excel.es_images a) (Excel.es_counter a) (Excel.es_fs a)).
    destruct (Excel.extract_sheet_images opt image_format images_dir st
                (Excel.sheet_images ws)) as [a1|m] eqn:E; cbn [bind]; [|discriminate].
    intros H Ha.
    destruct (extract_sheet_images_numbered _ _ _ _ Hf _ _ E Ha) as [Ha1 Hl1].
    destruct (IH _ _ H Ha1) as [Ha' Hl']. split; [exact Ha'|].
    rewrite Hl'. cbn [Excel.es_images]. rewrite Hl1. subst st. cbn [Excel.es_images].
    fold (count_sheet_images rest). lia.
Qed.

(** X15.  When a spreadsheet conversion with [extract_images] on and an
    [image_format] of "file" or "both" returns, it lists one path per
    embedded image, over all sheets, and the i-th path is
    [images_dir/excel_image_] followed by [i] written with three digits
    at least and by one of [.webp], [.png], [.jpg]. *)
Theorem X15_excel_image_numbering (opt : optimizer) (sheets : list Excel.worksheet)
    (image_format images_dir : string) (fs0 : FS.fs)
    (md : string) (imgs : list string) (fs1 : FS.fs) :
  mem image_format ["file"; "both"] = true ->
  Excel.convert_file opt sheets true image_format images_dir fs0 = Ok (md, imgs, fs1) ->
  numbered images_dir "excel_image_" [".webp"; ".png"; ".jpg"] 0 imgs
  /\ List.length imgs = count_sheet_images sheets.
Proof.
  intros Hf. unfold Excel.convert_file.
  destruct (Excel.convert_sheets opt true image_format images_dir _ sheets)
    as [a1|m] eqn:E; cbn [bind]; [|discriminate].
  intros [= _ <- _].
  destruct (convert_sheets_numbered _ _ _ _ Hf _ _ E) as [[Hn _] Hl].
  - split; [exact I | reflexivity].
  - split; [exact Hn | exact Hl].
Qed.

Lemma ext_map_range content_type : In (Docx.ext_map content_type) docx_exts.
Proof.
  unfold Docx.ext_map, docx_exts.
  repeat match goal with
         | |- context [if String.eqb ?a ?b then _ else _] => destruct (String.eqb a b)
         end; cbn; auto.
Qed.

Lemma extract_blip_numbered parts image_format images_dir c0 st e :
  mem image_format ["file"; "both"] = true ->
  blips_numbered images_dir c0 st ->
  blips_numbered images_dir c0 (Docx.extract_blip parts image_format images_dir st e).
Proof.
  intros Hf (Hn & Hc & Hu). unfold Docx.extract_blip.
  destruct e as [rid|]; [|now repeat split].
  destruct (negb (truthy rid)); [now repeat split|].
  destruct (Docx.related_get rid parts) as [part|]; [|now repeat split].
  rewrite Hf. unfold FS.write. rewrite Hu. cbn [mem existsb].
  unfold blips_numbered. cbn [Docx.st_images Docx.st_counter Docx.st_fs FS.fs_unwritable].
  split; [|split; [|reflexivity]].
  - rewrite Hc.
    apply (numbered_snoc images_dir "image_"); [exact Hn | apply ext_map_range].
  - unfold snoc. rewrite length_app. cbn [List.length]. lia.
Qed.

Lemma fold_left_preserves {S X : Type} (P : S -> Prop) (f : S -> X -> S) :
  (forall s x, P s -> P (f s x)) -> forall l s, P s -> P (fold_left f l s).
Proof.
  intros Hf l. induction l as [|x l IH]; intros s Hs; [exact Hs|].
  cbn [fold_left]. apply IH, Hf, Hs.
Qed.

Lemma process_paragraph_numbered para parts image_format images_dir counter fs :
  mem image_format ["file"; "both"] = true ->
  FS.fs_unwritable fs = [] ->
  exists fs' r,
    Docx._process_paragraph para parts true image_format images_dir counter fs = (fs', r)
    /\ FS.fs_unwritable fs' = []
    /\ forall text new_images, r = Some (text, new_images) ->
       numbered images_dir "image_" docx_exts counter new_images.
Proof.
  intros Hf Hu. unfold Docx._process_paragraph.
  set (st0 := Docx.mkImgState counter [] (Docx.run_text_parts (Docx.para_runs para)) fs).
  assert (H0 : blips_numbered images_dir counter st0).
  { subst st0. unfold blips_numbered. cbn. repeat split; [lia | exact Hu]. }
  set (st := Docx.extract_images_of parts image_format images_dir st0 (Docx.para_runs para)).
  assert (Hst : blips_numbered images_dir counter st).
  { subst st. unfold Docx.extract_images_of.
    apply fold_left_preserves; [|exact H0].
    intros s r Hs. unfold Docx.extract_run_images.
    apply fold_left_preserves; [|exact Hs].
    intros s' e Hs'. now apply extract_blip_numbered. }
  clearbody st. destruct Hst as (Hn & _ & Hu').
  destruct (negb (truthy _)).
  - eexists. eexists. split; [reflexivity|]. split; [exact Hu'|].
    now intros t n [= _ <-].
  - destruct (Docx.list_prefix _ _).
    + eexists. eexists. split; [reflexivity|]. split; [exact Hu'|].
      now intros t n [= _ <-].
    + eexists. eexists. split; [reflexivity|]. split; [exact Hu'|]. discriminate.
Qed.

Lemma convert_element_numbered parts image_format images_dir st e st' :
  mem image_format ["file"; "both"] = true ->
  Docx.convert_element parts true image_format images_dir (Some st) e = Some st' ->
  docx_numbered images_dir st -> docx_numbered images_dir st'.
Proof.
  intros Hf. unfold Docx.convert_element. intros H (Hn & Hc & Hu).
  destruct e as [para|rows|].
  - destruct (process_paragraph_numbered para parts image_format images_dir
                (Docx.ds_counter st) (Docx.ds_fs st) Hf Hu) as (fs' & r & Hr & Hu' & Hnew).
    rewrite Hr in H. destruct r as [[text new_images]|]; [|discriminate].
    injection H as <-. specialize (Hnew text new_images eq_refl).
    unfold docx_numbered. cbn [Docx.ds_images Docx.ds_counter Docx.ds_fs].
    split; [|split; [|exact Hu']].
    + apply numbered_app; [exact Hn|]. rewrite <- Hc, Z.add_0_l. exact Hnew.
    + rewrite length_app, Hc. lia.
  - injection H as <-. now repeat split.
  - injection H as <-. now repeat split.
Qed.

(** X16.  When every file can be written and [image_format] is "file" or
    "both", the images a Word conversion lists are numbered
    consecutively in document order: the i-th path is
    [images_dir/image_] followed by [i] written with three digits at
    least and by one of [.png], [.jpg], [.gif], [.bmp]. *)
Theorem X16_docx_image_numbering (body : list Docx.body_element)
    (parts : Docx.related_parts) (image_format images_dir : string) (fs0 : FS.fs)
    (c : Docx.conversion) :
  mem image_format ["file"; "both"] = true ->
  FS.fs_unwritable fs0 = [] ->
  Docx._convert_docx body parts true image_format images_dir fs0 = Some c ->
  numbered images_dir "image_" [".png"; ".jpg"; ".gif"; ".bmp"] 0 (Docx.images c).
Proof.
  intros Hf Hu. unfold Docx._convert_docx.
  destruct (fold_left _ body _) as [st|] eqn:E; [|discriminate].
  intros [= <-]. cbn [Docx.images].
  assert (H : forall body st0 st1,
             fold_left (Docx.convert_element parts true image_format images_dir)
               body (Some st0) = Some st1 ->
             docx_numbered images_dir st0 -> docx_numbered images_dir st1).
  { clear E. intros body0. induction body0 as [|e body0 IH]; intros st0 st1;
      cbn [fold_left].
    - now intros [= <-].
    - destruct (Docx.convert_element parts true image_format images_dir (Some st0) e)
        as [st2|] eqn:E2.
      + intros H H0. apply (IH _ _ H). eapply convert_element_numbered; eauto.
      + rewrite fold_convert_none. discriminate. }
  apply (H _ _ _ E). unfold docx_numbered. cbn. repeat split. exact Hu.
Qed.

End Numbering.

(** ** Word and PowerPoint tables *)

Section WordTable.
Import PyStr Docx.

Lemma none_of_escape_pipe s :
  none_of is_newline s = true -> none_of is_newline (replace_char "|" "\|" s) = true.
Proof.
  induction s as [|c s IH]; [reflexivity|]. cbn [none_of replace_char].
  intros H. apply andb_true_iff in H as [Hc Hs].
  destruct (Ascii.eqb c "|"); cbn [append none_of]; [now apply IH|].
  now rewrite Hc, IH.
Qed.

Lemma table_cells_clean row : clean_cells (map table_cell_text row).
Proof.
  unfold clean_cells. apply Forall_forall. intros t Ht.
  apply in_map_iff in Ht as (x & <- & _). unfold table_cell_text. split.
  - apply unescaped_pipes_escape.
  - apply none_of_escape_pipe, none_of_replace_newline.
Qed.

Lemma split_lines_single s : none_of is_newline s = true -> split_lines s = [s].
Proof.
  induction s as [|c s IH]; [reflexivity|]. cbn [none_of split_lines].
  intros H. apply andb_true_iff in H as [Hc Hs]. unfold is_newline in Hc.
  apply negb_true_iff in Hc. rewrite Hc, (IH Hs). reflexivity.
Qed.

Lemma split_lines_join_lines lines :
  lines <> [] -> Forall (fun l => none_of is_newline l = true) lines ->
  split_lines (join nl lines) = lines.
Proof.
  induction lines as [|a rest IH]; [congruence|].
  intros _ Hall. inversion Hall as [|? ? Ha Hrest]; subst.
  destruct rest as [|b rest'].
  - cbn [join]. now apply split_lines_single.
  - rewrite join_cons, split_lines_app_nl by exact Ha.
    rewrite IH by (discriminate || assumption). reflexivity.
Qed.

Lemma table_rows_succ rows : forall i,
  table_rows (S i) rows = map (fun r => md_row (map table_cell_text r)) rows.
Proof.
  induction rows as [|r rest IH]; intros i; [reflexivity|].
  cbn [table_rows map Nat.eqb List.app]. now rewrite IH.
Qed.

Lemma table_rows_zero r rest :
  table_rows 0 (r :: rest)
  = md_row (map table_cell_text r) :: separator_row (List.length r)
    :: map (fun r => md_row (map table_cell_text r)) rest.
Proof.
  cbn [table_rows Nat.eqb List.app]. now rewrite table_rows_succ, length_map.
Qed.

Lemma word_row_line row :
  row <> [] ->
  columns (md_row (map table_cell_text row)) = List.length row
  /\ none_of is_newline (md_row (map table_cell_text row)) = true.
Proof.
  intros Hne. split.
  - change (md_row (map table_cell_text row))
      with (Excel.md_row (map table_cell_text row)).
    rewrite columns_md_row; [apply length_map | | apply table_cells_clean].
    destruct row; [congruence | discriminate].
  - change (md_row (map table_cell_text row))
      with (Excel.md_row (map table_cell_text row)).
    apply md_row_no_newline, table_cells_clean.
Qed.

Lemma word_separator_line n :
  0 < n ->
  columns (separator_row n) = n /\ none_of is_newline (separator_row n) = true.
Proof.
  intros Hn. split.
  - change (separator_row n) with (Excel.separator_row n). now apply columns_separator.
  - change (separator_row n) with (Excel.md_row (List.repeat "---" n)).
    apply md_row_no_newline, clean_cells_dashes.
Qed.

Lemma word_table_lines r rest :
  Forall (fun row => row <> []) (r :: rest) ->
  split_lines (_process_table (r :: rest)) = table_rows 0 (r :: rest)
  /\ map columns (table_rows 0 (r :: rest))
     = List.length r :: List.length r :: map (@List.length string) rest.
Proof.
  intros Hall. inversion Hall as [|? ? Hr Hrest]; subst.
  assert (Hrlen : 0 < List.length r) by (destruct r; [congruence | cbn; lia]).
  destruct (word_row_line r Hr) as [Hc Hn].
  destruct (word_separator_line _ Hrlen) as [Hsc Hsn].
  assert (Hbody : Forall (fun line => none_of is_newline line = true)
                    (map (fun r => md_row (map table_cell_text r)) rest)
                  /\ map columns (map (fun r => md_row (map table_cell_text r)) rest)
                     = map (@List.length string) rest).
  { clear -Hrest. induction rest as [|x rest IH]; [split; [constructor | reflexivity]|].
    inversion Hrest as [|? ? Hx Hrest']; subst.
    destruct (IH Hrest') as [IH1 IH2]. destruct (word_row_line x Hx) as [Hxc Hxn].
    cbn [map]. split; [now constructor | now rewrite Hxc, IH2]. }
  destruct Hbody as [Hb1 Hb2].
  split.
  - unfold _process_table. apply split_lines_join_lines.
    + rewrite table_rows_zero. discriminate.
    + rewrite table_rows_zero. constructor; [exact Hn|]. constructor; [exact Hsn | exact Hb1].
  - rewrite table_rows_zero. cbn [map]. now rewrite Hc, Hsc, Hb2.
Qed.

(** X17.  A Word table whose rows all have a cell renders as one line per
    row plus the separator after the first: the header line and the
    separator have as many columns as the first row has cells, every
    other line as many as its own row (rows are not padded).  The
    presentation adapter renders the same text followed by a newline. *)
Theorem X17_word_table_shape (r : list string) (rest : list (list string)) :
  Forall (fun row => row <> []) (r :: rest) ->
  map columns (split_lines (_process_table (r :: rest)))
  = List.length r :: List.length r :: map (@List.length string) rest
  /\ Pptx._extract_table (r :: rest) = _process_table (r :: rest) ++ nl.
Proof.
  intros Hall. destruct (word_table_lines r rest Hall) as [-> ->].
  split; reflexivity.
Qed.

End WordTable.

(** ** Spreadsheet cells and empty sheets *)

Section ExcelValues.
Import PyStr Excel ImageOptimizer.
Context {pil : PIL}.

Lemma strip_solid_head c s : is_space c = false -> truthy (strip (String c s)) = true.
Proof.
  intros Hc. unfold strip. rewrite lstrip_nonspace by exact Hc.
  pose proof (rstrip_head_nonspace c s Hc) as H.
  destruct (rstrip (String c s)); [congruence | reflexivity].
Qed.

Lemma dec_digits_nonempty k : forall n acc, dec_digits (S k) n acc <> "".
Proof.
  induction k as [|k IH]; intros n acc; cbn [dec_digits]; cbv zeta.
  - destruct (n <? 10)%Z; discriminate.
  - destruct (n <? 10)%Z; [discriminate|]. apply IH.
Qed.

Lemma str_of_nonneg_head n :
  (0 <= n)%Z -> exists c s, str_of_nonneg n = String c s /\ is_space c = false.
Proof.
  intros Hn. pose proof (all_digits_dec_digits (S (Z.to_nat (Z.log2 n))) n "" Hn eq_refl) as H.
  fold (str_of_nonneg n) in H.
  assert (Hne : str_of_nonneg n <> "") by apply dec_digits_nonempty.
  destruct (str_of_nonneg n) as [|c s]; [congruence|].
  exists c, s. split; [reflexivity|].
  apply digit_not_space. unfold all_digits in H. cbn [none_of] in H.
  apply andb_prop in H as [Hc _]. now rewrite negb_involutive in Hc.
Qed.

Lemma number_has_content z : cell_has_content (CInt z) = true.
Proof.
  cbn [cell_has_content py_str]. unfold str_of_int.
  destruct (z <? 0)%Z eqn:E.
  - apply (strip_solid_head "-"). reflexivity.
  - apply Z.ltb_ge in E. destruct (str_of_nonneg_head z E) as (c & s & -> & Hc).
    now apply strip_solid_head.
Qed.

Lemma bool_has_content b : cell_has_content (CBool b) = true.
Proof. destruct b; reflexivity. Qed.

(** X18.  A row of a worksheet that holds an [int] (0 included) or a
    [bool] ([False] included) is never dropped as empty. *)
Theorem X18_numbers_are_content (r : row) (rows : list row) :
  (exists z, In (CInt z) r) \/ (exists b, In (CBool b) r) ->
  sheet_data (r :: rows) = r :: sheet_data rows.
Proof.
  intros H. unfold sheet_data. cbn [filter].
  assert (E : existsb cell_has_content r = true).
  { apply existsb_exists. destruct H as [[z Hz] | [b Hb]].
    - exists (CInt z). split; [exact Hz | apply number_has_content].
    - exists (CBool b). split; [exact Hb | apply bool_has_content]. }
  now rewrite E.
Qed.

Lemma sheet_data_all_blank rows : Forall all_blank rows -> sheet_data rows = [].
Proof.
  induction rows as [|r rows IH]; [reflexivity|].
  intros H. inversion H as [|? ? Hr Hrows]; subst.
  rewrite sheet_data_blank by exact Hr. now apply IH.
Qed.

(** X19.  A sheet without images all of whose rows are blank (a sheet
    without rows included) contributes exactly three parts: its header
    [# Sheet: name], the note [*Empty sheet*] and the rule; images,
    counter and file system stay as they are. *)
Theorem X19_empty_sheet (opt : optimizer) (extract_images : bool)
    (image_format images_dir : string) (st : excel_state) (ws : worksheet) :
  Forall all_blank (sheet_rows ws) -> sheet_images ws = [] ->
  convert_sheet opt extract_images image_format images_dir st ws
  = Ok (mkExcelState
          (es_parts st ++ ["# Sheet: " ++ sheet_name ws ++ nl; "*Empty sheet*" ++ nl;
                           nl ++ "---" ++ nl])
          (es_images st) (es_counter st) (es_fs st)).
Proof.
  intros Hblank Himgs. unfold convert_sheet.
  rewrite (sheet_data_all_blank _ Hblank), Himgs.
  destruct extract_images; cbn [extract_sheet_images bind es_parts es_images es_counter es_fs];
    unfold snoc; now rewrite <- !app_assoc.
Qed.

End ExcelValues.

(** ** Blank paragraphs *)

Section BlankParagraphs.
Import PyStr Docx.

Lemma no_blips_no_change parts image_format images_dir runs :
  Forall (fun r => run_blips r = []) runs ->
  forall st, extract_images_of parts image_format images_dir st runs = st.
Proof.
  intros H. unfold extract_images_of.
  induction H as [|r runs Hr _ IH]; intros st; [reflexivity|].
  cbn [fold_left]. unfold extract_run_images at 2. rewrite Hr. cbn [fold_left]. apply IH.
Qed.

Lemma blank_paragraph_skipped parts extract_images image_format images_dir st p :
  blank_paragraph p ->
  convert_element parts extract_images image_format images_dir (Some st) (BParagraph p)
  = Some st.
Proof.
  intros [Hb Ht]. unfold convert_element, _process_paragraph.
  assert (Hst : (if extract_images
                 then extract_images_of parts image_format images_dir
                        (mkImgState (ds_counter st) [] (run_text_parts (para_runs p)) (ds_fs st))
                        (para_runs p)
                 else mkImgState (ds_counter st) [] (run_text_parts (para_runs p)) (ds_fs st))
                = mkImgState (ds_counter st) [] (run_text_parts (para_runs p)) (ds_fs st)).
  { destruct extract_images; [now apply no_blips_no_change | reflexivity]. }
  rewrite Hst. cbn [st_text_parts st_fs st_images]. rewrite Ht. cbn [truthy negb].
  rewrite app_nil_r, Z.add_0_r. now destruct st.
Qed.

(** X22.  A paragraph without images whose runs hold whitespace only
    leaves no trace: the Word conversion of a body is the same with and
    without it, wherever it stands. *)
Theorem X22_blank_paragraphs_vanish (before after : list body_element) (p : paragraph)
    (parts : related_parts) (extract_images : bool) (image_format images_dir : string)
    (fs0 : FS.fs) :
  blank_paragraph p ->
  _convert_docx (before ++ BParagraph p :: after) parts extract_images image_format
    images_dir fs0
  = _convert_docx (before ++ after) parts extract_images image_format images_dir fs0.
Proof.
  intros Hp. unfold _convert_docx. rewrite !fold_left_app. cbn [fold_left].
  destruct (fold_left _ before _) as [st|]; [|reflexivity].
  now rewrite blank_paragraph_skipped.
Qed.

End BlankParagraphs.

(** ** What [_clean_markdown] keeps *)

Section CleanContent.
Import PyStr Docx.

Lemma solid_app s t : solid (s ++ t) = solid s ++ solid t.
Proof.
  induction s as [|c s IH]; [reflexivity|]. cbn [append solid].
  destruct (is_space c || Ascii.eqb c "-"); [exact IH|]. cbn [append]. now rewrite IH.
Qed.

Lemma solid_newlines n : solid (repeat_nat nl n) = "".
Proof. induction n as [|n IH]; [reflexivity | exact IH]. Qed.

Lemma solid_emit_newlines run : solid (emit_newlines run) = "".
Proof.
  unfold emit_newlines. destruct (3 <=? run); [reflexivity | apply solid_newlines].
Qed.

Lemma solid_collapse s : forall run, solid (collapse_newlines run s) = solid s.
Proof.
  induction s as [|c s IH]; intros run; cbn [collapse_newlines].
  - apply solid_emit_newlines.
  - destruct (Ascii.eqb c newline) eqn:E.
    + apply Ascii.eqb_eq in E. subst c. rewrite IH. reflexivity.
    + rewrite solid_app, solid_emit_newlines. cbn [append solid].
      now rewrite IH.
Qed.

Lemma drop_add a : forall b s, drop (a + b) s = drop b (drop a s).
Proof.
  induction a as [|a IH]; intros b s; [reflexivity|].
  destruct s as [|c s]; cbn [Nat.add drop]; [now destruct b | apply IH].
Qed.

Lemma solid_drop_span s : solid (drop (span_space s) s) = solid s.
Proof.
  induction s as [|c s IH]; [reflexivity|]. cbn [span_space].
  destruct (is_space c) eqn:E; [|reflexivity].
  cbn [drop solid]. now rewrite E.
Qed.

Lemma solid_drop_ws s : solid (drop (ws_to_last_newline s) s) = solid s.
Proof.
  induction s as [|c s IH]; [reflexivity|]. cbn [ws_to_last_newline].
  destruct (is_space c) eqn:E; [|reflexivity].
  destruct (ws_to_last_newline s) as [|k] eqn:Ek.
  - destruct (Ascii.eqb c newline); [|reflexivity].
    cbn [drop solid]. now rewrite E.
  - cbn [drop solid]. now rewrite E.
Qed.

Lemma hashes_prefix s :
  s = repeat_nat "#" (count_hashes s) ++ drop (count_hashes s) s.
Proof.
  induction s as [|c s IH]; [reflexivity|]. cbn [count_hashes].
  destruct (Ascii.eqb_spec c "#") as [-> | Hc].
  - cbn [repeat_nat append drop]. now rewrite <- IH.
  - destruct c as [[] [] [] [] [] [] [] []]; try reflexivity. congruence.
Qed.

Lemma solid_hashes n : solid (repeat_nat "#" n) = repeat_nat "#" n.
Proof. induction n as [|n IH]; [reflexivity|]. cbn [repeat_nat append solid]. now rewrite IH. Qed.

Lemma solid_fix_headers s : forall k, solid (fix_headers k s) = solid (drop k s).
Proof.
  induction s as [|c s IH]; intros k; [now destruct k|].
  cbn [fix_headers]. destruct k as [|k]; [|apply IH].
  cbn [drop].
  set (h := count_hashes (String c s)).
  set (w := ws_to_last_newline (drop h (String c s))).
  destruct ((1 <=? h) && (h <=? 6) && (1 <=? w)) eqn:E.
  - apply andb_true_iff in E as [E Hw]. apply andb_true_iff in E as [Hh _].
    apply Nat.leb_le in Hh, Hw.
    rewrite !solid_app, solid_hashes, IH.
    change (solid " ") with "". cbn [append].
    assert (Hs : solid (String c s) = repeat_nat "#" h ++ solid (drop h (String c s))).
    { rewrite (hashes_prefix (String c s)) at 1. fold h.
      now rewrite solid_app, solid_hashes. }
    rewrite Hs. f_equal.
    replace (h + w - 1) with ((h - 1) + w) by lia.
    rewrite drop_add.
    assert (Hd : drop (h - 1) s = drop h (String c s)).
    { replace h with (S (h - 1)) at 2 by lia. reflexivity. }
    rewrite Hd. subst w. apply solid_drop_ws.
  - cbn [solid]. rewrite IH. reflexivity.
Qed.

Lemma solid_fix_lists s : forall k, solid (fix_lists k s) = solid (drop k s).
Proof.
  induction s as [|c s IH]; intros k; [now destruct k|].
  cbn [fix_lists]. destruct k as [|k]; [|apply IH].
  cbn [drop].
  assert (Hplain : solid (String c (fix_lists 0 s)) = solid (String c s)).
  { cbn [solid]. now rewrite IH. }
  destruct (drop (span_space s) s) as [|d t] eqn:Ed; [exact Hplain|].
  destruct (Ascii.eqb_spec d "-") as [-> | Hd].
  - destruct (Ascii.eqb c newline && (1 <=? ws_to_last_newline t)) eqn:E.
    + apply andb_true_iff in E as [Hc _]. apply Ascii.eqb_eq in Hc. subst c.
      rewrite solid_app, IH. cbn [solid append].
      change (is_space newline || Ascii.eqb newline "-") with true. cbn iota.
      replace (span_space s + 1 + ws_to_last_newline t)
        with (span_space s + (1 + ws_to_last_newline t)) by lia.
      rewrite drop_add, Ed. cbn [Nat.add drop].
      rewrite solid_drop_ws, <- (solid_drop_span s), Ed. reflexivity.
    + exact Hplain.
  - destruct d as [[] [] [] [] [] [] [] []]; try exact Hplain. congruence.
Qed.

Lemma solid_rstrip s : solid (rstrip s) = solid s.
Proof.
  induction s as [|c s IH]; [reflexivity|]. cbn [rstrip].
  destruct (rstrip s) as [|d t] eqn:E.
  - cbn [solid] in IH. destruct (is_space c) eqn:Hc.
    + cbn [solid]. now rewrite Hc.
    + cbn [solid]. rewrite Hc. cbn [orb]. now rewrite <- IH.
  - cbn [solid]. cbn [solid] in IH. rewrite <- IH. reflexivity.
Qed.

Lemma solid_lstrip s : solid (lstrip s) = solid s.
Proof.
  induction s as [|c s IH]; [reflexivity|]. cbn [lstrip].
  destruct (is_space c) eqn:Hc; [|reflexivity].
  cbn [solid]. now rewrite Hc.
Qed.

Lemma split_lines_nonempty s : split_lines s <> [].
Proof.
  destruct s as [|c s]; [discriminate|]. cbn [split_lines].
  destruct (Ascii.eqb c newline); [discriminate|].
  destruct (split_lines s); discriminate.
Qed.

Lemma solid_join_rstrip lines :
  solid (join nl (map rstrip lines)) = solid (join nl lines).
Proof.
  induction lines as [|a rest IH]; [reflexivity|].
  destruct rest as [|b rest'].
  - cbn [map join]. apply solid_rstrip.
  - cbn [map]. cbn [map] in IH. rewrite !join_cons, !solid_app, solid_rstrip.
    now rewrite IH.
Qed.

Lemma join_split_lines s : join nl (split_lines s) = s.
Proof.
  induction s as [|c s IH]; [reflexivity|]. cbn [split_lines].
  pose proof (split_lines_nonempty s) as Hne.
  destruct (Ascii.eqb_spec c newline) as [-> | Hc].
  - destruct (split_lines s) as [|l ls]; [congruence|].
    rewrite join_cons, IH. reflexivity.
  - destruct (split_lines s) as [|l ls]; [congruence|].
    destruct ls as [|l2 ls].
    + cbn [join] in *. now rewrite IH.
    + rewrite join_cons in *. cbn [append]. now rewrite IH.
Qed.

(** X20.  [_clean_markdown] changes nothing but whitespace and dashes:
    the characters other than whitespace and [-] are the same, in the
    same order, before and after. *)
Theorem X20_clean_markdown_keeps_content (markdown : string) :
  solid (_clean_markdown markdown) = solid markdown.
Proof.
  unfold _clean_markdown, strip.
  rewrite solid_rstrip, solid_lstrip, solid_join_rstrip, join_split_lines.
  rewrite solid_fix_lists. cbn [drop]. rewrite solid_fix_headers. cbn [drop].
  apply solid_collapse.
Qed.

(** *** Texts of one line *)

Lemma collapse_no_newline s :
  none_of is_newline s = true -> collapse_newlines 0 s = s.
Proof.
  induction s as [|c s IH]; [reflexivity|]. cbn [none_of collapse_newlines].
  intros H. apply andb_true_iff in H as [Hc Hs]. unfold is_newline in Hc.
  apply negb_true_iff in Hc. rewrite Hc. cbn [emit_newlines Nat.leb repeat_nat append].
  now rewrite (IH Hs).
Qed.

Lemma ws_no_newline s : none_of is_newline s = true -> ws_to_last_newline s = 0.
Proof.
  induction s as [|c s IH]; [reflexivity|]. cbn [none_of ws_to_last_newline].
  intros H. apply andb_true_iff in H as [Hc Hs]. unfold is_newline in Hc.
  apply negb_true_iff in Hc. rewrite (IH Hs), Hc. now destruct (is_space c).
Qed.

Lemma none_of_drop p n : forall s, none_of p s = true -> none_of p (drop n s) = true.
Proof.
  induction n as [|n IH]; intros s H; [exact H|].
  destruct s as [|c s]; [reflexivity|]. cbn [drop]. apply IH.
  cbn [none_of] in H. now apply andb_true_iff in H as [_ H].
Qed.

Lemma fix_headers_no_newline s :
  none_of is_newline s = true -> fix_headers 0 s = s.
Proof.
  induction s as [|c s IH]; [reflexivity|]. intros H. cbn [fix_headers].
  rewrite (ws_no_newline (drop _ (String c s))) by now apply none_of_drop.
  rewrite andb_false_r.
  cbn [none_of] in H. apply andb_true_iff in H as [_ Hs]. now rewrite (IH Hs).
Qed.

Lemma fix_lists_no_newline s :
  none_of is_newline s = true -> fix_lists 0 s = s.
Proof.
  induction s as [|c s IH]; [reflexivity|]. intros H. cbn [fix_lists].
  cbn [none_of] in H. apply andb_true_iff in H as [Hc Hs]. unfold is_newline in Hc.
  apply negb_true_iff in Hc. rewrite Hc. cbn [andb]. rewrite (IH Hs).
  destruct (drop (span_space s) s) as [|d t]; [reflexivity|].
  destruct d as [[] [] [] [] [] [] [] []]; reflexivity.
Qed.

Lemma rstrip_empty s : rstrip s = "" -> lstrip s = "".
Proof.
  induction s as [|c s IH]; [reflexivity|]. cbn [rstrip lstrip].
  destruct (rstrip s) as [|d t]; [|discriminate].
  destruct (is_space c); [intros _; now apply IH | discriminate].
Qed.

Lemma lstrip_rstrip s : lstrip (rstrip s) = rstrip (lstrip s).
Proof.
  induction s as [|c s IH]; [reflexivity|].
  cbn [rstrip lstrip]. destruct (is_space c) eqn:Hc.
  - destruct (rstrip s) as [|d t] eqn:E.
    + rewrite (rstrip_empty s E). reflexivity.
    + cbn [lstrip]. rewrite Hc. exact IH.
  - cbn [rstrip]. destruct (rstrip s) as [|d t]; cbn [lstrip]; now rewrite Hc.
Qed.

(** X21.  On a text without newline [_clean_markdown] is [str.strip]. *)
Theorem X21_clean_markdown_one_line (markdown : string) :
  none_of is_newline markdown = true ->
  _clean_markdown markdown = strip markdown.
Proof.
  intros H. unfold _clean_markdown.
  rewrite (collapse_no_newline _ H), (fix_headers_no_newline _ H),
    (fix_lists_no_newline _ H), (split_lines_single _ H).
  cbn [map join]. unfold strip.
  now rewrite lstrip_rstrip, rstrip_idempotent.
Qed.

End CleanContent.

(** ** The unified converter *)

Section UnifiedFacts.
Import PyStr ImageOptimizer Unified.
Context {pil : PIL} {libs : Libraries}.

Lemma write_text_content path text fs fs' :
  write_text path text fs = Ok fs' -> file_content path fs' = Some (utf8 text).
Proof.
  unfold write_text, FS.write.
  destruct (mem path (FS.fs_unwritable fs)); [discriminate|].
  intros [= <-]. unfold file_content. cbn [FS.fs_files find fst].
  now rewrite String.eqb_refl.
Qed.

Lemma derived_name_truthy f : truthy (Office.derived_name f) = true.
Proof.
  unfold Office.derived_name. destruct (Office.path_stem (Office.file_path f)); reflexivity.
Qed.

Lemma choose_output_name_truthy file_path output_name fs name :
  choose_output_name file_path output_name fs = Ok name -> truthy name = true.
Proof.
  unfold choose_output_name.
  assert (Hd : (data <- read_bytes file_path fs ;;
                Ok (Office.derived_name (Office.mkFile file_path data))) = Ok name ->
               truthy name = true).
  { destruct (read_bytes file_path fs) as [data|m]; cbn [bind]; [|discriminate].
    intros [= <-]. apply derived_name_truthy. }
  destruct output_name as [n|]; [|exact Hd].
  destruct (truthy n) eqn:E; [|exact Hd]. now intros [= <-].
Qed.

Lemma docx_convert_file_saves output_dir file_path extract_images image_format name fs r fs' :
  truthy name = true ->
  docx_convert_file output_dir file_path extract_images image_format (Some name) fs
  = Ok (r, fs') ->
  r_conversion_dir r = Some (joinpath output_dir name)
  /\ r_output_path r = Some (joinpath (joinpath output_dir name) (name ++ ".md"))
  /\ file_content (joinpath (joinpath output_dir name) (name ++ ".md")) fs'
     = Some (utf8 (r_markdown r)).
Proof.
  intros Hname. unfold docx_convert_file, choose_output_name. rewrite Hname.
  destruct (negb (path_exists file_path fs)); [discriminate|].
  destruct (negb (mem _ [".docx"; ".doc"])); [discriminate|].
  cbn [bind].
  destruct (mkdir (joinpath output_dir name) fs) as [fs1|m]; cbn [bind]; [|discriminate].
  destruct (mkdir (joinpath (joinpath output_dir name) "images") fs1) as [fs2|m];
    cbn [bind]; [|discriminate].
  match goal with
  | |- (bind ?conv _) = _ -> _ => destruct conv as [[[markdown images] fs3]|m]
  end; cbn [bind]; [|discriminate].
  destruct (write_text _ markdown fs3) as [fs4|m] eqn:Ew; cbn [bind]; [|discriminate].
  intros [= <- <-]. cbn [r_conversion_dir r_output_path r_markdown].
  split; [reflexivity|]. split; [reflexivity|].
  exact (write_text_content _ _ _ _ Ew).
Qed.

Lemma excel_convert_file_unsaved opt file_path extract_images image_format images_dir fs r fs' :
  excel_convert_file opt file_path extract_images image_format images_dir fs = Ok (r, fs') ->
  r_output_path r = None.
Proof.
  unfold excel_convert_file.
  destruct (negb (path_exists file_path fs)); [discriminate|].
  destruct (negb (mem _ [".xlsx"; ".xls"])); [discriminate|].
  destruct (load_workbook file_path fs) as [sheets|m]; cbn [bind]; [|discriminate].
  destruct (Excel.convert_file _ _ _ _ _ _) as [[[markdown images] fs1]|m];
    cbn [bind]; [|discriminate].
  now intros [= <- _].
Qed.

Lemma pptx_convert_file_unsaved opt file_path extract_images image_format images_dir fs r fs' :
  pptx_convert_file opt file_path extract_images image_format images_dir fs = Ok (r, fs') ->
  r_output_path r = None.
Proof.
  unfold pptx_convert_file.
  destruct (negb (path_exists file_path fs)); [discriminate|].
  destruct (negb (mem _ [".pptx"; ".ppt"])); [discriminate|].
  destruct (Presentation file_path fs) as [slides|m]; cbn [bind]; [|discriminate].
  destruct (Pptx.convert_file _ _ _ _ _ _ _) as [[markdown images] fs1].
  now intros [= <- _].
Qed.

(** X23.  [OfficeConverter.convert_file] tests the existence of the file
    first: a missing file raises [FileNotFoundError] with [File not
    found: path] whatever its suffix; a file that exists with a suffix
    of no supported type raises [ValueError] with the suffix as written
    and the six supported extensions. *)
Theorem X23_convert_file_errors (cache_dir file_path : string) (extract_images : bool)
    (image_format : string) (output_name : option string) (fs : FS.fs) :
  (path_exists file_path fs = false ->
   convert_file cache_dir file_path extract_images image_format output_name fs
   = Raise ("File not found: " ++ file_path))
  /\ (path_exists file_path fs = true -> Formats.get_file_type file_path = None ->
      convert_file cache_dir file_path extract_images image_format output_name fs
      = Raise ("Unsupported file format: " ++ Formats.path_suffix file_path
               ++ ". Supported formats: .docx, .doc, .xlsx, .xls, .pptx, .ppt")).
Proof.
  split.
  - intros H. unfold convert_file. now rewrite H.
  - intros H1 H2. unfold convert_file. rewrite H1, H2. cbn [negb].
    reflexivity.
Qed.

(** X24.  When [OfficeConverter.convert_file] returns, for any of the
    three types, the result names the directory [cache_dir/output/name]
    and the file [name.md] in it, where [name] is the output name given
    or the one derived from the file; that file holds the UTF-8
    encoding of the markdown returned, and the [file_type] entry is
    what [get_file_type] says. *)
Theorem X24_convert_file_saves_markdown (cache_dir file_path : string)
    (extract_images : bool) (image_format : string) (output_name : option string)
    (fs : FS.fs) (r : conversion_result) (fs' : FS.fs) :
  convert_file cache_dir file_path extract_images image_format output_name fs
  = Ok (r, fs') ->
  exists name,
    choose_output_name file_path output_name fs = Ok name
    /\ r_conversion_dir r = Some (joinpath (joinpath cache_dir "output") name)
    /\ r_output_path r
       = Some (joinpath (joinpath (joinpath cache_dir "output") name) (name ++ ".md"))
    /\ file_content
         (joinpath (joinpath (joinpath cache_dir "output") name) (name ++ ".md")) fs'
       = Some (utf8 (r_markdown r))
    /\ r_file_type r = Formats.get_file_type file_path.
Proof.
  unfold convert_file.
  destruct (negb (path_exists file_path fs)); [discriminate|].
  destruct (Formats.get_file_type file_path) as [file_type|]; [|discriminate].
  destruct (choose_output_name file_path output_name fs) as [name|m] eqn:En;
    cbn [bind]; [|discriminate].
  pose proof (choose_output_name_truthy _ _ _ _ En) as Hname.
  set (output_dir := joinpath cache_dir "output").
  destruct (mkdir (joinpath output_dir name) fs) as [fs1|m]; cbn [bind]; [|discriminate].
  destruct (mkdir (joinpath (joinpath output_dir name) "images") fs1) as [fs2|m];
    cbn [bind]; [|discriminate].
  match goal with
  | |- (bind ?conv _) = _ -> _ => destruct conv as [[r1 fs3]|m] eqn:Ec
  end; cbn [bind]; [|discriminate].
  intros H. exists name. split; [reflexivity|].
  destruct (String.eqb file_type "word") eqn:Ew.
  - destruct (docx_convert_file_saves _ _ _ _ _ _ _ _ Hname Ec) as (Hd & Hp & Hc).
    rewrite Hp in H. cbn [bind] in H. injection H as <- <-.
    cbn [r_conversion_dir r_output_path r_markdown r_file_type].
    repeat split; assumption || reflexivity.
  - assert (Hnone : r_output_path r1 = None).
    { destruct (String.eqb file_type "excel").
      - exact (excel_convert_file_unsaved _ _ _ _ _ _ _ _ Ec).
      - destruct (String.eqb file_type "powerpoint"); [|discriminate].
        exact (pptx_convert_file_unsaved _ _ _ _ _ _ _ _ Ec). }
    rewrite Hnone in H.
    destruct (write_text _ (r_markdown r1) fs3) as [fs4|m] eqn:Ewr; cbn [bind] in H;
      [|discriminate].
    injection H as <- <-. cbn [r_conversion_dir r_output_path r_markdown r_file_type].
    repeat split; try reflexivity.
    exact (write_text_content _ _ _ _ Ewr).
Qed.

End UnifiedFacts.

(** ** Configuration *)

Section ConfigFacts.
Import PyStr Config.
Context {env : Env}.

Lemma dict_get_set key k v d :
  dict_get key (dict_set k v d) = if String.eqb k key then Some v else dict_get key d.
Proof.
  induction d as [|[k' w] rest IH]; cbn [dict_set dict_get].
  - reflexivity.
  - destruct (String.eqb_spec k' k) as [-> | Hk]; cbn [dict_get].
    + destruct (String.eqb k key); reflexivity.
    + rewrite IH. destruct (String.eqb_spec k' key) as [-> | Hk']; [|reflexivity].
      destruct (String.eqb_spec k key) as [-> | _]; [congruence | reflexivity].
Qed.

Lemma dict_get_absent key (s : dict) : ~ In key (map fst s) -> dict_get key s = None.
Proof.
  induction s as [|[k v] rest IH]; [reflexivity|]. cbn [map fst In dict_get].
  intros H. destruct (String.eqb_spec k key) as [-> | _]; [tauto|]. apply IH. tauto.
Qed.

Lemma dict_get_update (s : dict) : forall (d : dict) key,
  NoDup (map fst s) ->
  dict_get key (dict_update d s)
  = match dict_get key s with Some v => Some v | None => dict_get key d end.
Proof.
  unfold dict_update.
  induction s as [|[k v] rest IH]; intros d key Hnd; [reflexivity|].
  cbn [fold_left fst snd dict_get]. inversion Hnd as [|? ? Hk Hrest]; subst.
  rewrite (IH _ key Hrest), dict_get_set.
  destruct (String.eqb_spec k key) as [-> | _]; [|reflexivity].
  now rewrite (dict_get_absent key rest Hk).
Qed.

(** X25.  [get_image_optimization_settings] merges the settings of the
    configuration over the defaults: a key of the settings has the
    value of the settings, any other key the value of the defaults, and
    the keys [enabled], [max_dimension], [quality] are always present. *)
Theorem X25_settings_override_defaults (self : config) (settings : dict) :
  data_get (config_data self) "image_optimization" (JDict []) = Ok (JDict settings) ->
  NoDup (map fst settings) ->
  exists merged,
    get_image_optimization_settings self = Ok merged
    /\ (forall key,
          dict_get key merged
          = match dict_get key settings with
            | Some v => Some v
            | None => dict_get key image_defaults
            end)
    /\ (forall key, In key ["enabled"; "max_dimension"; "quality"] ->
        dict_get key merged <> None).
Proof.
  intros Hget Hnd. unfold get_image_optimization_settings. rewrite Hget. cbn [bind merge].
  eexists. split; [reflexivity|].
  assert (Hlaw : forall key,
             dict_get key (dict_update image_defaults settings)
             = match dict_get key settings with
               | Some v => Some v
               | None => dict_get key image_defaults
               end) by (intros; now apply dict_get_update).
  split; [exact Hlaw|].
  intros key Hin. rewrite Hlaw. destruct (dict_get key settings); [discriminate|].
  cbn [In] in Hin. destruct Hin as [<- | [<- | [<- | []]]]; discriminate.
Qed.

(** X26.  [get_cache_dir]: a non-empty [OFFICEREADER_CACHE_DIR] is
    returned as it is, whatever the configuration holds (even one that
    is not a dict); an empty one counts as unset; without it, a missing
    or falsy [cache_dir] entry gives [None], and an absolute path is
    returned whatever the place of the configuration file. *)
Theorem X26_cache_dir_priority (self : config) :
  (forall e, e <> "" -> get_cache_dir self (Some e) = Ok (Some e))
  /\ get_cache_dir self (Some "") = get_cache_dir self None
  /\ (forall d v,
        config_data self = JDict d ->
        dict_get "cache_dir" d = None
        \/ (dict_get "cache_dir" d = Some v /\ json_truthy v = false) ->
        get_cache_dir self None = Ok None)
  /\ (forall d s,
        config_data self = JDict d -> dict_get "cache_dir" d = Some (JStr s) ->
        s <> "" -> is_absolute s = true ->
        get_cache_dir self None = Ok (Some (path_str s))).
Proof.
  split; [|split; [reflexivity|split]].
  - intros e He. unfold get_cache_dir. destruct e; [congruence | reflexivity].
  - intros d v Hd H. unfold get_cache_dir, data_get. rewrite Hd.
    destruct H as [-> | [-> Hv]]; cbn [bind]; unfold resolve; [reflexivity|].
    now rewrite Hv.
  - intros d s Hd Hs Hne Habs. unfold get_cache_dir, data_get. rewrite Hd, Hs.
    cbn [bind]. unfold resolve. cbn [json_truthy].
    destruct s; [congruence|]. cbn [truthy]. rewrite Habs. cbn [negb].
    now destruct (config_path self).
Qed.

(** X27.  A configuration file that does not exist, or that cannot be
    opened or parsed, raises nothing: the [Config] built for it holds an
    empty dict, so that the conversion and image settings are the
    defaults and no cache or output directory is configured. *)
Theorem X27_unusable_config_gives_defaults (p : string) :
  p <> "" ->
  path_exists (path_str p) = false \/ (exists msg, json_load (path_str p) = Raise msg) ->
  get_default_settings (init (Some p)) = Ok conversion_defaults
  /\ get_image_optimization_settings (init (Some p)) = Ok image_defaults
  /\ get_cache_dir (init (Some p)) None = Ok None
  /\ get_output_dir (init (Some p)) = Ok None.
Proof.
  intros Hp H.
  assert (Hinit : init (Some p) = mkConfig (JDict []) (Some (path_str p))).
  { unfold init. destruct p; [congruence|]. cbn [truthy].
    destruct (path_exists (path_str (String a p))) eqn:E; [|reflexivity].
    destruct H as [H | [msg H]]; [discriminate|].
    unfold _load_config. now rewrite H. }
  rewrite Hinit. repeat split.
Qed.

End ConfigFacts.

(** ** The server's preview *)

Section ServerFacts.
Import Server.

Lemma substring_prefix n : forall s,
  n <= String.length s ->
  exists rest, s = substring 0 n s ++ rest /\ String.length (substring 0 n s) = n.
Proof.
  induction n as [|n IH]; intros s Hn.
  - exists s. destruct s; split; reflexivity.
  - destruct s as [|c s]; [cbn in Hn; lia|].
    cbn [String.length] in Hn. destruct (IH s ltac:(lia)) as (rest & Hs & Hl).
    exists rest. cbn [substring append String.length]. split; [now rewrite <- Hs | now rewrite Hl].
Qed.

Lemma length_append s t : String.length (s ++ t) = String.length s + String.length t.
Proof. induction s as [|c s IH]; cbn [append String.length]; [reflexivity | now rewrite IH]. Qed.

(** X28.  The preview of the markdown in the answer of [convert_document]
    is the markdown itself when it has at most 2000 characters, and
    otherwise its first 2000 characters followed by three dots; it never
    exceeds 2003 characters. *)
Theorem X28_markdown_preview (markdown : string) :
  (String.length markdown <= 2000 -> markdown_preview markdown = markdown)
  /\ (2000 < String.length markdown ->
      exists head rest,
        markdown = head ++ rest /\ String.length head = 2000
        /\ markdown_preview markdown = head ++ "...")
  /\ String.length (markdown_preview markdown) <= 2003.
Proof.
  unfold markdown_preview.
  destruct (Nat.ltb_spec 2000 (String.length markdown)) as [Hlong | Hshort].
  - destruct (substring_prefix 2000 markdown ltac:(lia)) as (rest & Hs & Hl).
    split; [lia|]. split.
    + intros _. exists (substring 0 2000 markdown), rest. now repeat split.
    + rewrite length_append, Hl. cbn [String.length]. lia.
  - split; [reflexivity|]. split; [lia | lia].
Qed.

End ServerFacts.

(** ** The further properties on concrete inputs *)

Section FurtherExamples.
Import PyStr ImageOptimizer.

Lemma X3_human_readable_size_witness :
  HumanSize._human_readable_size 1536000 = Ok "1.5 MB".
Proof.
  rewrite (X3_human_readable_size 1536000) by (split; [discriminate | reflexivity]).
  vm_compute. reflexivity.
Defined.

Lemma X5_compression_ratio_witness :
  exists r : Q,
    get_compression_ratio [Byte.x00; Byte.x00] [Byte.x00] = Some r
    /\ ([Byte.x00; Byte.x00] = [] -> r = 1%Q)
    /\ ([Byte.x00; Byte.x00] <> [] -> Qcompare r 1 = Nat.compare 1 2).
Proof. apply (X5_compression_ratio [Byte.x00; Byte.x00] [Byte.x00]). reflexivity. Defined.

Lemma X6_automatic_format_witness :
  exists image',
    @_resize_if_needed toy_pil default_optimizer (mkImage "P" 1 1 [[0]%Z]) = Ok image'
    /\ (prefer_webp default_optimizer = true -> ".webp" = ".webp")
    /\ (prefer_webp default_optimizer = false ->
        mem "P" ["RGBA"; "LA"; "P"] = true -> ".webp" = ".png")
    /\ (prefer_webp default_optimizer = false ->
        mem "P" ["RGBA"; "LA"; "P"] = false ->
        ".webp" = if @_is_photo_like toy_pil image' then ".jpg" else ".png").
Proof.
  apply (@X6_automatic_format toy_pil default_optimizer (mkImage "P" 1 1 [[0]%Z])
           "" None []); [left; reflexivity | vm_compute; reflexivity].
Defined.


Lemma X11_no_image_files_witness :
  exists c,
    Docx._convert_docx [image_paragraph "rId1"] [("rId1", png_part)] true "base64" "img"
      (FS.mkFs [] []) = Some c
    /\ Docx.images c = [] /\ Docx.fs_after c = FS.mkFs [] [].
Proof.
  eexists. split; [reflexivity|].
  apply (proj1 (@X11_no_image_files toy_pil true "base64" eq_refl)
           [image_paragraph "rId1"] [("rId1", png_part)] "img" (FS.mkFs [] [])).
  reflexivity.
Defined.

Lemma X12_unknown_image_format_witness :
  Docx.extract_blip [("rId1", png_part)] "none" "img"
    (Docx.mkImgState 0 [] [] (FS.mkFs [] [])) (Some "rId1")
  = Docx.mkImgState 1 [] [nl ++ "![image](images/image_001.png)" ++ nl] (FS.mkFs [] []).
Proof.
  exact (proj1 (@X12_unknown_image_format toy_pil "none" eq_refl)
           [("rId1", png_part)] "img" (Docx.mkImgState 0 [] [] (FS.mkFs [] []))
           "rId1" png_part eq_refl eq_refl).
Defined.

Lemma X14_grouped_pictures_are_skipped_witness :
  snd (fst (@Pptx.convert_file toy_pil default_optimizer "a.pptx"
              [Pptx.mkSlide None
                 [Pptx.Shape None None
                    (Pptx.Group [Pptx.Shape None None (Pptx.Picture (Ok [Byte.x01]))])]
                 None]
              true "file" "img" (FS.mkFs [] []))) = []
  /\ snd (@Pptx.convert_file toy_pil default_optimizer "a.pptx"
            [Pptx.mkSlide None
               [Pptx.Shape None None
                  (Pptx.Group [Pptx.Shape None None (Pptx.Picture (Ok [Byte.x01]))])]
               None]
            true "file" "img" (FS.mkFs [] [])) = FS.mkFs [] [].
Proof. apply (@X14_grouped_pictures_are_skipped toy_pil). reflexivity. Defined.

Lemma X15_excel_image_numbering_witness :
  numbered "img" "excel_image_" [".webp"; ".png"; ".jpg"] 0
    ["img/excel_image_001.webp"; "img/excel_image_002.webp"]
  /\ List.length ["img/excel_image_001.webp"; "img/excel_image_002.webp"]
     = count_sheet_images [Excel.mkSheet "S" [] [[Byte.x01]; [Byte.x02]]].
Proof.
  apply (@X15_excel_image_numbering toy_pil default_optimizer
           [Excel.mkSheet "S" [] [[Byte.x01]; [Byte.x02]]] "file" "img" (FS.mkFs [] [])
           (join nl
              ["# Sheet: S" ++ nl; "*Empty sheet*" ++ nl;
               nl ++ "![excel_image_001](images/excel_image_001.webp)" ++ nl;
               nl ++ "![excel_image_002](images/excel_image_002.webp)" ++ nl;
               nl ++ "---" ++ nl])
           ["img/excel_image_001.webp"; "img/excel_image_002.webp"]
           (FS.mkFs [("img/excel_image_002.webp", []); ("img/excel_image_001.webp", [])]
              [])
           eq_refl).
  vm_compute. reflexivity.
Defined.

Lemma X16_docx_image_numbering_witness :
  numbered "img" "image_" [".png"; ".jpg"; ".gif"; ".bmp"] 0
    ["img/image_001.png"; "img/image_002.png"].
Proof.
  refine (X16_docx_image_numbering [image_paragraph "rId1"; image_paragraph "rId2"]
            [("rId1", png_part); ("rId2", png_part)] "file" "img" (FS.mkFs [] [])
            (Docx.mkConversion _ ["img/image_001.png"; "img/image_002.png"] _)
            eq_refl eq_refl _).
  reflexivity.
Defined.

Lemma X17_word_table_shape_witness :
  map columns (split_lines (Docx._process_table [["a"; "b|c"]; ["d"]])) = [2; 2; 1]
  /\ Pptx._extract_table [["a"; "b|c"]; ["d"]]
     = Docx._process_table [["a"; "b|c"]; ["d"]] ++ nl.
Proof.
  apply (X17_word_table_shape ["a"; "b|c"] [["d"]]).
  repeat constructor; discriminate.
Defined.

Lemma X18_numbers_are_content_witness :
  Excel.sheet_data [[Excel.CNone; Excel.CInt 0]] = [[Excel.CNone; Excel.CInt 0]].
Proof.
  apply (X18_numbers_are_content [Excel.CNone; Excel.CInt 0] []).
  left. exists 0%Z. right. left. reflexivity.
Defined.

Lemma X19_empty_sheet_witness :
  @Excel.convert_sheet toy_pil default_optimizer true "file" "img"
    (Excel.mkExcelState [] [] 0 (FS.mkFs [] []))
    (Excel.mkSheet "S" [[Excel.CNone; Excel.CStr " "]] [])
  = Ok (Excel.mkExcelState
          ["# Sheet: S" ++ nl; "*Empty sheet*" ++ nl; nl ++ "---" ++ nl]
          [] 0 (FS.mkFs [] [])).
Proof.
  apply (@X19_empty_sheet toy_pil default_optimizer true "file" "img"
           (Excel.mkExcelState [] [] 0 (FS.mkFs [] []))
           (Excel.mkSheet "S" [[Excel.CNone; Excel.CStr " "]] [])).
  - constructor; [|constructor].
    constructor; [left; reflexivity|].
    constructor; [right; reflexivity | constructor].
  - reflexivity.
Defined.

Lemma X21_clean_markdown_one_line_witness :
  Docx._clean_markdown "  # Title  " = strip "  # Title  ".
Proof. exact (X21_clean_markdown_one_line "  # Title  " eq_refl). Defined.

Lemma X22_blank_paragraphs_vanish_witness :
  Docx._convert_docx
    ([image_paragraph "rId1"]
     ++ Docx.BParagraph
          (Docx.mkParagraph "Heading 1" [Docx.mkRun "  " false false false false []] None)
        :: [image_paragraph "rId1"])
    [("rId1", png_part)] true "file" "img" (FS.mkFs [] [])
  = Docx._convert_docx ([image_paragraph "rId1"] ++ [image_paragraph "rId1"])
      [("rId1", png_part)] true "file" "img" (FS.mkFs [] []).
Proof.
  apply (X22_blank_paragraphs_vanish [image_paragraph "rId1"] [image_paragraph "rId1"]).
  split; [constructor; [reflexivity | constructor] | reflexivity].
Defined.

Lemma X24_convert_file_saves_markdown_witness :
  file_content "/cache/output/out/out.md"
    (FS.mkFs [("/cache/output/out/out.md", []); ("/d/a.xlsx", [Byte.x50])] [])
  = Some (Unified.utf8 "").
Proof.
  destruct (@X24_convert_file_saves_markdown toy_pil Unified.toy_libraries
              "/cache" "/d/a.xlsx" true "file" (Some "out")
              (FS.mkFs [("/d/a.xlsx", [Byte.x50])] [])
              (Unified.mkResult "" [] (Some "/cache/output/out/out.md")
                 (Some "/cache/output/out") (Some "excel"))
              (FS.mkFs [("/cache/output/out/out.md", []); ("/d/a.xlsx", [Byte.x50])] [])
              eq_refl)
    as (name & Hname & _ & _ & Hcontent & _).
  injection Hname as <-. exact Hcontent.
Defined.

Lemma X25_settings_override_defaults_witness :
  exists merged,
    Config.get_image_optimization_settings
      (Config.mkConfig
         (Config.JDict [("image_optimization", Config.JDict [("quality", Config.JInt 60)])])
         None) = Ok merged
    /\ (forall key,
          Config.dict_get key merged
          = match Config.dict_get key [("quality", Config.JInt 60)] with
            | Some v => Some v
            | None => Config.dict_get key Config.image_defaults
            end)
    /\ (forall key, In key ["enabled"; "max_dimension"; "quality"] ->
        Config.dict_get key merged <> None).
Proof.
  apply (X25_settings_override_defaults
           (Config.mkConfig
              (Config.JDict
                 [("image_optimization", Config.JDict [("quality", Config.JInt 60)])])
              None)
           [("quality", Config.JInt 60)]).
  - reflexivity.
  - repeat constructor. intros [].
Defined.

Lemma X27_unusable_config_gives_defaults_witness :
  Config.get_default_settings (@Config.init Config.toy_env (Some "/etc/officereader.json"))
  = Ok Config.conversion_defaults
  /\ Config.get_image_optimization_settings
       (@Config.init Config.toy_env (Some "/etc/officereader.json"))
     = Ok Config.image_defaults
  /\ @Config.get_cache_dir Config.toy_env
       (@Config.init Config.toy_env (Some "/etc/officereader.json")) None = Ok None
  /\ @Config.get_output_dir Config.toy_env
       (@Config.init Config.toy_env (Some "/etc/officereader.json")) = Ok None.
Proof.
  apply (@X27_unusable_config_gives_defaults Config.toy_env "/etc/officereader.json").
  - discriminate.
  - right. eexists. reflexivity.
Defined.

End FurtherExamples.
